(** * Protocol probe and classification engine (nooshdaroo test tools)

  A shallow embedding of the Python scripts
    - [dns_test_server.py]         (module [DnsTestServer]),
    - [protocol_tester_client.py]  (module [ProtocolTesterClient]),
    - [multiport_analyzer.py]      (module [MultiportAnalyzer]),
    - [test_dns_blocking.py]       (module [TestDnsBlocking]),
  followed by the properties of the specification stated over them.

  Conventions.  A Python [bytes] value is a [list byte]; a Python [str] is
  a Rocq [string] holding its UTF-8 encoding, so [s.encode()] is
  [list_byte_of_string s] and [len(s)] is [str_len s], the number of
  characters; slices and widths of a [str] count bytes, which is what
  Python does on ASCII text.  [len] of a [bytes] or a list is [length].
  A Python [float] is a binary64 number of [SpecFloat].  Code that
  performs I/O or can raise runs in the monad [M S] below: a state
  transformer whose result is a value, a raised exception, or a thread
  that blocks for ever.  The accept loops, which only start a thread per
  connection, and the command-line entry points are not modelled; each
  handler is modelled for one connection. *)

From Stdlib Require Import ZArith List Ascii String Lia Sorted.
From Stdlib.Strings Require Import Byte.
From Stdlib.Floats Require Import SpecFloat.
From stdpp Require Import base list strings gmap pretty.
Import ListNotations.

Local Open Scope string_scope.
Local Open Scope list_scope.

(* ================================================================== *)
(** * The Python runtime *)
(* ================================================================== *)

Module Py.

Abbreviation bytes := (list byte).

(** The exception classes the scripts distinguish in their [except]
    clauses.  Every constructor carries the text that [str(e)] yields. *)
Inductive exn : Type :=
| ConnectionRefusedError (msg : string)
| SocketTimeout (msg : string)          (* socket.timeout *)
| StructError (msg : string)            (* struct.error *)
| IndexError (msg : string)
| OtherException (msg : string).        (* any other subclass of Exception *)

Definition str_exn (e : exn) : string :=
  match e with
  | ConnectionRefusedError m | SocketTimeout m | StructError m
  | IndexError m | OtherException m => m
  end.

Definition is_timeout (e : exn) : bool :=
  match e with SocketTimeout _ => true | _ => false end.

Definition is_refused (e : exn) : bool :=
  match e with ConnectionRefusedError _ => true | _ => false end.

(** Outcome of running a piece of code. *)
Inductive res (A : Type) : Type :=
| Ok (a : A)          (* ran to completion *)
| Raise (e : exn)     (* an exception escaped *)
| Hang.               (* blocked in a system call that never returns *)
Arguments Ok {A} a.
Arguments Raise {A} e.
Arguments Hang {A}.

Definition M (S A : Type) : Type := S -> res A * S.

Definition ret {S A} (a : A) : M S A := fun s => (Ok a, s).
Definition raise {S A} (e : exn) : M S A := fun s => (Raise e, s).
Definition hang {S A} : M S A := fun s => (Hang, s).

Definition bind {S A B} (m : M S A) (k : A -> M S B) : M S B :=
  fun s =>
    match m s with
    | (Ok a, s') => k a s'
    | (Raise e, s') => (Raise e, s')
    | (Hang, s') => (Hang, s')
    end.

Definition get {S} : M S S := fun s => (Ok s, s).
Definition modify {S} (f : S -> S) : M S unit := fun s => (Ok tt, f s).

(** [try: body / except <clauses>]: [handler e] is [None] when no clause
    matches [e], which then keeps propagating. *)
Definition try_except {S A} (body : M S A) (handler : exn -> option (M S A))
  : M S A :=
  fun s =>
    match body s with
    | (Raise e, s') =>
        match handler e with
        | Some h => h s'
        | None => (Raise e, s')
        end
    | r => r
    end.

(** [try: body / finally: cleanup].  A blocked thread never reaches the
    cleanup. *)
Definition try_finally {S A} (body : M S A) (cleanup : M S unit) : M S A :=
  fun s =>
    match body s with
    | (Ok a, s') =>
        match cleanup s' with
        | (Ok _, s'') => (Ok a, s'')
        | (Raise e, s'') => (Raise e, s'')
        | (Hang, s'') => (Hang, s'')
        end
    | (Raise e, s') =>
        match cleanup s' with
        | (Ok _, s'') => (Raise e, s'')
        | (Raise e', s'') => (Raise e', s'')
        | (Hang, s'') => (Hang, s'')
        end
    | (Hang, s') => (Hang, s')
    end.

(** Lift a pure computation that may raise. *)
Definition lift_res {S A} (r : res A) : M S A := fun s => (r, s).

(** Run code written against the outer world in a state that also holds
    Python variables of type [V]. *)
Definition io {W V A} (m : M W A) : M (W * V) A :=
  fun '(w, v) => let '(r, w') := m w in (r, (w', v)).

(** Assignment to the Python variables in scope. *)
Definition assign {W V} (f : V -> V) : M (W * V) unit :=
  fun '(w, v) => (Ok tt, (w, f v)).

Definition read {W V} : M (W * V) V := fun '(w, v) => (Ok v, (w, v)).

(** [while True: body], observed for at most [fuel] iterations.  The loop
    itself never finishes: it ends only when an iteration raises or
    blocks; [Ok tt] means that it is still running after [fuel] rounds. *)
Fixpoint while_true {S} (fuel : nat) (body : M S unit) : M S unit :=
  match fuel with
  | O => ret tt
  | S n => bind body (fun _ => while_true n body)
  end.

(** ** bytes and str helpers *)

Definition encode (s : string) : bytes := list_byte_of_string s.

Definition hex_digit (n : N) : string :=
  match n with
  | 0 => "0" | 1 => "1" | 2 => "2" | 3 => "3" | 4 => "4" | 5 => "5"
  | 6 => "6" | 7 => "7" | 8 => "8" | 9 => "9" | 10 => "a" | 11 => "b"
  | 12 => "c" | 13 => "d" | 14 => "e" | _ => "f"
  end%N.

(** [bytes.hex()] *)
Fixpoint hex (bs : bytes) : string :=
  match bs with
  | [] => ""
  | b :: rest =>
      hex_digit (Byte.to_N b / 16) ++ hex_digit (Byte.to_N b mod 16) ++ hex rest
  end.

(** [s[:n]] on a [str] *)
Definition str_take (n : nat) (s : string) : string := String.substring 0 n s.

(** [struct.pack('!H', n)]: two bytes, most significant first;
    [struct.error] when [n] does not fit 16 bits. *)
Definition pack_H (n : N) : res bytes :=
  match Byte.of_N (n / 256), Byte.of_N (n mod 256) with
  | Some hi, Some lo => Ok [hi; lo]
  | _, _ => Raise (StructError "'H' format requires 0 <= number <= 65535")
  end.

(** [struct.unpack('!H', b)[0]] *)
Definition unpack_H (b : bytes) : res N :=
  match b with
  | [hi; lo] => Ok (256 * Byte.to_N hi + Byte.to_N lo)%N
  | _ => Raise (StructError "unpack requires a buffer of 2 bytes")
  end.

(** [' ' * n] *)
Fixpoint spaces (n : nat) : string :=
  match n with
  | O => ""
  | S k => " " ++ spaces k
  end.

(** The format specifications [{s:<n}] and [{s:>n}] on text that is
    already rendered. *)
Definition ljust (n : nat) (s : string) : string :=
  s ++ spaces (n - String.length s).
Definition rjust (n : nat) (s : string) : string :=
  spaces (n - String.length s) ++ s.

(** [s.split(sep)] for a one-character separator *)
Fixpoint split (sep : Ascii.ascii) (s : string) : list string :=
  match s with
  | EmptyString => [""]
  | String c rest =>
      if Ascii.eqb c sep then "" :: split sep rest
      else match split sep rest with
           | h :: t => String c h :: t
           | [] => [String c ""]
           end
  end.

(** [l[i]] on a list *)
Definition index {S A} (l : list A) (i : nat) : M S A :=
  match l !! i with
  | Some x => ret x
  | None => raise (IndexError "list index out of range")
  end.

(** [struct.pack('!H', len(payload)) + payload]: the framing of DNS over
    TCP, as the server writes it (dns_test_server.py, line 98) and as the
    clients do (protocol_tester_client.py, line 121; test_dns_blocking.py,
    lines 61 and 108). *)
Definition wrap_tcp_length_prefix (payload : bytes) : res bytes :=
  match pack_H (N.of_nat (length payload)) with
  | Ok prefix => Ok (prefix ++ payload)
  | Raise e => Raise e
  | Hang => Hang
  end.

(** [s * n] on a [str] *)
Fixpoint times (s : string) (n : nat) : string :=
  match n with
  | O => ""
  | S k => s ++ times s k
  end.

(** [len(s)] on a [str]: the number of characters, which in UTF-8 is the
    number of bytes that do not continue a character (10xxxxxx). *)
Definition is_continuation (c : Ascii.ascii) : bool :=
  let n := Ascii.N_of_ascii c in (128 <=? n)%N && (n <? 192)%N.

Fixpoint str_len (s : string) : nat :=
  match s with
  | EmptyString => 0
  | String c rest => (if is_continuation c then 0 else 1) + str_len rest
  end.

(** ** float *)

(** A Python [float] is an IEEE 754 binary64 number; its arithmetic rounds
    to the nearest, ties to even. *)
Abbreviation float := spec_float.

(** [float(n)], also the conversion of an [int] operand next to a [float] *)
Definition float_of_int (n : Z) : float := binary_normalize 53 1024 n 0 false.

Definition float_sub (x y : float) : float := SFsub 53 1024 x y.
Definition float_mul (x y : float) : float := SFmul 53 1024 x y.
Definition float_div (x y : float) : float := SFdiv 53 1024 x y.

(** [int(x)]: the integer part, rounded towards zero.  Python raises on an
    infinity and on a NaN; the scripts convert differences of clock
    readings only, which are neither, and the model has 0 there. *)
Definition int_of_float (x : float) : Z :=
  match x with
  | S754_finite s m e =>
      cond_Zopp s
        (if (0 <=? e)%Z then Z.pos m * 2 ^ e else Z.pos m / 2 ^ (- e))%Z
  | _ => 0%Z
  end.

Arguments float_of_int : simpl never.
Arguments float_sub : simpl never.
Arguments float_mul : simpl never.
Arguments float_div : simpl never.
Arguments int_of_float : simpl never.

End Py.

Export Py.

#[global] Instance M_ret {S} : MRet (M S) := fun A a => ret a.
#[global] Instance M_bind {S} : MBind (M S) := fun A B k m => bind m k.

(* ================================================================== *)
(** * Sockets and the outside world *)
(* ================================================================== *)

Module Net.

(** A socket address as Python shows it: [(host, port)]. *)
Definition addr : Type := string * Z.

Definition str_addr (a : addr) : string :=
  "('" ++ fst a ++ "', " ++ pretty (snd a) ++ ")".

(** What the peer of a TCP connection does next. *)
Inductive incoming : Type :=
| Seg (bs : bytes)      (* these bytes arrive *)
| Fin                   (* the peer shuts the connection down *)
| Stall                 (* nothing arrives, for longer than any timeout *)
| Fault (e : exn).      (* the transport reports an error *)

Record tcp : Type := Tcp {
  tcp_timeout : option Z;        (* [settimeout]; [None] is blocking mode *)
  tcp_connect : option exn;      (* what [connect] raises, if anything *)
  tcp_rxbuf : bytes;             (* received and not yet read *)
  tcp_future : list incoming;    (* what the peer will do *)
  tcp_send : option exn;         (* what [sendall] raises, if anything *)
  tcp_sent : bytes;              (* everything written so far *)
  tcp_closed : bool
}.

(** What reaches a UDP socket next. *)
Inductive dgram_event : Type :=
| Dgram (bs : bytes) (from : addr)
| DStall
| DFault (e : exn).

Record udp : Type := Udp {
  udp_timeout : option Z;
  udp_inbox : list dgram_event;
  udp_send : option exn;                (* what [sendto] raises, if anything *)
  udp_outbox : list (bytes * addr);     (* datagrams sent, oldest first *)
  udp_closed : bool
}.

(** The environment a script runs in.  [w_tcp] and [w_udp] are the sockets
    the code under study currently holds; [w_tcp_pool] and [w_udp_pool] are
    the sockets that later calls of [socket.socket] will return, each with
    the behaviour of its peer.  The system clock counts nanoseconds in 64
    bits and [datetime.now().isoformat()] is read as the text it returns;
    the [n]-th reading of either clock is [w_time n] and [w_now n].
    [os.urandom]
    draws consecutive bytes of the stream [w_entropy]. *)
Record world : Type := World {
  w_tcp : tcp;
  w_udp : udp;
  w_tcp_pool : list tcp;
  w_udp_pool : list udp;
  w_stdout : list string;        (* lines printed, oldest first *)
  w_time : nat -> Z;
  w_now : nat -> string;
  w_ticks : nat;                 (* clock readings taken so far *)
  w_entropy : nat -> byte;
  w_drawn : nat                  (* random bytes drawn so far *)
}.

Definition set_tcp (f : tcp -> tcp) (w : world) : world :=
  World (f (w_tcp w)) (w_udp w) (w_tcp_pool w) (w_udp_pool w) (w_stdout w)
        (w_time w) (w_now w) (w_ticks w) (w_entropy w) (w_drawn w).
Definition set_udp (f : udp -> udp) (w : world) : world :=
  World (w_tcp w) (f (w_udp w)) (w_tcp_pool w) (w_udp_pool w) (w_stdout w)
        (w_time w) (w_now w) (w_ticks w) (w_entropy w) (w_drawn w).
Definition set_stdout (f : list string -> list string) (w : world) : world :=
  World (w_tcp w) (w_udp w) (w_tcp_pool w) (w_udp_pool w) (f (w_stdout w))
        (w_time w) (w_now w) (w_ticks w) (w_entropy w) (w_drawn w).

(** [print(line)] *)
Definition print (line : string) : M world unit :=
  modify (set_stdout (fun out => out ++ [line])).

Definition tick (w : world) : world :=
  World (w_tcp w) (w_udp w) (w_tcp_pool w) (w_udp_pool w) (w_stdout w)
        (w_time w) (w_now w) (S (w_ticks w)) (w_entropy w) (w_drawn w).

(** The clock reading [ns], in nanoseconds, as the [float] of seconds that
    [time.time()] returns: the interpreter converts a whole number of
    seconds as it is and divides any other count by 1e9. *)
Definition seconds (ns : Z) : float :=
  if (ns mod 1000000000 =? 0)%Z then float_of_int (ns / 1000000000)
  else float_div (float_of_int ns) (float_of_int 1000000000).

(** [time.time()] *)
Definition time_time : M world float :=
  fun w => (Ok (seconds (w_time w (w_ticks w))), tick w).

Arguments seconds : simpl never.

(** [datetime.now().isoformat()] *)
Definition now_isoformat : M world string :=
  fun w => (Ok (w_now w (w_ticks w)), tick w).

(** [time.sleep]: time passes, which only the clocks show. *)
Definition time_sleep : M world unit := ret tt.

(** [os.urandom(n)] *)
Definition urandom (n : nat) : M world bytes :=
  fun w =>
    (Ok (map (w_entropy w) (seq (w_drawn w) n)),
     World (w_tcp w) (w_udp w) (w_tcp_pool w) (w_udp_pool w) (w_stdout w)
           (w_time w) (w_now w) (w_ticks w) (w_entropy w) (w_drawn w + n)).

(** [socket.socket(AF_INET, SOCK_STREAM)]: the next socket of the pool
    becomes the current one; the system refuses when none is left. *)
Definition socket_stream : M world unit :=
  fun w =>
    match w_tcp_pool w with
    | c :: pool =>
        (Ok tt,
         World c (w_udp w) pool (w_udp_pool w) (w_stdout w) (w_time w)
               (w_now w) (w_ticks w) (w_entropy w) (w_drawn w))
    | [] => (Raise (OtherException "[Errno 24] Too many open files"), w)
    end.

(** [socket.socket(AF_INET, SOCK_DGRAM)] *)
Definition socket_dgram : M world unit :=
  fun w =>
    match w_udp_pool w with
    | u :: pool =>
        (Ok tt,
         World (w_tcp w) u (w_tcp_pool w) pool (w_stdout w) (w_time w)
               (w_now w) (w_ticks w) (w_entropy w) (w_drawn w))
    | [] => (Raise (OtherException "[Errno 24] Too many open files"), w)
    end.

(** ** TCP *)

Definition timed_out {A} (t : option Z) : res A :=
  match t with
  | Some _ => Raise (SocketTimeout "timed out")
  | None => Hang
  end.

(** [sock.recv(n)].  Data already buffered is handed out at once, at most
    [n] bytes of it; otherwise the call waits for the peer's next move.
    End of stream is the empty result, and stays so. *)
Fixpoint recv_wait (n : nat) (t : option Z) (future : list incoming)
  : res bytes * bytes * list incoming :=
  match future with
  | [] => (Ok [], [], [])
  | Seg [] :: rest => recv_wait n t rest
  | Seg bs :: rest => (Ok (take n bs), drop n bs, rest)
  | Fin :: rest => (Ok [], [], Fin :: rest)
  | Stall :: rest => (timed_out t, [], rest)
  | Fault e :: rest => (Raise e, [], rest)
  end.

Definition tcp_recv (n : nat) (c : tcp) : res bytes * tcp :=
  match n, tcp_rxbuf c with
  | O, _ => (Ok [], c)
  | _, _ :: _ =>
      (Ok (take n (tcp_rxbuf c)),
       Tcp (tcp_timeout c) (tcp_connect c) (drop n (tcp_rxbuf c))
           (tcp_future c) (tcp_send c) (tcp_sent c) (tcp_closed c))
  | _, [] =>
      let '(r, buf, fut) := recv_wait n (tcp_timeout c) (tcp_future c) in
      (r, Tcp (tcp_timeout c) (tcp_connect c) buf fut (tcp_send c)
              (tcp_sent c) (tcp_closed c))
  end.

Definition tcp_sendall (data : bytes) (c : tcp) : res unit * tcp :=
  match tcp_send c with
  | Some e => (Raise e, c)
  | None =>
      (Ok tt,
       Tcp (tcp_timeout c) (tcp_connect c) (tcp_rxbuf c) (tcp_future c)
           (tcp_send c) (tcp_sent c ++ data) (tcp_closed c))
  end.

Definition tcp_do_connect (c : tcp) : res unit * tcp :=
  match tcp_connect c with
  | Some e => (Raise e, c)
  | None => (Ok tt, c)
  end.

Definition tcp_settimeout (t : Z) (c : tcp) : tcp :=
  Tcp (Some t) (tcp_connect c) (tcp_rxbuf c) (tcp_future c) (tcp_send c)
      (tcp_sent c) (tcp_closed c).

Definition tcp_close (c : tcp) : tcp :=
  Tcp (tcp_timeout c) (tcp_connect c) (tcp_rxbuf c) (tcp_future c)
      (tcp_send c) (tcp_sent c) true.

Definition on_tcp {A} (op : tcp -> res A * tcp) : M world A :=
  fun w => let '(r, c) := op (w_tcp w) in (r, set_tcp (fun _ => c) w).

Definition recv (n : nat) : M world bytes := on_tcp (tcp_recv n).
Definition sendall (data : bytes) : M world unit := on_tcp (tcp_sendall data).
Definition connect : M world unit := on_tcp tcp_do_connect.

(** What [sock.settimeout(t)] raises, for a whole number [t] of seconds:
    [OverflowError] when [t] in nanoseconds does not fit 64 bits (the text
    is that of CPython 3.11), [ValueError] when [t] is negative. *)
Definition timeout_error (t : Z) : option exn :=
  if (9223372036 <? Z.abs t)%Z then
    Some (OtherException "timestamp too large to convert to C _PyTime_t")
  else if (t <? 0)%Z then Some (OtherException "Timeout value out of range")
  else None.

(** [sock.settimeout(t)].  An accepted [t] bounds every later call on the
    socket.  Two ranges of [t] are accepted by Python and not modelled: at
    0 the socket becomes non-blocking, and above 2147483 seconds the
    timeout in milliseconds no longer fits the C [int] that [poll] takes.
    The scripts pass 5 and 3; what is stated about the outcome of a call
    under a timeout chosen by the caller takes it between 1 and 2147483. *)
Definition settimeout (t : Z) : M world unit :=
  match timeout_error t with
  | Some e => raise e
  | None => modify (set_tcp (tcp_settimeout t))
  end.

Definition close : M world unit := modify (set_tcp tcp_close).

(** ** UDP *)

(** [sock.recvfrom(n)]: one datagram, cut to [n] bytes. *)
Definition udp_recvfrom (n : nat) (u : udp) : res (bytes * addr) * udp :=
  match udp_inbox u with
  | Dgram bs a :: rest =>
      (Ok (take n bs, a),
       Udp (udp_timeout u) rest (udp_send u) (udp_outbox u) (udp_closed u))
  | DStall :: rest =>
      (timed_out (udp_timeout u),
       Udp (udp_timeout u) rest (udp_send u) (udp_outbox u) (udp_closed u))
  | DFault e :: rest =>
      (Raise e,
       Udp (udp_timeout u) rest (udp_send u) (udp_outbox u) (udp_closed u))
  | [] => (timed_out (udp_timeout u), u)
  end.

Definition udp_sendto (data : bytes) (a : addr) (u : udp) : res unit * udp :=
  match udp_send u with
  | Some e => (Raise e, u)
  | None =>
      (Ok tt,
       Udp (udp_timeout u) (udp_inbox u) (udp_send u)
           (udp_outbox u ++ [(data, a)]) (udp_closed u))
  end.

Definition udp_settimeout (t : Z) (u : udp) : udp :=
  Udp (Some t) (udp_inbox u) (udp_send u) (udp_outbox u) (udp_closed u).

Definition udp_close (u : udp) : udp :=
  Udp (udp_timeout u) (udp_inbox u) (udp_send u) (udp_outbox u) true.

Definition on_udp {A} (op : udp -> res A * udp) : M world A :=
  fun w => let '(r, u) := op (w_udp w) in (r, set_udp (fun _ => u) w).

Definition recvfrom (n : nat) : M world (bytes * addr) := on_udp (udp_recvfrom n).
Definition sendto (data : bytes) (a : addr) : M world unit := on_udp (udp_sendto data a).
Definition usettimeout (t : Z) : M world unit :=
  match timeout_error t with
  | Some e => raise e
  | None => modify (set_udp (udp_settimeout t))
  end.
Definition uclose : M world unit := modify (set_udp udp_close).

(** ** Worlds to start from *)

(** An accepted TCP connection in blocking mode on which [inbound] has
    already arrived in full, after which the peer does [then_]. *)
Definition stream_of (inbound : bytes) (then_ : list incoming) : tcp :=
  Tcp None None inbound then_ None [] false.

(** A client socket not yet connected. *)
Definition fresh_tcp (conn send : option exn) (peer : list incoming) : tcp :=
  Tcp None conn [] peer send [] false.

Definition fresh_udp (send : option exn) (inbox : list dgram_event) : udp :=
  Udp None inbox send [] false.

Definition idle_tcp : tcp := fresh_tcp None None [].
Definition idle_udp : udp := fresh_udp None [].

(** A server-side world: the handler is handed the accepted connection
    [c] and the bound datagram socket [u]. *)
Definition world_of (c : tcp) (u : udp) : world :=
  World c u [] [] [] (fun _ => 0%Z) (fun _ => "") 0 (fun _ => x00) 0.

(** A client-side world: no socket yet, [tcps] and [udps] are the sockets
    the script will create, in order; [clock] is the system clock. *)
Definition client_world (tcps : list tcp) (udps : list udp) (clock : nat -> Z)
    (entropy : nat -> byte) : world :=
  World idle_tcp idle_udp tcps udps [] clock (fun _ => "") 0 entropy 0.

End Net.

Export Net.


(* ================================================================== *)
(** * dns_test_server.py *)
(* ================================================================== *)

Module DnsTestServer.

(** The response both DNS handlers assemble from a received query
    ([handle_dns_tcp], lines 73-95, and [dns_udp_server], lines 118-137,
    which differ only in the name of the variable holding the query). *)
Definition build_dns_response (query : bytes) : bytes :=
  let transaction_id := take 2 query in
  let response_flags := [x81; x80] in       (* standard response, no error *)
  let questions := [x00; x01] in
  let answers := [x00; x01] in
  let authority := [x00; x00] in
  let additional := [x00; x00] in
  let question_section := drop 12 query in  (* skip header *)
  let answer :=
    [xc0; x0c] ++                 (* name pointer to question *)
    [x00; x01] ++                 (* type A *)
    [x00; x01] ++                 (* class IN *)
    [x00; x00; x01; x2c] ++       (* TTL 300 *)
    [x00; x04] ++                 (* RDLENGTH 4 *)
    [xac; xd9; x0e; xce] in       (* 172.217.14.206 *)
  transaction_id ++ response_flags ++ questions ++ answers ++ authority
    ++ additional ++ question_section ++ answer.

(** Lines 58-71 of [handle_dns_tcp]: read the 2-byte length prefix, then the
    query.  [None] is the early [return] after a bad prefix. *)
Definition read_tcp_length_prefixed : M world (option bytes) :=
  length_data ← recv 2;
  if decide (length length_data ≠ 2) then
    print "[DNS-TCP] Invalid length prefix";;
    close;;
    mret None
  else
    query_length ← lift_res (unpack_H length_data);
    print ("[DNS-TCP] Expecting " ++ pretty query_length ++ " bytes");;
    query ← recv (N.to_nat query_length);
    print ("[DNS-TCP] Received " ++ pretty (length query) ++ " bytes");;
    print ("[DNS-TCP] Query (hex): " ++ hex (take 50 query));;
    mret (Some query).

Definition handle_dns_tcp (addr : addr) : M world unit :=
  try_finally
    (try_except
       (print ("[DNS-TCP] Connection from " ++ str_addr addr);;
        framed ← read_tcp_length_prefixed;
        match framed with
        | None => mret tt
        | Some query =>
            let response := build_dns_response query in
            wire ← lift_res (wrap_tcp_length_prefix response);
            sendall wire;;
            print ("[DNS-TCP] Sent response: " ++ pretty (length response)
                     ++ " bytes")
        end)
       (fun e => Some (print ("[DNS-TCP] Error: " ++ str_exn e))))
    close.

(** One round of the [while True] loop of [dns_udp_server]. *)
Definition dns_udp_step : M world unit :=
  try_except
    ('(data, addr) ← recvfrom 512;
     print ("[DNS-UDP] Query from " ++ str_addr addr ++ ": "
              ++ pretty (length data) ++ " bytes");;
     print ("[DNS-UDP] Query (hex): " ++ hex (take 50 data));;
     let response := build_dns_response data in
     sendto response addr;;
     print ("[DNS-UDP] Sent response to " ++ str_addr addr ++ ": "
              ++ pretty (length response) ++ " bytes"))
    (fun e => Some (print ("[DNS-UDP] Error: " ++ str_exn e))).

Definition dns_udp_server (port : Z) (fuel : nat) : M world unit :=
  print ("[DNS-UDP] Listening on port " ++ pretty port);;
  while_true fuel dns_udp_step.

(** The handler of the plain echo listener on port 5353. *)
Definition handle_tcp_client (addr : addr) (test_name : string) : M world unit :=
  try_finally
    (try_except
       (print ("[" ++ test_name ++ "] TCP connection from " ++ str_addr addr);;
        data ← recv 4096;
        print ("[" ++ test_name ++ "] Received " ++ pretty (length data)
                 ++ " bytes");;
        print ("[" ++ test_name ++ "] First 50 bytes (hex): "
                 ++ hex (take 50 data));;
        (* Echo back *)
        sendall (encode "ECHO:" ++ data);;
        print ("[" ++ test_name ++ "] Echoed back "
                 ++ pretty (length data + 5) ++ " bytes"))
       (fun e => Some (print ("[" ++ test_name ++ "] Error: " ++ str_exn e))))
    close.

End DnsTestServer.

(* ================================================================== *)
(** * protocol_tester_client.py *)
(* ================================================================== *)

Module ProtocolTesterClient.

(** The [result] dictionary of [test_protocol]; its keys are fixed. *)
Record result : Type := Result {
  port : Z;
  proto : string;
  type : string;
  sent_bytes : nat;
  status : string;
  recv_bytes : nat;
  time_ms : Z
}.

Definition set_status (s : string) (r : result) : result :=
  Result (port r) (proto r) (type r) (sent_bytes r) s (recv_bytes r) (time_ms r).
Definition set_recv_bytes (n : nat) (r : result) : result :=
  Result (port r) (proto r) (type r) (sent_bytes r) (status r) n (time_ms r).
Definition set_time_ms (t : Z) (r : result) : result :=
  Result (port r) (proto r) (type r) (sent_bytes r) (status r) (recv_bytes r) t.

(** The mutable [result] is the Python variable threaded next to the world,
    so that what was stored before an exception is still there in the
    [except] clauses. *)
Definition test_protocol_body (host : string) (port : Z)
    (proto packet_type : string) (data : bytes) (timeout : Z)
  : M (world * result) unit :=
  try_except
    (start ← io time_time;
     (if decide (proto = "tcp") then
        io socket_stream;;
        io (settimeout timeout);;
        io connect;;
        io (sendall data);;
        try_except
          (response ← io (recv 4096);
           assign (set_recv_bytes (length response));;
           assign (set_status "SUCCESS"))
          (fun e =>
             if is_timeout e then Some (assign (set_status "NO_RESPONSE"))
             else None);;
        io close
      else  (* UDP *)
        io socket_dgram;;
        io (usettimeout timeout);;
        io (sendto data (host, port));;
        try_except
          ('(response, addr) ← io (recvfrom 4096);
           assign (set_recv_bytes (length response));;
           assign (set_status "SUCCESS"))
          (fun e =>
             if is_timeout e then Some (assign (set_status "NO_RESPONSE"))
             else None);;
        io uclose);;
     stop ← io time_time;
     assign (set_time_ms
               (int_of_float (float_mul (float_sub stop start)
                                (float_of_int 1000)))))
    (fun e =>
       match e with
       | ConnectionRefusedError _ => Some (assign (set_status "REFUSED"))
       | SocketTimeout _ => Some (assign (set_status "TIMEOUT"))
       | _ => Some (assign (set_status ("ERROR:" ++ str_take 30 (str_exn e))))
       end).

Definition test_protocol (host : string) (port : Z)
    (proto packet_type : string) (data : bytes) (timeout : Z)
  : M world result :=
  fun w =>
    let result :=
      {| port := port; proto := proto; type := packet_type;
         sent_bytes := length data; status := "UNKNOWN"; recv_bytes := 0;
         time_ms := 0 |} in
    let '(r, (w', result')) :=
      test_protocol_body host port proto packet_type data timeout (w, result) in
    (match r with
     | Ok _ => Ok result'        (* return result *)
     | Raise e => Raise e
     | Hang => Hang
     end, w').

(** [bytes([n])] *)
Definition bytes_of_int (n : nat) : res bytes :=
  match Byte.of_N (N.of_nat n) with
  | Some b => Ok [b]
  | None => Raise (OtherException "bytes must be in range(0, 256)")
  end.

(** The loop [for label in labels: qname += bytes([len(label)]) + label.encode()] *)
Fixpoint encode_labels (qname : bytes) (labels : list string) : res bytes :=
  match labels with
  | [] => Ok qname
  | label :: rest =>
      match bytes_of_int (str_len label) with
      | Ok n => encode_labels (qname ++ n ++ encode label) rest
      | Raise e => Raise e
      | Hang => Hang
      end
  end.

Definition make_dns_query (domain : string) : M world bytes :=
  tid ← urandom 2;
  let flags := [x01; x00] in       (* standard query *)
  let qdcount := [x00; x01] in     (* 1 question *)
  let ancount := [x00; x00] in
  let nscount := [x00; x00] in
  let arcount := [x00; x00] in
  (* Encode domain *)
  let labels := split "."%char domain in
  qname ← lift_res (encode_labels [] labels);
  let qname := qname ++ [x00] in
  let qtype := [x00; x01] in       (* A record *)
  let qclass := [x00; x01] in      (* IN class *)
  mret (tid ++ flags ++ qdcount ++ ancount ++ nscount ++ arcount ++ qname
          ++ qtype ++ qclass).

Definition make_ssh_banner : bytes :=
  encode "SSH-2.0-OpenSSH_8.2p1 Ubuntu-4ubuntu0.5" ++ [x0d; x0a].

Definition make_https_clienthello : M world bytes :=
  let content_type := [x16] in                 (* Handshake *)
  let version := [x03; x01] in                 (* TLS 1.0 (for compatibility) *)
  let length := [x00; x40] in                  (* 64 bytes *)
  let handshake_type := [x01] in               (* ClientHello *)
  let hs_length := [x00; x00; x3c] in          (* 60 bytes *)
  let client_version := [x03; x03] in          (* TLS 1.2 *)
  random ← urandom 32;
  let session_id_len := [x00] in
  let cipher_suites_len := [x00; x02] in
  let cipher_suites := [x00; x2f] in           (* TLS_RSA_WITH_AES_128_CBC_SHA *)
  let compression_methods_len := [x01] in
  let compression_methods := [x00] in          (* no compression *)
  let handshake :=
    handshake_type ++ hs_length ++ client_version ++ random ++ session_id_len
      ++ cipher_suites_len ++ cipher_suites ++ compression_methods_len
      ++ compression_methods in
  mret (content_type ++ version ++ length ++ take 64 handshake).

(** The report: [(name, result)] pairs in the order the probes ran. *)
Definition report : Type := list (string * result).

Definition works (t : string * result) : bool :=
  bool_decide (status (snd t) = "SUCCESS").

(** Lines 152-168 of [run_tests]: the table of results. *)
Definition summary_row (t : string * result) : string :=
  ljust 20 (fst t) ++ " " ++ ljust 15 (status (snd t)) ++ " "
    ++ ljust 8 (pretty (sent_bytes (snd t))) ++ " "
    ++ ljust 8 (pretty (recv_bytes (snd t))) ++ " "
    ++ ljust 10 (pretty (time_ms (snd t))).

Fixpoint summary_rows (tests : report) (success_count : nat) : M world nat :=
  match tests with
  | [] => mret success_count
  | t :: rest =>
      let success_count :=
        if works t then success_count + 1 else success_count in
      print (summary_row t);;
      summary_rows rest success_count
  end.

Definition summary (tests : report) : M world unit :=
  print "";;
  print (times "=" 70);;
  print "RESULTS SUMMARY";;
  print (times "=" 70);;
  print (ljust 20 "Protocol" ++ " " ++ ljust 15 "Status" ++ " "
           ++ ljust 8 "Sent" ++ " " ++ ljust 8 "Recv" ++ " "
           ++ ljust 10 "Time(ms)");;
  print (times "-" 70);;
  success_count ← summary_rows tests 0;
  print (times "=" 70);;
  if decide (length tests = 0) then
    raise (OtherException "integer division or modulo by zero")
  else
    print ("Success Rate: " ++ pretty success_count ++ "/"
             ++ pretty (length tests) ++ " ("
             ++ pretty (100 * success_count / length tests) ++ "%)").

(** Lines 175-184: the DNS family. *)
Definition analyse_dns (tests : report) : M world unit :=
  t0 ← index tests 0;
  let dns_tcp_works := works t0 in
  t1 ← index tests 1;
  let dns_udp_works := works t1 in
  t2 ← index tests 2;
  let dns_tcp_rand := works t2 in
  if dns_udp_works && negb dns_tcp_works then
    print "✓ DNS UDP works, TCP DNS fails → Iran blocks TCP on port 53"
  else if dns_tcp_works && negb dns_tcp_rand then
    print "✓ Valid DNS works, random fails → DPI validates DNS packet structure"
  else if dns_tcp_works && dns_tcp_rand then
    print "✓ Both valid and random DNS work → Port 53 TCP is open"
  else mret tt.

(** Lines 186-192: the SSH family. *)
Definition analyse_ssh (tests : report) : M world unit :=
  t4 ← index tests 4;
  let ssh_works := works t4 in
  t5 ← index tests 5;
  let ssh_rand := works t5 in
  if ssh_works && negb ssh_rand then
    print "✓ SSH banner works, random fails → DPI validates SSH protocol"
  else if ssh_works && ssh_rand then
    print "✓ Both SSH banner and random work → Port 22 TCP is open"
  else mret tt.

(** Lines 194-200: the TLS family. *)
Definition analyse_https (tests : report) : M world unit :=
  t7 ← index tests 7;
  let https_works := works t7 in
  t8 ← index tests 8;
  let https_rand := works t8 in
  if https_works && negb https_rand then
    print "✓ TLS hello works, random fails → DPI validates TLS handshake"
  else if https_works && https_rand then
    print "✓ Both TLS and random work → Port 443 TCP is open"
  else mret tt.

(** Lines 170-200. *)
Definition run_tests_analysis (tests : report) : M world unit :=
  print "";;
  print (times "=" 70);;
  print "ANALYSIS";;
  print (times "=" 70);;
  analyse_dns tests;;
  analyse_ssh tests;;
  analyse_https tests.

(** [tests.append((name, test_protocol(host, port, proto, type, data)))]
    followed by [time.sleep(0.5)]; the timeout is the default, 5 seconds. *)
Definition probe (tests : report) (name host : string) (port : Z)
    (proto packet_type : string) (data : bytes) : M world report :=
  r ← test_protocol host port proto packet_type data 5;
  time_sleep;;
  mret (tests ++ [(name, r)]).

(** The ten probes of [run_tests] (lines 116-150). *)
Definition run_probes (host : string) : M world report :=
  let tests := [] in
  (* DNS tests *)
  print "";;
  print "[1] DNS Protocol Tests";;
  dns_query ← make_dns_query "google.com";
  dns_tcp ← lift_res (wrap_tcp_length_prefix dns_query);
  tests ← probe tests "DNS TCP" host 53 "tcp" "DNS_QUERY" dns_tcp;
  tests ← probe tests "DNS UDP" host 53 "udp" "DNS_QUERY" dns_query;
  junk ← urandom 64;
  tests ← probe tests "DNS TCP (random)" host 53 "tcp" "RANDOM" junk;
  junk ← urandom 64;
  tests ← probe tests "DNS UDP (random)" host 53 "udp" "RANDOM" junk;
  (* SSH tests *)
  print "";;
  print "[2] SSH Protocol Tests";;
  let ssh_banner := make_ssh_banner in
  tests ← probe tests "SSH:22 TCP" host 22 "tcp" "SSH_BANNER" ssh_banner;
  junk ← urandom 64;
  tests ← probe tests "SSH:22 (random)" host 22 "tcp" "RANDOM" junk;
  tests ← probe tests "SSH:2222 TCP" host 2222 "tcp" "SSH_BANNER" ssh_banner;
  (* HTTPS tests *)
  print "";;
  print "[3] HTTPS Protocol Tests";;
  tls_hello ← make_https_clienthello;
  tests ← probe tests "HTTPS:443" host 443 "tcp" "TLS_HELLO" tls_hello;
  junk ← urandom 64;
  tests ← probe tests "HTTPS:443 (random)" host 443 "tcp" "RANDOM" junk;
  tests ← probe tests "HTTPS:8443" host 8443 "tcp" "TLS_HELLO" tls_hello;
  mret tests.

(** [run_tests], up to the point where the results are written to a log
    file (lines 202-209), which is outside this model. *)
Definition run_tests (host : string) : M world unit :=
  print (times "=" 70);;
  print ("Protocol Analysis from Iran VM to " ++ host);;
  print (times "=" 70);;
  tests ← run_probes host;
  summary tests;;
  run_tests_analysis tests.

End ProtocolTesterClient.


(* ================================================================== *)
(** * multiport_analyzer.py *)
(* ================================================================== *)

Module MultiportAnalyzer.

(** One element of the global [connection_log]. *)
Record entry : Type := Entry {
  timestamp : string;
  port : Z;
  protocol : string;
  client : string;
  data_len : nat;
  data_hex : string;
  status : string
}.

(** The code of this script runs next to the global [connection_log].
    The lock around it orders the appends of concurrent handlers; one
    handler at a time is what is modelled here. *)
Abbreviation MA := (M (world * list entry)).

Definition log_connection (port : Z) (protocol : string) (client_addr : addr)
    (data_len : nat) (data_hex status : string) : MA unit :=
  now ← io now_isoformat;
  let entry :=
    {| timestamp := now; port := port; protocol := protocol;
       client := str_addr client_addr; data_len := data_len;
       data_hex := data_hex; status := status |} in
  assign (fun connection_log => connection_log ++ [entry]);;
  io (print ("[" ++ timestamp entry ++ "] " ++ protocol ++ ":" ++ pretty port
               ++ " from " ++ str_addr client_addr ++ " | " ++ pretty data_len
               ++ "B | " ++ status));;
  if decide (0 < data_len) then
    io (print ("  Data (first 64B): " ++ str_take 128 data_hex))
  else mret tt.

(** [x.hex() if x else ""] *)
Definition hex_or_empty (data : bytes) : string :=
  match data with
  | [] => ""
  | _ => hex data
  end.

Definition handle_tcp (addr : addr) (port : Z) (protocol_name : string)
  : MA unit :=
  try_finally
    (try_except
       ((* Set timeout *)
        io (settimeout 5);;
        (* Read first chunk *)
        data ← io (recv 4096);
        let data_hex := hex_or_empty data in
        log_connection port ("TCP-" ++ protocol_name) addr (length data)
          data_hex "RECEIVED";;
        (* Send echo response *)
        match data with
        | [] => mret tt
        | _ =>
            let response := encode ("ECHO:" ++ protocol_name ++ ":") ++ data in
            io (sendall response);;
            log_connection port ("TCP-" ++ protocol_name) addr
              (length response) "" "SENT_ECHO"
        end)
       (fun e =>
          match e with
          | SocketTimeout _ =>
              Some (log_connection port ("TCP-" ++ protocol_name) addr 0 ""
                      "TIMEOUT")
          | _ =>
              Some (log_connection port ("TCP-" ++ protocol_name) addr 0 ""
                      ("ERROR:" ++ str_exn e))
          end))
    (io close).

(** One round of the [while True] loop of [udp_listener]. *)
Definition udp_listener_step (port : Z) (protocol_name : string) : MA unit :=
  try_except
    ('(data, addr) ← io (recvfrom 4096);
     let data_hex := hex_or_empty data in
     log_connection port ("UDP-" ++ protocol_name) addr (length data)
       data_hex "RECEIVED";;
     (* Send echo response *)
     match data with
     | [] => mret tt
     | _ =>
         let response := encode ("ECHO:" ++ protocol_name ++ ":") ++ data in
         io (sendto response addr);;
         log_connection port ("UDP-" ++ protocol_name) addr (length response)
           "" "SENT_ECHO"
     end)
    (fun e =>
       Some (io (print ("[" ++ protocol_name ++ ":" ++ pretty port
                          ++ "] UDP error: " ++ str_exn e)))).

Definition udp_listener (port : Z) (protocol_name : string) (fuel : nat)
  : MA unit :=
  io (print ("[" ++ protocol_name ++ "] UDP Listening on port " ++ pretty port));;
  while_true fuel (udp_listener_step port protocol_name).

(** A value of the [stats] dictionary of [dump_stats]:
    [{'count': _, 'bytes': _, 'clients': set()}]. *)
Record bucket : Type := Bucket {
  count : nat;
  nbytes : nat;               (* key ['bytes'] *)
  clients : gset string
}.

(** [f"{entry['protocol']}:{entry['port']}"] *)
Definition stats_key (e : entry) : string :=
  protocol e ++ ":" ++ pretty (port e).

(** The body of [for entry in connection_log] (lines 115-120). *)
Definition stats_add (stats : gmap string bucket) (e : entry)
  : gmap string bucket :=
  let key := stats_key e in
  let stats :=
    match stats !! key with
    | None => <[key := Bucket 0 0 ∅]> stats
    | Some _ => stats
    end in
  let stats :=
    alter (fun b => Bucket (count b + 1) (nbytes b) (clients b)) key stats in
  let stats :=
    alter (fun b => Bucket (count b) (nbytes b + data_len e) (clients b)) key
      stats in
  alter (fun b => Bucket (count b) (nbytes b) (clients b ∪ {[client e]})) key
    stats.

(** Group by protocol:port (lines 113-120). *)
Definition group_stats (connection_log : list entry) : gmap string bucket :=
  foldl stats_add ∅ connection_log.

(** [sorted(stats.items())]: the keys are distinct, so the order is that of
    the keys alone. *)
Fixpoint insert_by_key (kv : string * bucket) (l : list (string * bucket))
  : list (string * bucket) :=
  match l with
  | [] => [kv]
  | kv' :: rest =>
      if String.leb (fst kv) (fst kv') then kv :: l
      else kv' :: insert_by_key kv rest
  end.

Definition sorted_items (stats : gmap string bucket) : list (string * bucket) :=
  foldr insert_by_key [] (map_to_list stats).

Definition stats_row (kv : string * bucket) : string :=
  ljust 25 (fst kv) ++ ": " ++ rjust 4 (pretty (count (snd kv))) ++ " conn, "
    ++ rjust 8 (pretty (nbytes (snd kv))) ++ " bytes, "
    ++ pretty (size (clients (snd kv))) ++ " clients".

Fixpoint print_rows (rows : list (string * bucket)) : MA unit :=
  match rows with
  | [] => mret tt
  | kv :: rest => io (print (stats_row kv));; print_rows rest
  end.

(** What [dump_stats] does under the lock, once per period. *)
Definition dump_stats_once : MA unit :=
  connection_log ← read;
  io (print "");;
  io (print (times "=" 60));;
  io (print ("STATISTICS - " ++ pretty (length connection_log)
               ++ " total connections"));;
  io (print (times "=" 60));;
  let stats := group_stats connection_log in
  print_rows (sorted_items stats);;
  io (print (times "=" 60));;
  io (print "").

Definition dump_stats (fuel : nat) : MA unit :=
  while_true fuel (io time_sleep;; dump_stats_once).

End MultiportAnalyzer.

(* ================================================================== *)
(** * More of the Python runtime, for test_dns_blocking.py *)
(* ================================================================== *)

Module PyMore.

(** One byte inside [repr] of a [bytes] object delimited by [quote]. *)
Definition repr_byte (quote : byte) (b : byte) : string :=
  if Byte.eqb b quote || Byte.eqb b x5c then
    String "\"%char (string_of_list_byte [b])
  else if Byte.eqb b x09 then "\t"
  else if Byte.eqb b x0a then "\n"
  else if Byte.eqb b x0d then "\r"
  else if (Byte.to_N b <? 32)%N || (127 <=? Byte.to_N b)%N then
    "\x" ++ hex [b]
  else string_of_list_byte [b].

Definition has_byte (b : byte) (bs : bytes) : bool :=
  existsb (fun c => Byte.eqb c b) bs.

(** [repr(data)], as an f-string shows a [bytes] object: single quotes,
    or double quotes when the data holds a single quote and no double
    quote. *)
Definition repr_bytes (data : bytes) : string :=
  let quote :=
    if has_byte x27 data && negb (has_byte x22 data) then x22 else x27 in
  "b" ++ string_of_list_byte [quote]
    ++ String.concat "" (map (repr_byte quote) data)
    ++ string_of_list_byte [quote].

(** [s.zfill(n)] on a string of digits *)
Definition zfill (n : nat) (s : string) : string :=
  times "0" (n - String.length s) ++ s.

(** The float [m * 2 ^ e] in thousandths, rounded to the nearest whole
    number and, when it lies half way, to the even one. *)
Definition thousandths (m : positive) (e : Z) : Z :=
  if (0 <=? e)%Z then (Z.pos m * 2 ^ e * 1000)%Z
  else
    let d := (2 ^ (- e))%Z in
    let q := (Z.pos m * 1000 / d)%Z in
    let r := ((Z.pos m * 1000) mod d)%Z in
    if (d <? 2 * r)%Z || ((2 * r =? d)%Z && Z.odd q) then (q + 1)%Z else q.

(** [f"{x:.3f}"]: the value of the float itself, correctly rounded to
    three decimals. *)
Definition format_3f (x : float) : string :=
  match x with
  | S754_nan => "nan"
  | S754_infinity s => if s then "-inf" else "inf"
  | S754_zero s => (if s then "-" else "") ++ "0.000"
  | S754_finite s m e =>
      let n := thousandths m e in
      (if s then "-" else "")
        ++ pretty (n / 1000)%Z ++ "." ++ zfill 3 (pretty (n mod 1000)%Z)
  end.

(** [time.strftime(fmt)]: the text the wall clock shows. *)
Definition time_strftime : M world string :=
  fun w => (Ok (w_now w (w_ticks w)), tick w).

End PyMore.

Export PyMore.

(* ================================================================== *)
(** * test_dns_blocking.py *)
(* ================================================================== *)

Module TestDnsBlocking.

(** The query of [test_real_dns_query] (lines 46-58): google.com, type A. *)
Definition dns_query : bytes :=
  let transaction_id := [xaa; xbb] in
  let flags := [x01; x00] in        (* standard query *)
  let questions := [x00; x01] in    (* 1 question *)
  let answers := [x00; x00] in
  let authority := [x00; x00] in
  let additional := [x00; x00] in
  let qname := [x06] ++ encode "google" ++ [x03] ++ encode "com" ++ [x00] in
  let qtype := [x00; x01] in        (* A record *)
  let qclass := [x00; x01] in       (* IN class *)
  transaction_id ++ flags ++ questions ++ answers ++ authority ++ additional
    ++ qname ++ qtype ++ qclass.

(** Test 2: a legitimate DNS query over TCP. *)
Definition test_real_dns_query (host : string) (port : Z) : M world bool :=
  print "";;
  print ("[TEST 2] Real DNS Query (TCP) to " ++ host ++ ":" ++ pretty port);;
  try_except
    ((* TCP DNS requires 2-byte length prefix *)
     tcp_dns_query ← lift_res (wrap_tcp_length_prefix dns_query);
     socket_stream;;
     settimeout 5;;
     connect;;
     print "✓ Connected";;
     sendall tcp_dns_query;;
     print ("✓ Sent valid DNS query (" ++ pretty (length tcp_dns_query)
              ++ " bytes)");;
     (* Try to receive response *)
     settimeout 3;;
     try_except
       (length_data ← recv 2;
        if decide (length length_data = 2) then
          response_length ← lift_res (unpack_H length_data);
          print ("✓ Received length prefix: " ++ pretty response_length
                   ++ " bytes expected");;
          response ← recv (N.to_nat response_length);
          print ("✓ Received DNS response: " ++ pretty (length response)
                   ++ " bytes");;
          print ("  Response data: " ++ hex (take 20 response))
        else mret tt)
       (fun e =>
          if is_timeout e then Some (print "✗ No DNS response (timeout)")
          else None);;
     close;;
     mret true)
    (fun e => Some (print ("✗ Failed: " ++ str_exn e);; mret false)).

(** The [results] dictionary of the main program; its keys are fixed. *)
Record results : Type := Results {
  tcp_echo : bool;
  real_dns_tcp : bool;
  fake_dns : bool;
  encrypted : bool;
  udp_dns : bool
}.

(** Lines 234-248. *)
Definition main_analysis (results : results) : M world unit :=
  print "";;
  print "Analysis:";;
  if tcp_echo results && negb (real_dns_tcp results) then
    print "→ TCP connection works, but real DNS queries fail";;
    print "  Likely: DPI inspecting DNS packet format"
  else if real_dns_tcp results && negb (fake_dns results) then
    print "→ Real DNS works, fake DNS fails";;
    print "  Likely: DPI validating DNS packet structure"
  else if real_dns_tcp results && negb (encrypted results) then
    print "→ DNS works, encrypted data fails";;
    print "  Likely: DPI detecting high entropy / encryption"
  else if udp_dns results && negb (real_dns_tcp results) then
    print "→ UDP DNS works, TCP DNS fails";;
    print "  Likely: Iran blocks TCP on port 53 (expects UDP)"
  else
    print "→ See test results above for patterns".

(** Test 1: raw TCP connection. *)
Definition test_tcp_echo (host : string) (port : Z) : M world bool :=
  print "";;
  print ("[TEST 1] Raw TCP Echo Test to " ++ host ++ ":" ++ pretty port);;
  try_except
    (socket_stream;;
     settimeout 5;;
     start ← time_time;
     connect;;
     stop ← time_time;
     let connect_time := float_sub stop start in
     print ("✓ TCP connection established (" ++ format_3f connect_time ++ "s)");;
     (* Send simple data *)
     sendall (encode "HELLO_WORLD_TEST" ++ [x0a]);;
     print "✓ Sent 17 bytes";;
     (* Try to receive *)
     settimeout 3;;
     try_except
       (data ← recv 1024;
        print ("✓ Received " ++ pretty (length data) ++ " bytes: "
                 ++ repr_bytes (take 50 data)))
       (fun e =>
          if is_timeout e then Some (print "✗ No response received (timeout)")
          else None);;
     close;;
     mret true)
    (fun e => Some (print ("✗ Connection failed: " ++ str_exn e);; mret false)).

(** The query of [test_fake_dns_query] (lines 95-107): a DNS header
    followed by a 32-byte label of the letter A. *)
Definition fake_dns_query : bytes :=
  let transaction_id := [xde; xad] in
  let flags := [x01; x00] in
  let questions := [x00; x01] in
  let answers := [x00; x00] in
  let authority := [x00; x00] in
  let additional := [x00; x00] in
  (* Random payload disguised as QNAME *)
  let fake_qname := [x20] ++ replicate 32 x41 ++ [x00] in
  let qtype := [x00; x01] in
  let qclass := [x00; x01] in
  transaction_id ++ flags ++ questions ++ answers ++ authority ++ additional
    ++ fake_qname ++ qtype ++ qclass.

(** Test 3: a DNS-looking query with a random-looking name. *)
Definition test_fake_dns_query (host : string) (port : Z) : M world bool :=
  print "";;
  print ("[TEST 3] Fake DNS Query (random payload) to " ++ host ++ ":"
           ++ pretty port);;
  try_except
    (tcp_dns_query ← lift_res (wrap_tcp_length_prefix fake_dns_query);
     socket_stream;;
     settimeout 5;;
     connect;;
     print "✓ Connected";;
     sendall tcp_dns_query;;
     print ("✓ Sent fake DNS query (" ++ pretty (length tcp_dns_query)
              ++ " bytes)");;
     settimeout 3;;
     try_except
       (data ← recv 1024;
        print ("✓ Received response: " ++ pretty (length data) ++ " bytes"))
       (fun e =>
          if is_timeout e then Some (print "✗ No response (timeout)")
          else None);;
     close;;
     mret true)
    (fun e => Some (print ("✗ Failed: " ++ str_exn e);; mret false)).

(** Test 4: data that looks encrypted. *)
Definition test_encrypted_payload (host : string) (port : Z) : M world bool :=
  print "";;
  print ("[TEST 4] Encrypted Payload Test to " ++ host ++ ":" ++ pretty port);;
  try_except
    (socket_stream;;
     settimeout 5;;
     connect;;
     print "✓ Connected";;
     (* Send high-entropy data (looks encrypted) *)
     encrypted_data ← urandom 256;
     sendall encrypted_data;;
     print ("✓ Sent " ++ pretty (length encrypted_data)
              ++ " bytes of random data");;
     settimeout 3;;
     try_except
       (data ← recv 1024;
        print ("✓ Received response: " ++ pretty (length data) ++ " bytes"))
       (fun e =>
          if is_timeout e then Some (print "✗ No response (timeout)")
          else None);;
     close;;
     mret true)
    (fun e => Some (print ("✗ Failed: " ++ str_exn e);; mret false)).

(** The query of [test_udp_dns] (lines 164-175). *)
Definition udp_dns_query : bytes :=
  let transaction_id := [xcc; xdd] in
  let flags := [x01; x00] in
  let questions := [x00; x01] in
  let answers := [x00; x00] in
  let authority := [x00; x00] in
  let additional := [x00; x00] in
  let qname := [x06] ++ encode "google" ++ [x03] ++ encode "com" ++ [x00] in
  let qtype := [x00; x01] in
  let qclass := [x00; x01] in
  transaction_id ++ flags ++ questions ++ answers ++ authority ++ additional
    ++ qname ++ qtype ++ qclass.

(** Test 5: the real DNS query over UDP. *)
Definition test_udp_dns (host : string) (port : Z) : M world bool :=
  print "";;
  print ("[TEST 5] Real DNS Query (UDP) to " ++ host ++ ":" ++ pretty port);;
  try_except
    (socket_dgram;;
     usettimeout 3;;
     sendto udp_dns_query (host, port);;
     print ("✓ Sent UDP DNS query (" ++ pretty (length udp_dns_query)
              ++ " bytes)");;
     try_except
       ('(data, addr) ← recvfrom 1024;
        print ("✓ Received UDP response: " ++ pretty (length data)
                 ++ " bytes from " ++ str_addr addr);;
        print ("  Response data: " ++ hex (take 20 data)))
       (fun e =>
          if is_timeout e then Some (print "✗ No UDP response (timeout)")
          else None);;
     uclose;;
     mret true)
    (fun e => Some (print ("✗ Failed: " ++ str_exn e);; mret false)).

(** One row of the summary: [f"{test:20s}: {status}"]. *)
Definition summary_line (test : string) (success : bool) : string :=
  ljust 20 test ++ ": " ++ (if success then "✓ PASS" else "✗ FAIL").

(** The main program (lines 201-248), for the target [server_ip]; every
    test uses its default port, 53. *)
Definition main (server_ip : string) : M world results :=
  print (times "=" 60);;
  print "DNS Blocking Analysis - Reverse Engineering Iran's DPI";;
  print (times "=" 60);;
  print ("Target: " ++ server_ip ++ ":53");;
  now ← time_strftime;
  print ("Time: " ++ now);;
  (* Run all tests *)
  r1 ← test_tcp_echo server_ip 53;
  time_sleep;;
  r2 ← test_real_dns_query server_ip 53;
  time_sleep;;
  r3 ← test_fake_dns_query server_ip 53;
  time_sleep;;
  r4 ← test_encrypted_payload server_ip 53;
  time_sleep;;
  r5 ← test_udp_dns server_ip 53;
  let results := Results r1 r2 r3 r4 r5 in
  (* Summary *)
  print "";;
  print (times "=" 60);;
  print "SUMMARY";;
  print (times "=" 60);;
  print (summary_line "tcp_echo" (tcp_echo results));;
  print (summary_line "real_dns_tcp" (real_dns_tcp results));;
  print (summary_line "fake_dns" (fake_dns results));;
  print (summary_line "encrypted" (encrypted results));;
  print (summary_line "udp_dns" (udp_dns results));;
  main_analysis results;;
  mret results.

End TestDnsBlocking.

(* ================================================================== *)
(** * Vocabulary of the specification *)
(* ================================================================== *)

Module Spec.

(** The 16 bytes of the synthesized answer record: compression pointer
    0xC00C, type A, class IN, TTL 300, RDLENGTH 4, 172.217.14.206. *)
Definition answer_record : bytes :=
  [xc0; x0c; x00; x01; x00; x01; x00; x00; x01; x2c; x00; x04;
   xac; xd9; x0e; xce].

(** The ten header bytes that follow the transaction id: flags 0x8180,
    one question, one answer, no authority, no additional record. *)
Definition response_counts : bytes :=
  [x81; x80; x00; x01; x00; x01; x00; x00; x00; x00].

(** The query of the end-to-end scenario. *)
Definition scenario_query : bytes :=
  [xaa; xbb; x01; x00; x00; x01; x00; x00; x00; x00; x00; x00;
   x06; x67; x6f; x6f; x67; x6c; x65; x03; x63; x6f; x6d; x00;
   x00; x01; x00; x01].

(** What a probe run amounts to, in the words of the classification
    rules of the probe runner. *)
Inductive observation : Type :=
| Refusal                            (* the connection was refused *)
| TimedOut (send_succeeded : bool)   (* a timeout, nothing received *)
| Reply (response : bytes)           (* the receive returned these bytes *)
| Failure (message : string).        (* any other transport exception *)

Definition exn_observation (send_succeeded : bool) (e : exn) : observation :=
  match e with
  | ConnectionRefusedError _ => Refusal
  | SocketTimeout _ => TimedOut send_succeeded
  | _ => Failure (str_exn e)
  end.

(** A TCP probe connects, sends, then receives once; the first step that
    raises decides. *)
Definition observe_tcp (timeout : Z) (c : tcp) : observation :=
  match tcp_connect c with
  | Some e => exn_observation false e
  | None =>
      match tcp_send c with
      | Some e => exn_observation false e
      | None =>
          match fst (tcp_recv 4096 (tcp_settimeout timeout c)) with
          | Ok response => Reply response
          | Raise e => exn_observation true e
          | Hang => TimedOut true
          end
      end
  end.

(** A UDP probe sends, then receives once. *)
Definition observe_udp (timeout : Z) (u : udp) : observation :=
  match udp_send u with
  | Some e => exn_observation false e
  | None =>
      match fst (udp_recvfrom 4096 (udp_settimeout timeout u)) with
      | Ok (response, _) => Reply response
      | Raise e => exn_observation true e
      | Hang => TimedOut true
      end
  end.

(** The probe uses the next socket the system hands out. *)
Definition observe (proto : string) (timeout : Z) (w : world) : observation :=
  if decide (proto = "tcp") then
    match w_tcp_pool w with
    | c :: _ => observe_tcp timeout c
    | [] => Failure "[Errno 24] Too many open files"
    end
  else
    match w_udp_pool w with
    | u :: _ => observe_udp timeout u
    | [] => Failure "[Errno 24] Too many open files"
    end.

(** The same for any timeout: one that the socket refuses is an exception
    before anything is sent. *)
Definition outcome (proto : string) (timeout : Z) (w : world) : observation :=
  if decide (proto = "tcp") then
    match w_tcp_pool w with
    | c :: _ =>
        match timeout_error timeout with
        | Some e => exn_observation false e
        | None => observe_tcp timeout c
        end
    | [] => Failure "[Errno 24] Too many open files"
    end
  else
    match w_udp_pool w with
    | u :: _ =>
        match timeout_error timeout with
        | Some e => exn_observation false e
        | None => observe_udp timeout u
        end
    | [] => Failure "[Errno 24] Too many open files"
    end.

(** The classification rules, in priority order: refused, then timeout
    (NO_RESPONSE if the send succeeded, TIMEOUT otherwise), then any bytes
    received, then any other exception with its message cut to 30
    characters. *)
Definition classify (o : observation) : string :=
  match o with
  | Refusal => "REFUSED"
  | TimedOut true => "NO_RESPONSE"
  | TimedOut false => "TIMEOUT"
  | Reply _ => "SUCCESS"
  | Failure message => "ERROR:" ++ str_take 30 message
  end.

(** Elapsed milliseconds between the two clock readings of a probe that
    starts in [w]: the difference of the two readings of [time.time()],
    in seconds, times 1000, without its fraction. *)
Definition elapsed_ms (w : world) : Z :=
  int_of_float
    (float_mul
       (float_sub (seconds (w_time w (S (w_ticks w))))
          (seconds (w_time w (w_ticks w))))
       (float_of_int 1000)).

(** The key "protocol:port" of a protocol label and a port. *)
Definition key_text (protocol : string) (port : Z) : string :=
  protocol ++ ":" ++ pretty port.

(** The logged events that fall under a key "protocol:port". *)
Definition events_of (key : string) (log : list MultiportAnalyzer.entry)
  : list MultiportAnalyzer.entry :=
  filter
    (fun e =>
       key_text (MultiportAnalyzer.protocol e) (MultiportAnalyzer.port e) = key)
    log.

(** The logged events of a protocol label on a port. *)
Definition events_at (protocol : string) (port : Z)
    (log : list MultiportAnalyzer.entry) : list MultiportAnalyzer.entry :=
  filter
    (fun e =>
       MultiportAnalyzer.protocol e = protocol
       /\ MultiportAnalyzer.port e = port)
    log.

(** The bucket that summarises some events: their number, the sum of their
    payload lengths and the set of their client addresses; none for no
    event. *)
Definition summarise (evs : list MultiportAnalyzer.entry)
  : option MultiportAnalyzer.bucket :=
  match evs with
  | [] => None
  | _ =>
      Some (MultiportAnalyzer.Bucket
              (length evs)
              (sum_list (MultiportAnalyzer.data_len <$> evs))
              (list_to_set (MultiportAnalyzer.client <$> evs)))
  end.

(** The bucket the log determines for a key: how many events carry the
    key, the sum of their payload lengths, and the set of their client
    addresses; no bucket when no event carries the key. *)
Definition bucket_of (key : string) (log : list MultiportAnalyzer.entry)
  : option MultiportAnalyzer.bucket :=
  match events_of key log with
  | [] => None
  | evs =>
      Some (MultiportAnalyzer.Bucket
              (length evs)
              (sum_list (MultiportAnalyzer.data_len <$> evs))
              (list_to_set (MultiportAnalyzer.client <$> evs)))
  end.

(** The sum of the counts of all buckets. *)
Definition total_count (stats : gmap string MultiportAnalyzer.bucket) : nat :=
  map_fold (fun _ b n => MultiportAnalyzer.count b + n) 0 stats.

(** What one event does to the bucket of its key. *)
Definition bump (e : MultiportAnalyzer.entry) (b : MultiportAnalyzer.bucket)
  : MultiportAnalyzer.bucket :=
  MultiportAnalyzer.Bucket
    (MultiportAnalyzer.count b + 1)
    (MultiportAnalyzer.nbytes b + MultiportAnalyzer.data_len e)
    (MultiportAnalyzer.clients b ∪ {[MultiportAnalyzer.client e]}).

(** Whether the probe at position [i] of the report succeeded. *)
Definition probe_works (tests : ProtocolTesterClient.report) (i : nat) : bool :=
  match tests !! i with
  | Some t => ProtocolTesterClient.works t
  | None => false
  end.

(** Whether some rule of a family applies to the report.  DNS: UDP works
    and TCP does not; or the valid TCP query works and the random payload
    does not; or both of these work.  SSH and TLS: the protocol-correct
    probe works and the random one does not; or both work. *)
Definition dns_rule_matches (tests : ProtocolTesterClient.report) : bool :=
  (probe_works tests 1 && negb (probe_works tests 0))
  || (probe_works tests 0 && negb (probe_works tests 2))
  || (probe_works tests 0 && probe_works tests 2).

Definition ssh_rule_matches (tests : ProtocolTesterClient.report) : bool :=
  (probe_works tests 4 && negb (probe_works tests 5))
  || (probe_works tests 4 && probe_works tests 5).

Definition tls_rule_matches (tests : ProtocolTesterClient.report) : bool :=
  (probe_works tests 7 && negb (probe_works tests 8))
  || (probe_works tests 7 && probe_works tests 8).

(** Whether some rule of the analysis of test_dns_blocking.py applies. *)
Definition blocking_rule_matches (r : TestDnsBlocking.results) : bool :=
  (TestDnsBlocking.tcp_echo r && negb (TestDnsBlocking.real_dns_tcp r))
  || (TestDnsBlocking.real_dns_tcp r && negb (TestDnsBlocking.fake_dns r))
  || (TestDnsBlocking.real_dns_tcp r && negb (TestDnsBlocking.encrypted r))
  || (TestDnsBlocking.udp_dns r && negb (TestDnsBlocking.real_dns_tcp r)).

(** The default diagnosis the specification asks for. *)
Definition default_diagnosis : string := "inconclusive — see raw results".

(** The value of a big-endian length field. *)
Definition be_value (field : bytes) : N :=
  foldl (fun acc b => (256 * acc + Byte.to_N b)%N) 0%N field.

(** The fields of a TLS record: 1 byte of content type, 2 of version, 2 of
    record length, then the handshake message: 1 byte of type, 3 of
    length, then its body. *)
Definition record_length_field (record : bytes) : N :=
  be_value (take 2 (drop 3 record)).
Definition record_body (record : bytes) : bytes := drop 5 record.
Definition handshake_length_field (record : bytes) : N :=
  be_value (take 3 (drop 6 record)).
Definition handshake_body (record : bytes) : bytes := drop 9 record.

(** The result of a probe that timed out while connecting. *)
Definition timed_out_result : ProtocolTesterClient.result :=
  {| ProtocolTesterClient.port := 53;
     ProtocolTesterClient.proto := "tcp";
     ProtocolTesterClient.type := "DNS_QUERY";
     ProtocolTesterClient.sent_bytes := 30;
     ProtocolTesterClient.status := "TIMEOUT";
     ProtocolTesterClient.recv_bytes := 0;
     ProtocolTesterClient.time_ms := 0 |}.

(** The status of a TCP probe against a peer with the given behaviour. *)
Definition tcp_status_against (c : tcp) : res string :=
  match fst (ProtocolTesterClient.test_protocol "192.0.2.1" 53 "tcp" "RANDOM" [x00; x01] 5
               (client_world [c] [] (fun _ => 0%Z) (fun _ => x00))) with
  | Ok r => Ok (ProtocolTesterClient.status r)
  | Raise e => Raise e
  | Hang => Hang
  end.

(** The status of a UDP probe against a peer with the given behaviour. *)
Definition udp_status_against (u : udp) : res string :=
  match fst (ProtocolTesterClient.test_protocol "192.0.2.1" 53 "udp" "RANDOM" [x00; x01] 5
               (client_world [] [u] (fun _ => 0%Z) (fun _ => x00))) with
  | Ok r => Ok (ProtocolTesterClient.status r)
  | Raise e => Raise e
  | Hang => Hang
  end.

End Spec.

Import Spec.

(* ================================================================== *)
(** * Vocabulary for the further properties *)
(* ================================================================== *)

Module SpecMore.

(** A label as it stands in a QNAME: its length in characters in one
    byte, then its bytes. *)
Definition wire_label (label : string) : bytes :=
  match Byte.of_N (N.of_nat (str_len label)) with
  | Some n => n :: encode label
  | None => []
  end.

(** The ten header bytes of a query after the transaction id: flags
    0x0100, one question, no other record. *)
Definition query_counts : bytes :=
  [x01; x00; x00; x01; x00; x00; x00; x00; x00; x00].

(** The next [n] bytes [os.urandom] will hand out in [w]. *)
Definition next_random (w : world) (n : nat) : bytes :=
  map (w_entropy w) (seq (w_drawn w) n).

(** The event a TCP handler of multiport_analyzer.py logs for the listener
    [name] on port [p] and the client [a]. *)
Definition tcp_event (now : string) (p : Z) (name : string) (a : addr)
    (len : nat) (data_hex status : string) : MultiportAnalyzer.entry :=
  MultiportAnalyzer.Entry now p ("TCP-" ++ name) (str_addr a) len data_hex
    status.

(** The same for a UDP listener. *)
Definition udp_event (now : string) (p : Z) (name : string) (a : addr)
    (len : nat) (data_hex status : string) : MultiportAnalyzer.entry :=
  MultiportAnalyzer.Entry now p ("UDP-" ++ name) (str_addr a) len data_hex
    status.

(** The response of the listener [name] to [data]. *)
Definition echo_response (name : string) (data : bytes) : bytes :=
  encode ("ECHO:" ++ name ++ ":") ++ data.

(** The status a handler of multiport_analyzer.py logs for an exception. *)
Definition failure_status (e : exn) : string :=
  match e with
  | SocketTimeout _ => "TIMEOUT"
  | _ => "ERROR:" ++ str_exn e
  end.

(** The datagrams the UDP DNS responder sends for what reaches it: one
    response per datagram, to its sender, in order of arrival. *)
Definition dns_replies (events : list dgram_event) : list (bytes * addr) :=
  flat_map
    (fun ev =>
       match ev with
       | Dgram data a => [(DnsTestServer.build_dns_response (take 512 data), a)]
       | _ => []
       end)
    events.

(** The datagrams the UDP echo listener [name] sends for what reaches it:
    one echo per non-empty datagram, to its sender, in order of arrival. *)
Definition echo_replies (name : string) (events : list dgram_event)
  : list (bytes * addr) :=
  flat_map
    (fun ev =>
       match ev with
       | Dgram data a =>
           match take 4096 data with
           | [] => []
           | request => [(echo_response name request, a)]
           end
       | _ => []
       end)
    events.

(** The statuses of the events the UDP echo listener logs for them. *)
Definition echo_statuses (events : list dgram_event) : list string :=
  flat_map
    (fun ev =>
       match ev with
       | Dgram data a =>
           match take 4096 data with
           | [] => ["RECEIVED"]
           | _ => ["RECEIVED"; "SENT_ECHO"]
           end
       | _ => []
       end)
    events.

(** Whether an event is a receive that runs into silence. *)
Definition is_stall (ev : dgram_event) : bool :=
  match ev with DStall => true | _ => false end.

(** Whether a text holds a colon. *)
Fixpoint has_colon (s : string) : bool :=
  match s with
  | EmptyString => false
  | String c rest => Ascii.eqb c ":"%char || has_colon rest
  end.

(** Whether the transport of a connection reports no error, whatever
    else the peer does: send, close or stay silent. *)
Definition no_fault (future : list incoming) : bool :=
  forallb (fun ev => match ev with Fault _ => false | _ => true end) future.

(** A TCP peer that accepts the connection and the payload, on a transport
    without errors. *)
Definition accepting (c : tcp) : Prop :=
  tcp_connect c = None /\ tcp_send c = None /\ no_fault (tcp_future c) = true.

(** A UDP socket whose send succeeds and whose next receive does not
    raise an error other than a timeout. *)
Definition udp_accepting (u : udp) : Prop :=
  udp_send u = None
  /\ match udp_inbox u with DFault _ :: _ => False | _ => True end.

(** Rows in ascending order of their keys. *)
Definition key_le (x y : string * MultiportAnalyzer.bucket) : Prop :=
  String.leb (fst x) (fst y) = true.

(** The rule printed above and below the table of statistics. *)
Definition stats_rule : string := times "=" 60.

End SpecMore.

Import SpecMore.

(* ================================================================== *)
(** * Properties *)
(* ================================================================== *)

Import DnsTestServer.

(** Unfolding of the monad's plumbing. *)
Ltac run :=
  unfold mbind, mret, M_bind, M_ret, index, recv, sendall, connect,
    settimeout, close, recvfrom, sendto, usettimeout, uclose, print, on_tcp,
    on_udp, time_sleep, bind, ret, raise, lift_res, modify, try_except,
    try_finally, io, assign, read in *;
  change (timeout_error 5) with (@None exn) in *;
  change (timeout_error 3) with (@None exn) in *.

Section Framing.

(** ** The 2-byte length prefix *)

Lemma pack_H_inv (n : N) (prefix : bytes) :
  pack_H n = Ok prefix ->
  exists hi lo, prefix = [hi; lo] /\ (256 * Byte.to_N hi + Byte.to_N lo = n)%N.
Proof.
  unfold pack_H.
  destruct (Byte.of_N (n / 256)) as [hi|] eqn:Hhi; [|discriminate].
  destruct (Byte.of_N (n mod 256)) as [lo|] eqn:Hlo; [|discriminate].
  intros [= <-]. exists hi, lo. split; [reflexivity|].
  apply Byte.to_of_N in Hhi, Hlo. rewrite Hhi, Hlo.
  pose proof (N.div_mod n 256). lia.
Qed.

Lemma unpack_pack_H (n : N) (prefix : bytes) :
  pack_H n = Ok prefix -> unpack_H prefix = Ok n.
Proof.
  intros H. destruct (pack_H_inv _ _ H) as (hi & lo & -> & Hn).
  simpl. now rewrite Hn.
Qed.

Lemma pack_H_fits (n : N) : (n < 65536)%N -> exists prefix, pack_H n = Ok prefix.
Proof.
  intros Hn. unfold pack_H.
  assert (H1 : (n / 256 < 256)%N) by (apply N.Div0.div_lt_upper_bound; lia).
  assert (H2 : (n mod 256 < 256)%N) by (apply N.mod_lt; discriminate).
  destruct (Byte.of_N (n / 256)) as [hi|] eqn:Hhi.
  - destruct (Byte.of_N (n mod 256)) as [lo|] eqn:Hlo; [eauto|].
    apply Byte.of_N_None_iff in Hlo. lia.
  - apply Byte.of_N_None_iff in Hhi. lia.
Qed.

(** ** [recv] on data that has already arrived *)

Lemma tcp_recv_buffered (n : nat) (c : tcp) :
  tcp_rxbuf c <> [] \/ n = 0 ->
  tcp_recv n c =
    (Ok (take n (tcp_rxbuf c)),
     Tcp (tcp_timeout c) (tcp_connect c) (drop n (tcp_rxbuf c)) (tcp_future c)
         (tcp_send c) (tcp_sent c) (tcp_closed c)).
Proof.
  intros H. unfold tcp_recv. destruct n as [|n].
  - rewrite take_0, drop_0. now destruct c.
  - destruct H as [H|H]; [|discriminate].
    destruct (tcp_rxbuf c); [congruence|]. reflexivity.
Qed.

End Framing.

Section ReadFramed.

Lemma read_buffered (n : N) (prefix avail : bytes) (w : world) :
  pack_H n = Ok prefix ->
  tcp_rxbuf (w_tcp w) = prefix ++ avail ->
  avail <> [] \/ n = 0%N ->
  exists w',
    read_tcp_length_prefixed w = (Ok (Some (take (N.to_nat n) avail)), w')
    /\ tcp_rxbuf (w_tcp w') = drop (N.to_nat n) avail
    /\ tcp_sent (w_tcp w') = tcp_sent (w_tcp w)
    /\ tcp_send (w_tcp w') = tcp_send (w_tcp w)
    /\ tcp_future (w_tcp w') = tcp_future (w_tcp w)
    /\ tcp_closed (w_tcp w') = tcp_closed (w_tcp w).
Proof.
  intros Hpack Hbuf Havail.
  destruct (pack_H_inv _ _ Hpack) as (hi & lo & -> & Hn).
  unfold read_tcp_length_prefixed. run.
  rewrite tcp_recv_buffered by (left; rewrite Hbuf; done).
  rewrite Hbuf. change ([hi; lo] ++ avail) with (hi :: lo :: avail).
  rewrite !firstn_cons, !skipn_cons, take_0, drop_0.
  case_decide; [done|].
  cbn [unpack_H]. rewrite Hn. cbn [set_tcp set_stdout w_tcp].
  rewrite tcp_recv_buffered by
    (cbn [tcp_rxbuf]; destruct Havail; [left; assumption | right; lia]).
  eexists. split; [reflexivity|]. cbn. tauto.
Qed.

End ReadFramed.

Section DnsResponder.

Lemma build_dns_response_shape (query : bytes) :
  build_dns_response query =
    take 2 query ++ response_counts ++ drop 12 query ++ answer_record.
Proof. reflexivity. Qed.

Lemma build_dns_response_length (query : bytes) :
  length (build_dns_response query) =
    length query `min` 2 + 10 + (length query - 12) + 16.
Proof.
  rewrite build_dns_response_shape, !length_app, length_take, length_drop.
  change (length response_counts) with 10.
  change (length answer_record) with 16. lia.
Qed.

(** For a query of at least 12 bytes the response opens with the query's
    transaction id and carries the query's question section, unchanged,
    between its 12-byte header and the answer record. *)
Lemma build_dns_response_question (query : bytes) :
  12 <= length query ->
  take 2 (build_dns_response query) = take 2 query
  /\ take (length query - 12) (drop 12 (build_dns_response query))
     = drop 12 query
  /\ drop (12 + (length query - 12)) (build_dns_response query)
     = answer_record.
Proof.
  intros Hlen. rewrite build_dns_response_shape.
  assert (Hid : length (take 2 query) = 2) by (rewrite length_take; lia).
  destruct (take 2 query) as [|i0 [|i1 [|? ?]]] eqn:Eid; try discriminate.
  change (([i0; i1] ++ response_counts) ++ drop 12 query ++ answer_record)
    with ([i0; i1] ++ response_counts ++ drop 12 query ++ answer_record).
  repeat split.
  - change (drop 12 ([i0; i1] ++ response_counts ++ drop 12 query ++ answer_record))
      with (drop 12 query ++ answer_record).
    rewrite take_app_length'; [reflexivity|]. rewrite length_drop. lia.
  - rewrite <- drop_drop.
    change (drop 12 ([i0; i1] ++ response_counts ++ drop 12 query ++ answer_record))
      with (drop 12 query ++ answer_record).
    rewrite drop_app_length'; [reflexivity|]. rewrite length_drop. lia.
Qed.

Lemma handle_dns_tcp_answers (a : addr) (n : N) (prefix avail rprefix : bytes)
    (w : world) :
  pack_H n = Ok prefix ->
  tcp_rxbuf (w_tcp w) = prefix ++ avail ->
  avail <> [] \/ n = 0%N ->
  tcp_send (w_tcp w) = None ->
  pack_H (N.of_nat (length (build_dns_response (take (N.to_nat n) avail))))
    = Ok rprefix ->
  exists w',
    handle_dns_tcp a w = (Ok tt, w')
    /\ tcp_sent (w_tcp w') =
         tcp_sent (w_tcp w) ++ rprefix
           ++ build_dns_response (take (N.to_nat n) avail)
    /\ tcp_closed (w_tcp w') = true.
Proof.
  intros Hpack Hbuf Havail Hsend Hrpack.
  unfold handle_dns_tcp. run.
  destruct (read_buffered n prefix avail
              (set_stdout
                 (fun out => out ++ [("[DNS-TCP] Connection from " ++ str_addr a)%string])
                 w) Hpack Hbuf Havail)
    as (w1 & Hread & _ & Hsent & Hsnd & _ & _).
  rewrite Hread. unfold wrap_tcp_length_prefix. rewrite Hrpack.
  unfold tcp_sendall. rewrite Hsnd. cbn [set_stdout w_tcp].
  rewrite Hsend. cbn.
  eexists. split; [reflexivity|]. cbn. rewrite Hsent. cbn. tauto.
Qed.

End DnsResponder.

Section DnsClaims.

(** C1.  The query AABB 0100 0001 0000 0000 0000 06 google 03 com 00 0001
    0001, framed for TCP and sent to the TCP DNS responder, is answered by a
    2-byte big-endian length prefix followed by a response that starts with
    AABB, ends with the 16 bytes C00C 0001 0001 0000012C 0004 ACD90ECE, and
    carries bytes[12:] of the query between its 12-byte header and that
    answer. *)
Theorem C1_tcp_dns_end_to_end (a : addr) (then_ : list incoming) :
  TestDnsBlocking.dns_query = scenario_query
  /\ exists framed,
       wrap_tcp_length_prefix scenario_query = Ok framed
       /\ let run :=
            handle_dns_tcp a (world_of (stream_of framed then_) idle_udp) in
          fst run = Ok tt
          /\ exists prefix response,
               tcp_sent (w_tcp (snd run)) = prefix ++ response
               /\ length prefix = 2
               /\ unpack_H prefix = Ok (N.of_nat (length response))
               /\ take 2 response = [xaa; xbb]
               /\ drop (length response - 16) response = answer_record
               /\ take (length response - 12 - 16) (drop 12 response)
                  = drop 12 scenario_query.
Proof.
  split; [reflexivity|].
  exists ([x00; x1c] ++ scenario_query). split; [reflexivity|].
  destruct (handle_dns_tcp_answers a 28 [x00; x1c] scenario_query [x00; x2c]
              (world_of (stream_of ([x00; x1c] ++ scenario_query) then_) idle_udp))
    as (w' & Hrun & Hsent & _); try reflexivity.
  { left. discriminate. }
  cbv zeta. rewrite Hrun. cbn [fst snd]. split; [reflexivity|].
  exists [x00; x2c], (build_dns_response scenario_query).
  rewrite Hsent. repeat split; reflexivity.
Qed.

(** The claim of C3 fails on a query of one byte: the UDP responder
    answers it with 27 bytes and reports no error, and so does the TCP
    responder when the query arrives framed. *)
Lemma C3_counterexample :
  let a : addr := ("10.0.0.7", 40000%Z) in
  let data := [xaa] in
  let udp_run :=
    dns_udp_step (world_of idle_tcp (fresh_udp None [Dgram data a])) in
  let tcp_run :=
    handle_dns_tcp a (world_of (stream_of ([x00; x01] ++ data) []) idle_udp) in
  length data < 12
  /\ fst udp_run = Ok tt
  /\ udp_outbox (w_udp (snd udp_run))
     = [([xaa] ++ response_counts ++ answer_record, a)]
  /\ w_stdout (snd udp_run)
     = ["[DNS-UDP] Query from ('10.0.0.7', 40000): 1 bytes";
        "[DNS-UDP] Query (hex): aa";
        "[DNS-UDP] Sent response to ('10.0.0.7', 40000): 27 bytes"]
  /\ fst tcp_run = Ok tt
  /\ tcp_sent (w_tcp (snd tcp_run))
     = [x00; x1b] ++ [xaa] ++ response_counts ++ answer_record.
Proof. vm_compute. repeat split; lia. Qed.

(** C3, amended.  A query shorter than 12 bytes does not make the
    synthesis fail: the response is the first (at most two) bytes of the
    query, the ten fixed header bytes, an empty question section and the
    answer record.  The UDP responder sends it to the sender of the
    datagram; the TCP responder sends it behind its length prefix when the
    framed query has arrived. *)
Theorem C3_short_query_is_answered (data : bytes) (a : addr) :
  length data < 12 ->
  build_dns_response data = take 2 data ++ response_counts ++ answer_record
  /\ (forall rest,
        let run :=
          dns_udp_step (world_of idle_tcp (fresh_udp None (Dgram data a :: rest))) in
        fst run = Ok tt
        /\ udp_outbox (w_udp (snd run)) = [(build_dns_response data, a)])
  /\ (forall framed then_,
        wrap_tcp_length_prefix data = Ok framed ->
        let run :=
          handle_dns_tcp a (world_of (stream_of framed then_) idle_udp) in
        fst run = Ok tt
        /\ exists prefix,
             tcp_sent (w_tcp (snd run)) = prefix ++ build_dns_response data
             /\ unpack_H prefix
                = Ok (N.of_nat (length (build_dns_response data)))).
Proof.
  intros Hlen. split; [|split].
  - rewrite build_dns_response_shape, (drop_ge data 12) by lia. reflexivity.
  - intros rest. cbv zeta. unfold dns_udp_step. run. cbn.
    rewrite (take_ge data 512) by lia. split; reflexivity.
  - intros framed then_ Hwrap. cbv zeta.
    unfold wrap_tcp_length_prefix in Hwrap.
    destruct (pack_H (N.of_nat (length data))) as [prefix| |] eqn:Hpack;
      try discriminate.
    injection Hwrap as <-.
    destruct (pack_H_fits (N.of_nat (length (build_dns_response data))))
      as [rprefix Hr].
    { rewrite build_dns_response_length. lia. }
    destruct (handle_dns_tcp_answers a (N.of_nat (length data)) prefix data
                rprefix (world_of (stream_of (prefix ++ data) then_) idle_udp))
      as (w' & Hrun & Hsent & _); try reflexivity; try assumption.
    { destruct data; [right|left]; done. }
    { rewrite Nat2N.id, firstn_all. exact Hr. }
    rewrite Nat2N.id, firstn_all in Hsent.
    rewrite Hrun. cbn [fst snd]. split; [reflexivity|].
    exists rprefix. split; [exact Hsent|]. now apply unpack_pack_H.
Qed.

(** The amended C3 at the 3-byte query AABB01. *)
Lemma C3_short_query_is_answered_witness :
  length [xaa; xbb; x01] < 12
  /\ build_dns_response [xaa; xbb; x01]
     = [xaa; xbb] ++ response_counts ++ answer_record.
Proof.
  split; [vm_compute; lia|].
  apply (C3_short_query_is_answered [xaa; xbb; x01] ("10.0.0.7", 40000%Z)).
  vm_compute; lia.
Defined.

(** The second half of the claim C4 fails: of a query declared 28 bytes long
    only 3 bytes arrive before the peer closes, and the read returns those
    3 bytes as the query; the handler then answers them. *)
Lemma C4_counterexample :
  let w := world_of (stream_of ([x00; x1c] ++ [xaa; xbb; x01]) [Fin]) idle_udp in
  unpack_H [x00; x1c] = Ok 28%N
  /\ fst (read_tcp_length_prefixed w) = Ok (Some [xaa; xbb; x01])
  /\ length [xaa; xbb; x01] < 28
  /\ tcp_sent (w_tcp (snd (handle_dns_tcp ("10.0.0.7", 40000%Z) w)))
     = [x00; x1c] ++ [xaa; xbb] ++ response_counts ++ answer_record.
Proof. vm_compute. repeat split; lia. Qed.

(** C4, amended.  Framing round-trips when the framed message has arrived:
    for every payload whose length fits the 2-byte big-endian prefix,
    reading from a stream that holds its framing returns exactly the
    payload.  A stream that holds a single byte of prefix ends the read
    without a query, closes the connection and sends nothing.  When only a
    part of the declared payload has arrived, the read returns that part. *)
Theorem C4_framing_round_trip (payload : bytes) (then_ : list incoming) (u : udp) :
  (N.of_nat (length payload) < 65536)%N ->
  (exists framed,
     wrap_tcp_length_prefix payload = Ok framed
     /\ fst (read_tcp_length_prefixed (world_of (stream_of framed then_) u))
        = Ok (Some payload))
  /\ (forall b,
        let run := read_tcp_length_prefixed (world_of (stream_of [b] then_) u) in
        fst run = Ok None
        /\ tcp_closed (w_tcp (snd run)) = true
        /\ tcp_sent (w_tcp (snd run)) = [])
  /\ (forall prefix k,
        pack_H (N.of_nat (length payload)) = Ok prefix ->
        0 < k < length payload ->
        fst (read_tcp_length_prefixed
               (world_of (stream_of (prefix ++ take k payload) then_) u))
        = Ok (Some (take k payload))).
Proof.
  intros Hfits. destruct (pack_H_fits _ Hfits) as [prefix Hpack].
  split; [|split].
  - exists (prefix ++ payload). unfold wrap_tcp_length_prefix.
    rewrite Hpack. split; [reflexivity|].
    destruct (read_buffered (N.of_nat (length payload)) prefix payload
                (world_of (stream_of (prefix ++ payload) then_) u))
      as (w' & Hrun & _); try reflexivity; try assumption.
    { destruct payload; [right|left]; done. }
    rewrite Hrun, Nat2N.id, firstn_all. reflexivity.
  - intros b. cbv zeta. split; [|split]; reflexivity.
  - intros prefix' k Hpack' Hk.
    destruct (read_buffered (N.of_nat (length payload)) prefix' (take k payload)
                (world_of (stream_of (prefix' ++ take k payload) then_) u))
      as (w' & Hrun & _); try reflexivity; try assumption.
    { left. destruct payload; simpl in *; [lia|].
      destruct k; [lia|]. discriminate. }
    rewrite Hrun, Nat2N.id. cbn [fst]. rewrite take_take.
    do 3 f_equal. lia.
Qed.

(** The amended C4 at the 28-byte query of the end-to-end scenario. *)
Lemma C4_framing_round_trip_witness :
  (N.of_nat (length scenario_query) < 65536)%N
  /\ exists framed,
       wrap_tcp_length_prefix scenario_query = Ok framed
       /\ fst (read_tcp_length_prefixed (world_of (stream_of framed [Fin]) idle_udp))
          = Ok (Some scenario_query).
Proof.
  split; [vm_compute; reflexivity|].
  apply (C4_framing_round_trip scenario_query [Fin] idle_udp).
  vm_compute; reflexivity.
Defined.

End DnsClaims.

Import ProtocolTesterClient.

Section Probe.

Lemma recv_wait_no_hang (n : nat) (t : Z) (future : list incoming) :
  fst (fst (recv_wait n (Some t) future)) <> Hang.
Proof.
  induction future as [|[[|b bs]| | |e] rest IH]; simpl; try done.
Qed.

Lemma tcp_recv_no_hang (n : nat) (c : tcp) (t : Z) :
  tcp_timeout c = Some t -> fst (tcp_recv n c) <> Hang.
Proof.
  intros Ht. unfold tcp_recv. destruct n; [done|].
  destruct (tcp_rxbuf c); [|done]. rewrite Ht.
  pose proof (recv_wait_no_hang (S n) t (tcp_future c)) as H.
  destruct (recv_wait (S n) (Some t) (tcp_future c)) as [[r buf] fut].
  exact H.
Qed.

Lemma udp_recvfrom_no_hang (n : nat) (u : udp) (t : Z) :
  udp_timeout u = Some t -> fst (udp_recvfrom n u) <> Hang.
Proof.
  intros Ht. unfold udp_recvfrom. rewrite Ht.
  destruct (udp_inbox u) as [|[bs a| |e] rest]; done.
Qed.

(** The whole result of a probe, from what the run amounts to. *)
Lemma tcp_recv_outcome (n : nat) (c c' : tcp) :
  tcp_timeout c = tcp_timeout c' -> tcp_rxbuf c = tcp_rxbuf c' ->
  tcp_future c = tcp_future c' ->
  fst (tcp_recv n c) = fst (tcp_recv n c').
Proof.
  intros Ht Hb Hf. unfold tcp_recv. rewrite Ht, Hb, Hf.
  destruct n; [reflexivity|]. destruct (tcp_rxbuf c'); [|reflexivity].
  destruct (recv_wait (S n) (tcp_timeout c') (tcp_future c')) as [[r buf] fut].
  reflexivity.
Qed.

Lemma udp_recvfrom_outcome (n : nat) (u u' : udp) :
  udp_timeout u = udp_timeout u' -> udp_inbox u = udp_inbox u' ->
  fst (udp_recvfrom n u) = fst (udp_recvfrom n u').
Proof.
  intros Ht Hi. unfold udp_recvfrom. rewrite Ht, Hi.
  destruct (udp_inbox u') as [|[bs a| |e] rest]; reflexivity.
Qed.

Local Arguments tcp_recv : simpl never.
Local Arguments udp_recvfrom : simpl never.

(** The timeouts that [settimeout] accepts. *)
Lemma timeout_error_valid (t : Z) :
  (0 <= t <= 9223372036)%Z -> timeout_error t = None.
Proof.
  intros Ht. unfold timeout_error.
  destruct (Z.ltb_spec 9223372036 (Z.abs t)); [lia|].
  destruct (Z.ltb_spec t 0); [lia|reflexivity].
Qed.

Lemma test_protocol_result (host : string) (port : Z)
    (proto packet_type : string) (data : bytes) (timeout : Z) (w : world) :
  let o := outcome proto timeout w in
  fst (test_protocol host port proto packet_type data timeout w) =
    Ok {| port := port; proto := proto; type := packet_type;
          sent_bytes := length data;
          status := classify o;
          recv_bytes := match o with Reply r => length r | _ => 0 end;
          time_ms :=
            match o with
            | Reply _ | TimedOut true => elapsed_ms w
            | _ => 0
            end |}.
Proof.
  cbv zeta. unfold test_protocol, test_protocol_body, outcome.
  destruct (decide (proto = "tcp")) as [Htcp|Hudp].
  - run. unfold time_time, socket_stream. cbn [tick w_tcp_pool].
    destruct (w_tcp_pool w) as [|c pool] eqn:Hpool; [reflexivity|].
    destruct c as [t0 co buf fut sn st cl].
    destruct (timeout_error timeout) as [e|]; [destruct e; reflexivity|].
    unfold observe_tcp, tcp_do_connect; cbn.
    destruct co as [e|]; [destruct e; reflexivity|].
    unfold tcp_sendall; cbn; destruct sn as [e|];
      [destruct e; reflexivity|].
    unfold tcp_settimeout, set_tcp; cbn.
    all: match goal with
         | |- context [tcp_recv 4096 ?x] =>
             match x with
             | context [Some ?t] =>
                 rewrite (tcp_recv_outcome 4096
                            (Tcp (Some t) None buf fut None st cl) x)
                   by reflexivity;
                 pose proof (tcp_recv_no_hang 4096 x t eq_refl) as Hnh;
                 destruct (tcp_recv 4096 x) as [r c'] eqn:Hr
             end
         end.
    all: cbn [fst] in *; destruct r as [response|e|];
      [reflexivity|destruct e; reflexivity|congruence].
  - run. unfold time_time, socket_dgram. cbn [tick w_udp_pool].
    destruct (w_udp_pool w) as [|u pool] eqn:Hpool; [reflexivity|].
    destruct u as [t0 inbox sn out cl].
    destruct (timeout_error timeout) as [e|]; [destruct e; reflexivity|].
    unfold observe_udp, udp_sendto; cbn.
    destruct sn as [e|]; [destruct e; reflexivity|].
    unfold udp_settimeout, set_udp; cbn.
    all: match goal with
         | |- context [udp_recvfrom 4096 ?x] =>
             match x with
             | context [Some ?t] =>
                 rewrite (udp_recvfrom_outcome 4096
                            (Udp (Some t) inbox None out cl) x)
                   by reflexivity;
                 pose proof (udp_recvfrom_no_hang 4096 x t eq_refl) as Hnh;
                 destruct (udp_recvfrom 4096 x) as [r u'] eqn:Hr
             end
         end.
    all: cbn [fst] in *; destruct r as [[response from]|e|];
      [reflexivity|destruct e; reflexivity|congruence].
Qed.

End Probe.

Section ProbeClaims.

(** C2.  Every probe run with a timeout of 1 to 2147483 seconds returns
    a result whose status follows the rules in priority order: a refused
    connection gives REFUSED; a timeout with nothing received gives
    NO_RESPONSE when the send had succeeded and TIMEOUT otherwise; a
    receive that returns gives SUCCESS whatever the bytes; any other
    exception gives ERROR followed by the first 30 characters of its
    message. *)
Theorem C2_status_follows_rules (host : string) (port : Z)
    (proto packet_type : string) (data : bytes) (timeout : Z) (w : world) :
  (0 < timeout <= 2147483)%Z ->
  exists r,
    fst (test_protocol host port proto packet_type data timeout w) = Ok r
    /\ status r = classify (observe proto timeout w).
Proof.
  intros Ht. eexists. split; [apply test_protocol_result|].
  cbn [status]. unfold outcome, observe.
  now rewrite timeout_error_valid by lia.
Qed.

(** C2 at a TCP probe with the timeout of 5 seconds, against a peer that
    takes the payload and stays silent. *)
Lemma C2_status_follows_rules_witness :
  let w :=
    client_world [fresh_tcp None None [Stall]] [] (fun _ => 0%Z)
      (fun _ => x00) in
  exists r,
    fst (test_protocol "192.0.2.1" 53 "tcp" "RANDOM" [x00; x01] 5 w) = Ok r
    /\ status r = "NO_RESPONSE".
Proof.
  apply (C2_status_follows_rules "192.0.2.1" 53 "tcp" "RANDOM" [x00; x01] 5
           (client_world [fresh_tcp None None [Stall]] [] (fun _ => 0%Z)
              (fun _ => x00))).
  lia.
Defined.

(** C9.  A TCP probe with a timeout of 1 to 2147483 seconds whose peer
    accepts the connection, takes the payload and closes without sending anything is
    classified SUCCESS with no byte received. *)
Theorem C9_silent_close_is_success (host : string) (port : Z)
    (packet_type : string) (data : bytes) (timeout : Z) (w : world)
    (c : tcp) (pool : list tcp) (rest : list incoming) :
  (0 < timeout <= 2147483)%Z ->
  w_tcp_pool w = c :: pool ->
  tcp_connect c = None ->
  tcp_send c = None ->
  tcp_rxbuf c = [] ->
  tcp_future c = Fin :: rest ->
  let run := test_protocol host port "tcp" packet_type data timeout w in
  tcp_sent (w_tcp (snd run)) = tcp_sent c ++ data
  /\ exists r,
       fst run = Ok r /\ status r = "SUCCESS" /\ recv_bytes r = 0.
Proof.
  intros Hpos Hpool Hc Hs Hbuf Hfut. cbv zeta.
  assert (Hok : timeout_error timeout = None)
    by (apply timeout_error_valid; lia).
  split.
  - destruct c as [t0 co buf fut sn st cl]. cbn in Hc, Hs, Hbuf, Hfut. subst.
    unfold test_protocol, test_protocol_body.
    case_decide; [|done]. run.
    unfold time_time, socket_stream. cbn [tick w_tcp_pool].
    rewrite Hpool, Hok. reflexivity.
  - eexists. split; [apply test_protocol_result|].
    unfold outcome. case_decide; [|done]. rewrite Hpool, Hok.
    unfold observe_tcp. rewrite Hc, Hs.
    destruct c as [t0 co buf fut sn st cl]. cbn in Hbuf, Hfut. subst.
    split; reflexivity.
Qed.

(** C9 at a peer that accepts, reads and closes. *)
Lemma C9_silent_close_is_success_witness :
  let w :=
    client_world [fresh_tcp None None [Fin]] [] (fun _ => 0%Z) (fun _ => x00) in
  exists r,
    fst (test_protocol "192.0.2.1" 443 "tcp" "TLS_HELLO" [x16; x03] 5 w) = Ok r
    /\ status r = "SUCCESS" /\ recv_bytes r = 0.
Proof.
  apply (C9_silent_close_is_success "192.0.2.1" 443 "TLS_HELLO" [x16; x03] 5
           (client_world [fresh_tcp None None [Fin]] [] (fun _ => 0%Z)
              (fun _ => x00))
           (fresh_tcp None None [Fin]) [] []); (lia || reflexivity).
Defined.

(** C10.  A result whose status is REFUSED, TIMEOUT or ERROR has 0 in its
    elapsed-time field, whatever the clock showed; the elapsed time is
    stored on the SUCCESS and NO_RESPONSE paths only, where it is the
    difference of the two readings of [time.time()] times 1000, as the
    interpreter computes it on floats, without its fraction. *)
Theorem C10_failures_report_zero_time (host : string) (port : Z)
    (proto packet_type : string) (data : bytes) (timeout : Z) (w : world)
    (r : result) :
  fst (test_protocol host port proto packet_type data timeout w) = Ok r ->
  (status r = "REFUSED" \/ status r = "TIMEOUT"
   \/ String.prefix "ERROR:" (status r) = true ->
   time_ms r = 0%Z)
  /\ (status r = "SUCCESS" \/ status r = "NO_RESPONSE" ->
      time_ms r = elapsed_ms w).
Proof.
  rewrite test_protocol_result. intros [= <-]. cbn [status time_ms].
  destruct (outcome proto timeout w) as [|[|]|response|message];
    cbn [classify]; split; intros H; try reflexivity;
    repeat destruct H as [H|H]; discriminate H.
Qed.

(** C10 at a refused connection, with a clock that advances 2.5 seconds
    between readings. *)
Lemma C10_failures_report_zero_time_witness :
  let w :=
    client_world [fresh_tcp (Some (ConnectionRefusedError "[Errno 111] Connection refused")) None []]
      [] (fun n => Z.of_nat n * 2500000000)%Z (fun _ => x00) in
  exists r,
    fst (test_protocol "192.0.2.1" 22 "tcp" "SSH_BANNER" make_ssh_banner 5 w) = Ok r
    /\ status r = "REFUSED" /\ time_ms r = 0%Z.
Proof.
  eexists. split; [reflexivity|]. split; [reflexivity|].
  apply (C10_failures_report_zero_time "192.0.2.1" 22 "tcp" "SSH_BANNER"
           make_ssh_banner 5
           (client_world [fresh_tcp (Some (ConnectionRefusedError "[Errno 111] Connection refused")) None []]
              [] (fun n => Z.of_nat n * 2500000000)%Z (fun _ => x00)));
    [reflexivity | left; reflexivity].
Defined.

End ProbeClaims.

Section KeyText.

Lemma has_colon_app (s t : string) :
  has_colon (s ++ t) = has_colon s || has_colon t.
Proof.
  induction s as [|c s IH]; [reflexivity|].
  change (has_colon (String c s ++ t))
    with (Ascii.eqb c ":"%char || has_colon (s ++ t)).
  rewrite IH. cbn [has_colon]. now rewrite orb_assoc.
Qed.

Lemma pretty_N_go_no_colon (x : N) (s : string) :
  has_colon s = false -> has_colon (pretty_N_go x s) = false.
Proof.
  revert s. induction (N.lt_wf_0 x) as [x _ IH]; intros s Hs.
  assert (x = 0 \/ 0 < x)%N as [->|Hx] by lia.
  - now rewrite pretty_N_go_0.
  - rewrite pretty_N_go_step by done. apply IH.
    { now apply N.div_lt. }
    cbn. rewrite Hs. unfold pretty_N_char. now repeat case_match.
Qed.

Lemma pretty_N_no_colon (x : N) : has_colon (pretty x) = false.
Proof.
  unfold pretty, pretty_N. case_decide; [reflexivity|].
  now apply pretty_N_go_no_colon.
Qed.

Lemma pretty_Z_no_colon (x : Z) : has_colon (pretty x) = false.
Proof.
  destruct x as [|x|x]; [reflexivity|apply pretty_N_no_colon|].
  change (has_colon (pretty (Z.neg x)))
    with (false || has_colon (pretty (N.pos x))).
  now rewrite pretty_N_no_colon.
Qed.

Lemma colon_split_unique (p1 p2 d1 d2 : string) :
  has_colon d1 = false -> has_colon d2 = false ->
  (p1 ++ ":" ++ d1)%string = (p2 ++ ":" ++ d2)%string ->
  p1 = p2 /\ d1 = d2.
Proof.
  intros H1 H2. revert p2.
  induction p1 as [|c p1 IH]; intros [|c' p2]; cbn; intros Heq.
  - now injection Heq.
  - injection Heq as Hc Hd. change ("" ++ d1)%string with d1 in Hd.
    subst d1. rewrite has_colon_app in H1.
    cbn in H1. now rewrite orb_true_r in H1.
  - injection Heq as Hc Hd. change ("" ++ d2)%string with d2 in Hd.
    subst d2. rewrite has_colon_app in H2.
    cbn in H2. now rewrite orb_true_r in H2.
  - injection Heq as <- Heq. destruct (IH _ Heq) as [-> ->]. done.
Qed.

(** A key "protocol:port" names one protocol label and one port. *)
Lemma key_text_inj (proto1 proto2 : string) (p1 p2 : Z) :
  key_text proto1 p1 = key_text proto2 p2 <-> proto1 = proto2 /\ p1 = p2.
Proof.
  unfold key_text. split.
  - intros Heq.
    apply colon_split_unique in Heq as [Hp Hd]; try apply pretty_Z_no_colon.
    split; [exact Hp|]. now apply (inj pretty).
  - intros [-> ->]. reflexivity.
Qed.

End KeyText.

Section Stats.

Import MultiportAnalyzer.

Lemma stats_add_insert (stats : gmap string bucket) (e : entry) :
  stats_add stats e =
    <[stats_key e := bump e (default (Bucket 0 0 ∅) (stats !! stats_key e))]>
      stats.
Proof.
  unfold stats_add, bump.
  destruct (stats !! stats_key e) as [b|] eqn:Hk; cbn [default].
  - apply map_eq. intros k. destruct (decide (stats_key e = k)) as [<-|Hne].
    + rewrite lookup_insert_eq, !lookup_alter_eq, Hk. reflexivity.
    + rewrite lookup_insert_ne, !lookup_alter_ne by assumption. reflexivity.
  - now rewrite !alter_insert_eq.
Qed.

Lemma stats_add_lookup (stats : gmap string bucket) (e : entry) (key : string) :
  stats_add stats e !! key =
    if decide (stats_key e = key)
    then Some (bump e (default (Bucket 0 0 ∅) (stats !! key)))
    else stats !! key.
Proof.
  rewrite stats_add_insert, lookup_insert.
  case_decide as Heq; [now subst key|reflexivity].
Qed.

Lemma group_stats_snoc (log : list entry) (e : entry) :
  group_stats (log ++ [e]) = stats_add (group_stats log) e.
Proof. unfold group_stats. apply foldl_snoc. Qed.

Lemma events_of_snoc (key : string) (log : list entry) (e : entry) :
  events_of key (log ++ [e]) =
    events_of key log ++ (if decide (stats_key e = key) then [e] else []).
Proof.
  unfold events_of. rewrite filter_app. reflexivity.
Qed.

Lemma group_stats_lookup (log : list entry) (key : string) :
  group_stats log !! key = bucket_of key log.
Proof.
  induction log as [|e log IH] using rev_ind; [reflexivity|].
  rewrite group_stats_snoc, stats_add_lookup, IH.
  unfold bucket_of. rewrite events_of_snoc.
  case_decide as Heq; [|now rewrite app_nil_r].
  destruct (events_of key log) as [|e0 evs]; cbn [default app].
  - unfold bump. cbn. f_equal. f_equal; lia.
  - change ((e0 :: evs) ++ [e]) with (e0 :: (evs ++ [e])).
    unfold bump. cbn [count nbytes clients]. f_equal. f_equal.
    + cbn [length]. rewrite length_app. cbn. lia.
    + rewrite !fmap_cons, fmap_app. cbn. rewrite sum_list_with_app. cbn. lia.
    + rewrite !fmap_cons, fmap_app, !list_to_set_cons, list_to_set_app_L.
      cbn. now rewrite (right_id_L ∅ (∪)), (assoc_L (∪)).
Qed.

Lemma total_count_insert (stats : gmap string bucket) (key : string) (b : bucket) :
  stats !! key = None ->
  total_count (<[key := b]> stats) = count b + total_count stats.
Proof.
  intros Hk. unfold total_count.
  rewrite map_fold_insert_L; [reflexivity| |assumption].
  intros. lia.
Qed.

Lemma total_count_stats_add (stats : gmap string bucket) (e : entry) :
  total_count (stats_add stats e) = S (total_count stats).
Proof.
  rewrite stats_add_insert.
  destruct (stats !! stats_key e) as [b|] eqn:Hk; cbn [default].
  - rewrite <- (insert_delete_id stats (stats_key e) b Hk) at 2.
    rewrite <- insert_delete_eq.
    rewrite !total_count_insert by apply lookup_delete_eq.
    cbn. lia.
  - rewrite total_count_insert by assumption. cbn. reflexivity.
Qed.

Lemma log_connection_appends (port : Z) (protocol : string) (a : addr)
    (len : nat) (data_hex status : string) (w : world) (log : list entry) :
  let run := log_connection port protocol a len data_hex status (w, log) in
  fst run = Ok tt
  /\ snd (snd run)
     = log ++ [Entry (w_now w (w_ticks w)) port protocol (str_addr a) len
                 data_hex status].
Proof.
  cbv zeta. unfold log_connection. run. unfold now_isoformat.
  cbn. case_decide; split; reflexivity.
Qed.

Lemma print_rows_keeps_log (rows : list (string * bucket)) (w : world)
    (log : list entry) :
  exists w', print_rows rows (w, log) = (Ok tt, (w', log)).
Proof.
  revert w. induction rows as [|kv rows IH]; intros w.
  - exists w. reflexivity.
  - cbn [print_rows]. run. cbn. apply IH.
Qed.

Lemma dump_stats_once_keeps_log (w : world) (log : list entry) :
  exists w', dump_stats_once (w, log) = (Ok tt, (w', log)).
Proof.
  unfold dump_stats_once. run. cbn.
  match goal with
  | |- context [print_rows ?rows (?w1, log)] =>
      destruct (print_rows_keeps_log rows w1 log) as [w2 ->]
  end.
  eexists. reflexivity.
Qed.

Lemma events_of_key_text (proto : string) (p : Z) (log : list entry) :
  events_of (key_text proto p) log = events_at proto p log.
Proof.
  unfold events_of, events_at. apply list_filter_iff.
  intros e. apply key_text_inj.
Qed.

(** C5.  The statistics of a snapshot are a function of the logged events:
    under the key "protocol:port" of every protocol label and port, the
    bucket counts the logged events of that protocol on that port, sums
    their payload lengths and collects their distinct client addresses;
    under any text, the bucket is that of the events whose protocol and
    port spell this text, and there is none without such events; the
    counts of all buckets add up to the length of the log.  Taking the
    snapshot leaves the log as it was. *)
Theorem C5_stats_follow_the_log (connection_log : list entry) :
  (forall (proto : string) (p : Z),
     group_stats connection_log !! (proto ++ ":" ++ pretty p)%string
     = summarise (events_at proto p connection_log))
  /\ (forall key : string,
        group_stats connection_log !! key = bucket_of key connection_log)
  /\ total_count (group_stats connection_log) = length connection_log
  /\ (forall w : world,
        fst (dump_stats_once (w, connection_log)) = Ok tt
        /\ snd (snd (dump_stats_once (w, connection_log))) = connection_log).
Proof.
  split.
  { intros proto p. change (proto ++ ":" ++ pretty p)%string
      with (key_text proto p).
    rewrite group_stats_lookup. unfold bucket_of.
    rewrite events_of_key_text. unfold summarise.
    destruct (events_at proto p connection_log); reflexivity. }
  split; [intros key; apply group_stats_lookup|]. split.
  - induction connection_log as [|e log IH] using rev_ind; [reflexivity|].
    rewrite group_stats_snoc, total_count_stats_add, IH, length_app.
    cbn. lia.
  - intros w. destruct (dump_stats_once_keeps_log w connection_log) as [w' ->].
    split; reflexivity.
Qed.

End Stats.

Section Echo.

Import MultiportAnalyzer.

Local Arguments tcp_recv : simpl never.

Lemma tcp_recv_keeps_tx (n : nat) (c c' : tcp) (r : res bytes) :
  tcp_recv n c = (r, c') ->
  tcp_send c' = tcp_send c /\ tcp_sent c' = tcp_sent c.
Proof.
  unfold tcp_recv. destruct n.
  { intros [= _ <-]. done. }
  destruct (tcp_rxbuf c).
  - destruct (recv_wait (S n) (tcp_timeout c) (tcp_future c)) as [[r0 buf] fut].
    intros [= _ <-]. done.
  - intros [= _ <-]. done.
Qed.

(** The claim C6 fails for the echo listener of dns_test_server.py: its
    response to "hi" is "ECHO:hi", without the label of the listener. *)
Lemma C6_counterexample :
  let label := "TCP-ECHO:5353" in
  let request := encode "hi" in
  let run :=
    handle_tcp_client ("10.0.0.7", 40000%Z) label
      (world_of (stream_of request []) idle_udp) in
  request <> []
  /\ fst run = Ok tt
  /\ tcp_sent (w_tcp (snd run)) = encode "ECHO:hi"
  /\ tcp_sent (w_tcp (snd run)) <> encode ("ECHO:" ++ label ++ ":") ++ request.
Proof. vm_compute. repeat split; discriminate. Qed.

(** C6, amended.  A listener of multiport_analyzer.py with label L answers
    every non-empty request with the ASCII text "ECHO:" L ":" followed by
    the request, unchanged, over TCP and over UDP (where the request is
    the datagram as [recvfrom(4096)] delivers it).  The echo listener of
    dns_test_server.py answers every request with "ECHO:" followed by the
    request; the label is not part of its response. *)
Theorem C6_echo_response (a : addr) (port : Z) (label : string) (w : world)
    (log : list entry) (request : bytes) :
  request <> [] ->
  (forall c',
     tcp_recv 4096 (tcp_settimeout 5 (w_tcp w)) = (Ok request, c') ->
     tcp_send (w_tcp w) = None ->
     let run := handle_tcp a port label (w, log) in
     fst run = Ok tt
     /\ tcp_sent (w_tcp (fst (snd run)))
        = tcp_sent (w_tcp w) ++ encode ("ECHO:" ++ label ++ ":") ++ request)
  /\ (forall datagram rest,
        udp_inbox (w_udp w) = Dgram datagram a :: rest ->
        take 4096 datagram = request ->
        udp_send (w_udp w) = None ->
        let run := udp_listener_step port label (w, log) in
        fst run = Ok tt
        /\ udp_outbox (w_udp (fst (snd run)))
           = udp_outbox (w_udp w)
               ++ [(encode ("ECHO:" ++ label ++ ":") ++ request, a)])
  /\ (forall c',
        tcp_recv 4096 (w_tcp w) = (Ok request, c') ->
        tcp_send (w_tcp w) = None ->
        let run := handle_tcp_client a label w in
        fst run = Ok tt
        /\ tcp_sent (w_tcp (snd run))
           = tcp_sent (w_tcp w) ++ encode "ECHO:" ++ request).
Proof.
  intros Hne. split; [|split].
  - intros c' Hrecv Hsend. cbv zeta.
    destruct (tcp_recv_keeps_tx _ _ _ _ Hrecv) as [Hs Ht].
    unfold handle_tcp, log_connection. run. unfold now_isoformat.
    destruct w as [c u tp up out tm nw tk en dr]. cbn [w_tcp] in *.
    cbn in Hs, Ht. cbn. rewrite Hrecv. destruct request as [|b request]; [done|].
    cbn. case_decide; [|lia]. cbn.
    unfold tcp_sendall. rewrite Hs, Hsend. cbn.
    case_decide; cbn; rewrite Ht; split; reflexivity.
  - intros datagram rest Hin Htake Hsend. cbv zeta.
    unfold udp_listener_step, log_connection. run. unfold now_isoformat.
    destruct w as [c u tp up out tm nw tk en dr]. cbn [w_udp] in *.
    unfold udp_recvfrom, udp_sendto. cbn. rewrite Hin. cbn.
    rewrite Htake.
    destruct request as [|b request]; [done|]. cbn.
    case_decide; [|lia]. cbn. rewrite Hsend. cbn.
    case_decide; cbn; split; reflexivity.
  - intros c' Hrecv Hsend. cbv zeta.
    destruct (tcp_recv_keeps_tx _ _ _ _ Hrecv) as [Hs Ht].
    unfold handle_tcp_client. run.
    destruct w as [c u tp up out tm nw tk en dr]. cbn [w_tcp] in *.
    cbn. rewrite Hrecv. cbn. unfold tcp_sendall. rewrite Hs, Hsend. cbn.
    rewrite Ht. split; reflexivity.
Qed.

(** The amended C6 at the request "hi" on the listener labelled SSH. *)
Lemma C6_echo_response_witness :
  let w := world_of (stream_of (encode "hi") []) idle_udp in
  let run := handle_tcp ("10.0.0.7", 40000%Z) 22 "SSH" (w, []) in
  fst run = Ok tt
  /\ tcp_sent (w_tcp (fst (snd run))) = encode "ECHO:SSH:hi".
Proof.
  apply (proj1 (C6_echo_response ("10.0.0.7", 40000%Z) 22 "SSH"
                  (world_of (stream_of (encode "hi") []) idle_udp) []
                  (encode "hi") ltac:(discriminate))
           (Tcp (Some 5%Z) None [] [] None [] false));
    reflexivity.
Defined.

End Echo.

Section Diagnosis.

Local Arguments works : simpl never.

(** The claim C7 fails on a report in which every probe timed out: no rule
    of any family matches, and the analysis prints its heading and nothing
    else; the default diagnosis is not emitted. *)
Lemma C7_counterexample :
  let tests := replicate 10 ("probe", timed_out_result) in
  let run := run_tests_analysis tests (world_of idle_tcp idle_udp) in
  dns_rule_matches tests = false
  /\ ssh_rule_matches tests = false
  /\ tls_rule_matches tests = false
  /\ fst run = Ok tt
  /\ w_stdout (snd run) = [""; times "=" 70; "ANALYSIS"; times "=" 70]
  /\ default_diagnosis ∉ w_stdout (snd run).
Proof.
  vm_compute. repeat split.
  intros H. repeat (apply elem_of_cons in H as [H|H]; [discriminate H|]).
  now apply elem_of_nil in H.
Qed.

Ltac one_line :=
  cbn; first [ exists []; rewrite app_nil_r; now repeat split
             | eexists [_]; now repeat split ].

(** C7, amended.  For every report of the ten probes, the analysis of each
    protocol family (DNS, SSH, TLS) emits one diagnosis line when a rule of
    the family matches and no line when none does, so at most one line per
    family.  The single analysis of test_dns_blocking.py does have a
    default: when none of its rules matches it prints
    "→ See test results above for patterns". *)
Theorem C7_one_line_per_family (tests : report) (w : world) :
  9 <= length tests ->
  (let run := analyse_dns tests w in
   fst run = Ok tt
   /\ exists lines,
        w_stdout (snd run) = w_stdout w ++ lines
        /\ length lines = (if dns_rule_matches tests then 1 else 0))
  /\ (let run := analyse_ssh tests w in
      fst run = Ok tt
      /\ exists lines,
           w_stdout (snd run) = w_stdout w ++ lines
           /\ length lines = (if ssh_rule_matches tests then 1 else 0))
  /\ (let run := analyse_https tests w in
      fst run = Ok tt
      /\ exists lines,
           w_stdout (snd run) = w_stdout w ++ lines
           /\ length lines = (if tls_rule_matches tests then 1 else 0))
  /\ (forall results,
        blocking_rule_matches results = false ->
        let run := TestDnsBlocking.main_analysis results w in
        fst run = Ok tt
        /\ w_stdout (snd run)
           = w_stdout w
               ++ [""; "Analysis:"; "→ See test results above for patterns"]).
Proof.
  intros Hlen.
  destruct tests as [|t0 [|t1 [|t2 [|t3 [|t4 [|t5 [|t6 [|t7 [|t8 rest]]]]]]]]];
    cbn in Hlen; try lia.
  split; [|split; [|split]].
  - unfold analyse_dns, dns_rule_matches, probe_works. run. cbn.
    destruct (works t0), (works t1), (works t2); split; try reflexivity;
      one_line.
  - unfold analyse_ssh, ssh_rule_matches, probe_works. run. cbn.
    destruct (works t4), (works t5); split; try reflexivity; one_line.
  - unfold analyse_https, tls_rule_matches, probe_works. run. cbn.
    destruct (works t7), (works t8); split; try reflexivity; one_line.
  - intros [e r f c u] Hnone. unfold blocking_rule_matches in Hnone.
    cbn in Hnone. unfold TestDnsBlocking.main_analysis. run. cbn.
    destruct e, r, f, c, u; try discriminate Hnone; cbn;
      rewrite <- !app_assoc; split; reflexivity.
Qed.

(** The amended C7 at a report of ten timed-out probes. *)
Lemma C7_one_line_per_family_witness :
  let tests := replicate 10 ("probe", timed_out_result) in
  let run := analyse_dns tests (world_of idle_tcp idle_udp) in
  fst run = Ok tt
  /\ exists lines,
       w_stdout (snd run) = [] ++ lines
       /\ length lines = 0.
Proof.
  apply (C7_one_line_per_family (replicate 10 ("probe", timed_out_result))
           (world_of idle_tcp idle_udp)).
  vm_compute. lia.
Defined.

End Diagnosis.

Section ClientHello.

(** C8.  Every record [make_https_clienthello] produces is 50 bytes long,
    whatever the random bytes.  Its length fields do not describe it: the
    record length field says 64 while 45 bytes follow it, and the handshake
    length field says 60 while 41 bytes follow it. *)
Theorem C8_clienthello_lengths (w : world) :
  exists record,
    fst (make_https_clienthello w) = Ok record
    /\ length record = 50
    /\ record_length_field record = 64%N
    /\ length (record_body record) = 45
    /\ handshake_length_field record = 60%N
    /\ length (handshake_body record) = 41.
Proof.
  unfold make_https_clienthello, urandom. run. cbn.
  eexists. split; [reflexivity|]. repeat split; reflexivity.
Qed.

End ClientHello.

Section Examples.

Import MultiportAnalyzer.

Example pack_28 : pack_H 28 = Ok [x00; x1c].
Proof. reflexivity. Qed.

Example pack_too_long : pack_H 65536 = Raise (StructError "'H' format requires 0 <= number <= 65535").
Proof. reflexivity. Qed.

Example hex_of_id : hex [xaa; xbb; x01] = "aabb01".
Proof. reflexivity. Qed.

Example split_domain : split "."%char "google.com" = ["google"; "com"].
Proof. reflexivity. Qed.

Example made_query :
  fst (make_dns_query "google.com"
         (client_world [] [] (fun _ => 0%Z)
            (fun n => match n with 0 => xaa | _ => xbb end)))
  = Ok scenario_query.
Proof. reflexivity. Qed.

Example two_events_one_key :
  let e1 := Entry "t1" 5353 "TCP-TEST" "('10.0.0.7', 40000)" 4 "" "RECEIVED" in
  let e2 := Entry "t2" 5353 "TCP-TEST" "('10.0.0.8', 40001)" 9 "" "SENT_ECHO" in
  stats_key e1 = "TCP-TEST:5353"
  /\ (count <$> group_stats [e1; e2] !! "TCP-TEST:5353") = Some 2
  /\ (nbytes <$> group_stats [e1; e2] !! "TCP-TEST:5353") = Some 13
  /\ (size <$> (clients <$> group_stats [e1; e2] !! "TCP-TEST:5353")) = Some 2.
Proof. vm_compute. repeat split. Qed.

End Examples.

Section ProbeExamples.

Import ProtocolTesterClient.

Example connect_refused :
  tcp_status_against
    (fresh_tcp (Some (ConnectionRefusedError "[Errno 111] Connection refused"))
       None [])
  = Ok "REFUSED".
Proof. reflexivity. Qed.

Example connect_timeout :
  tcp_status_against (fresh_tcp (Some (SocketTimeout "timed out")) None [])
  = Ok "TIMEOUT".
Proof. reflexivity. Qed.

Example silent_peer :
  tcp_status_against (fresh_tcp None None [Stall]) = Ok "NO_RESPONSE".
Proof. reflexivity. Qed.

Example any_reply :
  tcp_status_against (fresh_tcp None None [Seg [xff]]) = Ok "SUCCESS".
Proof. reflexivity. Qed.

Example reset_by_peer :
  tcp_status_against
    (fresh_tcp None None
       [Fault (OtherException "[Errno 104] Connection reset by peer")])
  = Ok "ERROR:[Errno 104] Connection reset b".
Proof. reflexivity. Qed.

Example udp_port_unreachable :
  udp_status_against
    (fresh_udp None
       [DFault (ConnectionRefusedError "[Errno 111] Connection refused")])
  = Ok "REFUSED".
Proof. reflexivity. Qed.

Example udp_silence :
  udp_status_against (fresh_udp None []) = Ok "NO_RESPONSE".
Proof. reflexivity. Qed.

(** A negative timeout is refused by the socket before the connect: the
    probe ends in ERROR and nothing is sent. *)
Example negative_timeout :
  let run :=
    test_protocol "192.0.2.1" 53 "tcp" "RANDOM" [x00; x01] (-1)
      (client_world [fresh_tcp None None [Seg [xff]]] [] (fun _ => 0%Z)
         (fun _ => x00)) in
  (exists r, fst run = Ok r /\ status r = "ERROR:Timeout value out of range")
  /\ tcp_sent (w_tcp (snd run)) = [].
Proof. split; [eexists; split; reflexivity|reflexivity]. Qed.

(** The elapsed time is computed on floats.  Between clock readings of 1
    second and 1.001 seconds the difference times 1000 falls just short of
    1, so the field holds 0; between 0 and 2.5 seconds it holds 2500. *)
Example elapsed_on_floats :
  let probe_at clock :=
    fst (test_protocol "192.0.2.1" 53 "tcp" "RANDOM" [x00; x01] 5
           (client_world [fresh_tcp None None [Fin]] [] clock (fun _ => x00))) in
  (exists r,
     probe_at (fun n => match n with O => 1000000000 | S _ => 1001000000 end)%Z
     = Ok r
     /\ status r = "SUCCESS" /\ time_ms r = 0%Z)
  /\ (exists r,
        probe_at (fun n => match n with O => 0 | S _ => 2500000000 end)%Z = Ok r
        /\ status r = "SUCCESS" /\ time_ms r = 2500%Z).
Proof.
  split; eexists; (split; [vm_compute; reflexivity|]); split; reflexivity.
Qed.

(** A connect that takes 2.5 milliseconds is shown as 0.003 seconds: the
    float nearest to 0.0025 lies above it. *)
Example connect_time_text :
  format_3f (float_sub (seconds 2500000) (seconds 0)) = "0.003".
Proof. vm_compute. reflexivity. Qed.

End ProbeExamples.


(* ================================================================== *)
(** * Further properties of the code *)
(* ================================================================== *)

Section QueryCodec.

Lemma length_encode (s : string) : length (encode s) = String.length s.
Proof.
  unfold encode, list_byte_of_string.
  rewrite length_map. induction s as [|c s IH]; [reflexivity|].
  cbn. now rewrite IH.
Qed.

Lemma split_nonempty (sep : ascii) (s : string) : split sep s <> [].
Proof.
  destruct s as [|c s]; cbn; [discriminate|].
  destruct (Ascii.eqb c sep); [discriminate|].
  destruct (split sep s); discriminate.
Qed.

(** The labels of a text and its separators make up the text. *)
Lemma split_lengths (sep : ascii) (s : string) :
  sum_list (S ∘ String.length <$> split sep s) = S (String.length s).
Proof.
  induction s as [|c s IH]; [reflexivity|].
  cbn [split]. destruct (Ascii.eqb c sep).
  - cbn. now rewrite IH.
  - destruct (split sep s) as [|h t] eqn:Hs; [now apply split_nonempty in Hs|].
    cbn in *. lia.
Qed.

Lemma bytes_of_int_small (n : nat) :
  n < 256 -> exists b, Byte.of_N (N.of_nat n) = Some b.
Proof.
  intros Hn. destruct (Byte.of_N (N.of_nat n)) as [b|] eqn:Hb; [eauto|].
  apply Byte.of_N_None_iff in Hb. lia.
Qed.

Lemma str_len_le (s : string) : str_len s <= String.length s.
Proof.
  induction s as [|c s IH]; [reflexivity|].
  cbn [str_len String.length]. destruct (is_continuation c); lia.
Qed.

Lemma wire_label_length (label : string) :
  str_len label < 256 ->
  length (wire_label label) = S (String.length label).
Proof.
  intros Hl. unfold wire_label.
  destruct (bytes_of_int_small _ Hl) as [b ->]. cbn. now rewrite length_encode.
Qed.

Lemma encode_labels_short (labels : list string) (qname : bytes) :
  Forall (fun l => str_len l < 256) labels ->
  encode_labels qname labels = Ok (qname ++ concat (wire_label <$> labels)).
Proof.
  intros Hall. revert qname.
  induction Hall as [|l labels Hl _ IH]; intros qname.
  - cbn. now rewrite app_nil_r.
  - cbn [encode_labels fmap list_fmap concat]. unfold bytes_of_int, wire_label.
    destruct (bytes_of_int_small _ Hl) as [b ->].
    rewrite IH, <- !app_assoc. reflexivity.
Qed.

Lemma encode_labels_long (labels : list string) (qname : bytes) :
  Exists (fun l => 256 <= str_len l) labels ->
  encode_labels qname labels
  = Raise (OtherException "bytes must be in range(0, 256)").
Proof.
  intros Hex. revert qname.
  induction Hex as [l labels Hl|l labels _ IH]; intros qname.
  - cbn. unfold bytes_of_int.
    destruct (Byte.of_N (N.of_nat (str_len l))) as [b|] eqn:Hb;
      [|reflexivity].
    apply Byte.to_of_N in Hb. pose proof (Byte.to_N_bounded b). lia.
  - cbn. destruct (bytes_of_int (str_len l)) as [n| |] eqn:Hn.
    + apply IH.
    + unfold bytes_of_int in Hn.
      destruct (Byte.of_N (N.of_nat (str_len l))); [discriminate|].
      now injection Hn as <-.
    + unfold bytes_of_int in Hn.
      destruct (Byte.of_N (N.of_nat (str_len l))); discriminate.
Qed.

Lemma concat_wire_labels_length (labels : list string) :
  Forall (fun l => str_len l < 256) labels ->
  length (concat (wire_label <$> labels))
  = sum_list (S ∘ String.length <$> labels).
Proof.
  induction 1 as [|l labels Hl _ IH]; [reflexivity|].
  cbn. rewrite length_app, IH.
  rewrite wire_label_length by assumption. reflexivity.
Qed.

Lemma make_dns_query_short (domain : string) (w : world) :
  Forall (fun l => str_len l < 256) (split "."%char domain) ->
  fst (make_dns_query domain w)
  = Ok (next_random w 2 ++ query_counts
          ++ concat (wire_label <$> split "."%char domain)
          ++ [x00] ++ [x00; x01; x00; x01]).
Proof.
  intros Hall. unfold make_dns_query, urandom. run.
  rewrite (encode_labels_short _ [] Hall). cbn [app fst].
  unfold next_random, query_counts. cbn. rewrite <- !app_assoc. reflexivity.
Qed.

Lemma made_wire_length (domain : string) (id : bytes) :
  Forall (fun l => str_len l < 256) (split "."%char domain) ->
  length id = 2 ->
  length (id ++ query_counts
            ++ concat (wire_label <$> split "."%char domain)
            ++ [x00] ++ [x00; x01; x00; x01])
  = String.length domain + 18.
Proof.
  intros Hall Hid.
  rewrite !length_app, concat_wire_labels_length, split_lengths, Hid
    by assumption.
  cbn. lia.
Qed.

(** Labels that are short in bytes are short in characters. *)
Lemma short_labels (labels : list string) :
  Forall (fun l => String.length l < 256) labels ->
  Forall (fun l => str_len l < 256) labels.
Proof.
  induction 1 as [|l labels Hl _ IH]; constructor; [|exact IH].
  pose proof (str_len_le l). lia.
Qed.

(** X1.  [make_dns_query] succeeds on every domain whose labels are
    shorter than 256 characters.  The query is the two random bytes of the
    transaction id, the fixed header counts, every label as its length in
    characters in one byte followed by its UTF-8 bytes, the terminating
    zero, and type A, class IN; it is 18 bytes longer than the encoded
    domain. *)
Theorem make_dns_query_wire (domain : string) (w : world) :
  Forall (fun l => str_len l < 256) (split "."%char domain) ->
  exists q,
    fst (make_dns_query domain w) = Ok q
    /\ q = next_random w 2 ++ query_counts
             ++ concat (wire_label <$> split "."%char domain)
             ++ [x00] ++ [x00; x01; x00; x01]
    /\ length q = length (encode domain) + 18.
Proof.
  intros Hall. eexists. split; [now apply make_dns_query_short|].
  split; [reflexivity|]. rewrite length_encode. now apply made_wire_length.
Qed.

(** X1 at a domain outside ASCII: the first label, one character of two
    bytes, goes out behind the length byte 01, and the query has 24
    bytes. *)
Lemma make_dns_query_wire_witness :
  exists q,
    fst (make_dns_query "é.com" (world_of idle_tcp idle_udp)) = Ok q
    /\ take 3 (drop 12 q) = [x01; xc3; xa9]
    /\ length q = 24.
Proof.
  destruct (make_dns_query_wire "é.com" (world_of idle_tcp idle_udp))
    as (q & Hq & -> & Hlen).
  { repeat constructor; vm_compute; lia. }
  eexists. split; [exact Hq|]. split; [reflexivity|exact Hlen].
Defined.

(** X2.  A label of 256 characters or more makes [make_dns_query] raise
    the [ValueError] of [bytes([len(label)])]: no query is built. *)
Theorem make_dns_query_long_label (domain : string) (w : world) :
  Exists (fun l => 256 <= str_len l) (split "."%char domain) ->
  fst (make_dns_query domain w)
  = Raise (OtherException "bytes must be in range(0, 256)").
Proof.
  intros Hex. unfold make_dns_query, urandom. run.
  now rewrite (encode_labels_long _ [] Hex).
Qed.

Lemma make_dns_query_long_label_witness :
  fst (make_dns_query (times "a" 256 ++ ".org") (world_of idle_tcp idle_udp))
  = Raise (OtherException "bytes must be in range(0, 256)").
Proof.
  apply (make_dns_query_long_label (times "a" 256 ++ ".org")
           (world_of idle_tcp idle_udp)).
  apply Exists_cons_hd. vm_compute. lia.
Defined.

End QueryCodec.

Section Exchange.

Lemma make_dns_query_inv (domain : string) (w : world) (q : bytes) :
  fst (make_dns_query domain w) = Ok q ->
  exists qname,
    q = next_random w 2 ++ query_counts ++ qname ++ [x00; x00; x01; x00; x01].
Proof.
  unfold make_dns_query, urandom. run.
  destruct (encode_labels [] (split "."%char domain)) as [qname| |];
    cbn; intros [= <-].
  exists qname. unfold next_random, query_counts. cbn.
  rewrite <- !app_assoc. reflexivity.
Qed.

Lemma made_query_length (domain : string) (w : world) (q : bytes) :
  fst (make_dns_query domain w) = Ok q ->
  17 <= length q /\ take 2 q = next_random w 2.
Proof.
  intros Hq. destruct (make_dns_query_inv _ _ _ Hq) as [qname ->].
  split; [|reflexivity].
  rewrite !length_app. cbn. lia.
Qed.

(** X3.  The responder's answer to any query [make_dns_query] produces
    carries the transaction id of the query in its first two bytes and the
    question section of the query, byte for byte, after its 12-byte header;
    it is 16 bytes longer than the query. *)
Theorem response_answers_made_query (domain : string) (w : world) (q : bytes) :
  fst (make_dns_query domain w) = Ok q ->
  take 2 (build_dns_response q) = next_random w 2
  /\ take (length q - 12) (drop 12 (build_dns_response q)) = drop 12 q
  /\ drop (length q) (build_dns_response q) = answer_record
  /\ length (build_dns_response q) = length q + 16.
Proof.
  intros Hq. destruct (made_query_length _ _ _ Hq) as [Hlen Hid].
  destruct (build_dns_response_question q) as (H1 & H2 & H3); [lia|].
  rewrite H1, Hid, H2. repeat split.
  - rewrite <- H3. f_equal. lia.
  - rewrite build_dns_response_length. lia.
Qed.

Lemma response_answers_made_query_witness :
  take 2 (build_dns_response scenario_query) = [xaa; xbb]
  /\ length (build_dns_response scenario_query) = 44.
Proof.
  destruct (response_answers_made_query "google.com"
              (client_world [] [] (fun _ => 0%Z)
                 (fun n => match n with 0 => xaa | _ => xbb end))
              scenario_query eq_refl) as (H1 & _ & _ & H4).
  split; [exact H1|exact H4].
Defined.

(** X4.  A whole exchange over TCP, for any domain of at most 65501 bytes
    with labels shorter than 256 bytes: the query [make_dns_query] builds,
    framed as the client frames it, is answered by the TCP responder with
    the length-prefixed response to that query, whose first two bytes are
    the transaction id the client drew. *)
Theorem dns_tcp_exchange (domain : string) (a : addr) (then_ : list incoming)
    (w : world) :
  Forall (fun l => String.length l < 256) (split "."%char domain) ->
  (N.of_nat (String.length domain) <= 65501)%N ->
  exists q framed,
    fst (make_dns_query domain w) = Ok q
    /\ wrap_tcp_length_prefix q = Ok framed
    /\ let run :=
         handle_dns_tcp a (world_of (stream_of framed then_) idle_udp) in
       fst run = Ok tt
       /\ exists prefix,
            tcp_sent (w_tcp (snd run)) = prefix ++ build_dns_response q
            /\ unpack_H prefix = Ok (N.of_nat (length q + 16))
            /\ take 2 (build_dns_response q) = next_random w 2.
Proof.
  intros Hall Hlen.
  apply short_labels in Hall.
  pose proof (make_dns_query_short domain w Hall) as Hq.
  pose proof (made_wire_length domain (next_random w 2) Hall eq_refl) as Hql.
  set (q := next_random w 2 ++ _) in Hq, Hql. clearbody q.
  assert (Hrl : length (build_dns_response q) = length q + 16)
    by (rewrite build_dns_response_length; lia).
  assert (Hid : take 2 (build_dns_response q) = next_random w 2).
  { destruct (made_query_length _ _ _ Hq) as [Hlen' Hid].
    destruct (build_dns_response_question q) as (H1 & _); [lia|].
    now rewrite H1. }
  destruct (pack_H_fits (N.of_nat (length q))) as [prefix Hp]; [lia|].
  destruct (pack_H_fits (N.of_nat (length (build_dns_response q))))
    as [rprefix Hr]; [lia|].
  exists q, (prefix ++ q). split; [exact Hq|]. split.
  { unfold wrap_tcp_length_prefix. now rewrite Hp. }
  destruct (handle_dns_tcp_answers a (N.of_nat (length q)) prefix q rprefix
              (world_of (stream_of (prefix ++ q) then_) idle_udp))
    as (w' & Hrun & Hsent & _); try reflexivity; try assumption.
  { left. destruct q; [cbn in Hql; lia|discriminate]. }
  { rewrite Nat2N.id, firstn_all. exact Hr. }
  rewrite Nat2N.id, firstn_all in Hsent.
  cbv zeta. rewrite Hrun. cbn [fst snd]. split; [reflexivity|].
  exists rprefix. split; [exact Hsent|]. split; [|exact Hid].
  rewrite <- Hrl. now apply unpack_pack_H.
Qed.

Lemma dns_tcp_exchange_witness :
  exists q framed,
    fst (make_dns_query "example.org" (world_of idle_tcp idle_udp)) = Ok q
    /\ wrap_tcp_length_prefix q = Ok framed
    /\ fst (handle_dns_tcp ("10.0.0.7", 40000%Z)
              (world_of (stream_of framed [Fin]) idle_udp)) = Ok tt.
Proof.
  destruct (dns_tcp_exchange "example.org" ("10.0.0.7", 40000%Z) [Fin]
              (world_of idle_tcp idle_udp))
    as (q & framed & Hq & Hw & Hrun & _).
  { repeat constructor; vm_compute; lia. }
  { vm_compute. discriminate. }
  exists q, framed. split; [exact Hq|]. split; [exact Hw|exact Hrun].
Defined.

Lemma pack_H_overflow (n : N) :
  (65536 <= n)%N ->
  pack_H n = Raise (StructError "'H' format requires 0 <= number <= 65535").
Proof.
  intros Hn. unfold pack_H.
  destruct (Byte.of_N (n / 256)) as [hi|] eqn:Hhi; [|reflexivity].
  apply Byte.to_of_N in Hhi. pose proof (Byte.to_N_bounded hi).
  assert (256 <= n / 256)%N by (apply N.div_le_lower_bound; lia). lia.
Qed.

(** X5.  The TCP responder cannot frame a response of more than 65535
    bytes: a query of 65520 bytes or more, read in full, makes
    [struct.pack] fail; the handler prints the error, sends nothing and
    closes the connection. *)
Theorem oversized_query_gets_no_response (a : addr) (query prefix : bytes)
    (then_ : list incoming) :
  pack_H (N.of_nat (length query)) = Ok prefix ->
  (65520 <= N.of_nat (length query))%N ->
  let run :=
    handle_dns_tcp a (world_of (stream_of (prefix ++ query) then_) idle_udp) in
  fst run = Ok tt
  /\ tcp_sent (w_tcp (snd run)) = []
  /\ tcp_closed (w_tcp (snd run)) = true
  /\ last (w_stdout (snd run))
     = Some "[DNS-TCP] Error: 'H' format requires 0 <= number <= 65535".
Proof.
  intros Hp Hbig. cbv zeta. unfold handle_dns_tcp. run.
  destruct (read_buffered (N.of_nat (length query)) prefix query
              (set_stdout
                 (fun out => out ++ [("[DNS-TCP] Connection from " ++ str_addr a)%string])
                 (world_of (stream_of (prefix ++ query) then_) idle_udp))
              Hp eq_refl)
    as (w1 & Hread & _ & Hsent & _ & _ & _).
  { left. destruct query; [cbn in Hbig; lia|discriminate]. }
  rewrite Hread, Nat2N.id, firstn_all. unfold wrap_tcp_length_prefix.
  rewrite pack_H_overflow
    by (rewrite build_dns_response_length; lia).
  cbn. rewrite Hsent. cbn. repeat split. apply last_snoc.
Qed.

Lemma oversized_query_gets_no_response_witness :
  tcp_sent
    (w_tcp (snd (handle_dns_tcp ("10.0.0.7", 40000%Z)
                   (world_of (stream_of ([xff; xf0] ++ replicate (N.to_nat 65520) x00) [])
                      idle_udp))))
  = [].
Proof.
  apply (oversized_query_gets_no_response ("10.0.0.7", 40000%Z)
           (replicate (N.to_nat 65520) x00) [xff; xf0] []).
  - vm_compute. reflexivity.
  - vm_compute. discriminate.
Defined.

End Exchange.

Section Handlers.

(** A handler of the form [try: body / except Exception as e: print(..) /
    finally: conn.close()]. *)
Lemma guarded_handler (body : M world unit) (msg : exn -> string) (w : world) :
  try_finally (try_except body (fun e => Some (print (msg e)))) close w =
    match body w with
    | (Ok _, w') => (Ok tt, set_tcp tcp_close w')
    | (Raise e, w') =>
        (Ok tt, set_tcp tcp_close (set_stdout (fun out => out ++ [msg e]) w'))
    | (Hang, w') => (Hang, w')
    end.
Proof.
  run. destruct (body w) as [[[]|e|] w']; reflexivity.
Qed.

(** X6.  Neither handler of dns_test_server.py lets an exception escape:
    whatever the peer and the transport do, the handler either returns,
    and then the connection is closed, or stays blocked in a receive. *)
Theorem dns_test_server_handlers_contain_failures (a : addr) (name : string)
    (w : world) :
  (fst (handle_dns_tcp a w) = Hang
   \/ fst (handle_dns_tcp a w) = Ok tt
      /\ tcp_closed (w_tcp (snd (handle_dns_tcp a w))) = true)
  /\ (fst (handle_tcp_client a name w) = Hang
      \/ fst (handle_tcp_client a name w) = Ok tt
         /\ tcp_closed (w_tcp (snd (handle_tcp_client a name w))) = true).
Proof.
  split.
  - unfold handle_dns_tcp. rewrite guarded_handler.
    match goal with |- context [match ?b with _ => _ end] => destruct b as [[[]|e|] w'] end;
      cbn; auto.
  - unfold handle_tcp_client. rewrite guarded_handler.
    match goal with |- context [match ?b with _ => _ end] => destruct b as [[[]|e|] w'] end;
      cbn; auto.
Qed.

(** X7.  The TCP DNS handler sets no timeout.  Against a peer that
    connects and stays silent, or that sends a length prefix announcing a
    non-empty query and then stays silent, it blocks for ever: nothing is
    sent and the connection is never closed. *)
Theorem dns_tcp_handler_waits_for_ever (a : addr) (then_ : list incoming)
    (n : N) (prefix : bytes) :
  (let run :=
     handle_dns_tcp a (world_of (stream_of [] (Stall :: then_)) idle_udp) in
   fst run = Hang
   /\ tcp_sent (w_tcp (snd run)) = []
   /\ tcp_closed (w_tcp (snd run)) = false)
  /\ (pack_H n = Ok prefix -> n <> 0%N ->
      let run :=
        handle_dns_tcp a (world_of (stream_of prefix (Stall :: then_)) idle_udp) in
      fst run = Hang
      /\ tcp_sent (w_tcp (snd run)) = []
      /\ tcp_closed (w_tcp (snd run)) = false).
Proof.
  split; [repeat split|].
  intros Hp Hn. destruct (pack_H_inv _ _ Hp) as (hi & lo & -> & Hv).
  cbv zeta. unfold handle_dns_tcp, read_tcp_length_prefixed. run.
  cbn. rewrite Hv. unfold tcp_recv.
  destruct (N.to_nat n) as [|k] eqn:Hk; [lia|].
  cbn. repeat split.
Qed.

Lemma dns_tcp_handler_waits_for_ever_witness :
  fst (handle_dns_tcp ("10.0.0.7", 40000%Z)
         (world_of (stream_of [x00; x1c] [Stall]) idle_udp)) = Hang.
Proof.
  apply (proj2 (dns_tcp_handler_waits_for_ever ("10.0.0.7", 40000%Z) [] 28
                  [x00; x1c]));
    [reflexivity|discriminate].
Defined.

End Handlers.

Section AnalyzerTcp.

Import MultiportAnalyzer.

Local Arguments tcp_recv : simpl never.

Lemma app_cons_neq {A} (l r : list A) (x : A) : l ++ x :: r <> l.
Proof.
  intros H. apply (f_equal length) in H. rewrite length_app in H.
  cbn in H. lia.
Qed.

(** What [handle_tcp] does, by what the receive and the send do. *)
Lemma handle_tcp_cases (a : addr) (p : Z) (name : string) (w : world)
    (log : list entry) :
  exists w' new,
    handle_tcp a p name (w, log) = (Ok tt, (w', log ++ new))
    /\ tcp_closed (w_tcp w') = true
    /\ match fst (tcp_recv 4096 (tcp_settimeout 5 (w_tcp w))) with
       | Ok [] =>
           new = [tcp_event (w_now w (w_ticks w)) p name a 0 "" "RECEIVED"]
           /\ tcp_sent (w_tcp w') = tcp_sent (w_tcp w)
       | Ok data =>
           match tcp_send (w_tcp w) with
           | None =>
               new = [tcp_event (w_now w (w_ticks w)) p name a (length data)
                        (hex data) "RECEIVED";
                      tcp_event (w_now w (S (w_ticks w))) p name a
                        (length (echo_response name data)) "" "SENT_ECHO"]
               /\ tcp_sent (w_tcp w')
                  = tcp_sent (w_tcp w) ++ echo_response name data
           | Some e =>
               new = [tcp_event (w_now w (w_ticks w)) p name a (length data)
                        (hex data) "RECEIVED";
                      tcp_event (w_now w (S (w_ticks w))) p name a 0 ""
                        (failure_status e)]
               /\ tcp_sent (w_tcp w') = tcp_sent (w_tcp w)
           end
       | Raise e =>
           new = [tcp_event (w_now w (w_ticks w)) p name a 0 ""
                    (failure_status e)]
           /\ tcp_sent (w_tcp w') = tcp_sent (w_tcp w)
       | Hang => False
       end.
Proof.
  unfold handle_tcp, log_connection. run. unfold now_isoformat.
  destruct w as [c u tp up out tm nw tk en dr]. cbn.
  pose proof (tcp_recv_no_hang 4096 (tcp_settimeout 5 c) 5 eq_refl) as Hnh.
  destruct (tcp_recv 4096 (tcp_settimeout 5 c)) as [r c'] eqn:Hrecv.
  destruct (tcp_recv_keeps_tx _ _ _ _ Hrecv) as [Hs Ht]. cbn in Hs, Ht, Hnh.
  destruct r as [[|b data]|e|]; [| | |congruence].
  - cbn. eexists _, [_]. split; [reflexivity|]. cbn. auto.
  - cbn. case_decide; [|lia]. cbn. unfold tcp_sendall. rewrite Hs.
    destruct (tcp_send c) as [e|].
    + destruct e; cbn; eexists _, [_; _]; rewrite <- app_assoc;
        (split; [reflexivity|]); cbn; auto.
    + cbn. case_decide; cbn; eexists _, [_; _]; rewrite <- !app_assoc;
        (split; [reflexivity|]); cbn; rewrite Ht; auto.
  - destruct e; cbn; eexists _, [_]; (split; [reflexivity|]); cbn; auto.
Qed.

End AnalyzerTcp.

Section AnalyzerTcpProperties.

Import MultiportAnalyzer.

Lemma failure_status_not_sent (e : exn) : failure_status e <> "SENT_ECHO".
Proof. destruct e; discriminate. Qed.

(** X8.  [handle_tcp] of multiport_analyzer.py always returns and closes
    the connection.  It only appends to the log: one or two events, each
    carrying the port, the label "TCP-<name>" and the client address of
    this connection; and a SENT_ECHO event is among them exactly when the
    handler has written to the connection. *)
Theorem handle_tcp_logs_and_closes (a : addr) (p : Z) (name : string)
    (w : world) (log : list entry) :
  exists w' new,
    handle_tcp a p name (w, log) = (Ok tt, (w', log ++ new))
    /\ tcp_closed (w_tcp w') = true
    /\ 1 <= length new <= 2
    /\ Forall (fun e => port e = p /\ protocol e = ("TCP-" ++ name)%string
                        /\ client e = str_addr a) new
    /\ ("SENT_ECHO" ∈ status <$> new
        <-> tcp_sent (w_tcp w') <> tcp_sent (w_tcp w)).
Proof.
  destruct (handle_tcp_cases a p name w log) as (w' & new & Hrun & Hcl & Hcase).
  exists w', new. split; [exact Hrun|]. split; [exact Hcl|].
  destruct (fst (tcp_recv 4096 (tcp_settimeout 5 (w_tcp w))))
    as [[|b data]|e|]; [| | |done].
  - destruct Hcase as [-> ->]. cbn. split; [lia|]. split.
    { repeat constructor. }
    split; [|done]. intros H. apply list_elem_of_singleton in H. discriminate.
  - destruct (tcp_send (w_tcp w)) as [e|]; destruct Hcase as [-> ->]; cbn;
      (split; [lia|]); (split; [repeat constructor|]).
    + split; [|done]. intros H.
      apply elem_of_cons in H as [H|H]; [discriminate|].
      apply list_elem_of_singleton in H.
      now apply eq_sym, failure_status_not_sent in H.
    + split; [intros _; apply app_cons_neq|].
      intros _. apply elem_of_cons. right. now apply list_elem_of_singleton.
  - destruct Hcase as [-> ->]. cbn. split; [lia|]. split.
    { repeat constructor. }
    split; [|done]. intros H. apply list_elem_of_singleton in H.
    now apply eq_sym, failure_status_not_sent in H.
Qed.

(** X9.  A connection on which no data arrives leaves exactly one event
    and no response: TIMEOUT when the peer stays silent for the 5 seconds
    of the timeout, RECEIVED with length 0 when the peer closes. *)
Theorem handle_tcp_without_data (a : addr) (p : Z) (name : string)
    (w : world) (log : list entry) (rest : list incoming) :
  tcp_rxbuf (w_tcp w) = [] ->
  let run := handle_tcp a p name (w, log) in
  (tcp_future (w_tcp w) = Stall :: rest ->
   snd (snd run)
   = log ++ [tcp_event (w_now w (w_ticks w)) p name a 0 "" "TIMEOUT"]
   /\ tcp_sent (w_tcp (fst (snd run))) = tcp_sent (w_tcp w))
  /\ (tcp_future (w_tcp w) = Fin :: rest ->
      snd (snd run)
      = log ++ [tcp_event (w_now w (w_ticks w)) p name a 0 "" "RECEIVED"]
      /\ tcp_sent (w_tcp (fst (snd run))) = tcp_sent (w_tcp w)).
Proof.
  intros Hbuf. cbv zeta.
  destruct (handle_tcp_cases a p name w log) as (w' & new & Hrun & _ & Hcase).
  rewrite Hrun. cbn [fst snd].
  unfold tcp_recv in Hcase. cbn in Hcase. rewrite Hbuf in Hcase.
  split; intros Hfut; rewrite Hfut in Hcase; cbn in Hcase;
    destruct Hcase as [-> ->]; split; reflexivity.
Qed.

Lemma handle_tcp_without_data_witness :
  snd (snd (handle_tcp ("10.0.0.7", 40000%Z) 443 "HTTPS"
              (world_of (stream_of [] [Stall]) idle_udp, [])))
  = [tcp_event "" 443 "HTTPS" ("10.0.0.7", 40000%Z) 0 "" "TIMEOUT"].
Proof.
  apply (proj1 (handle_tcp_without_data ("10.0.0.7", 40000%Z) 443 "HTTPS"
                  (world_of (stream_of [] [Stall]) idle_udp) [] []
                  eq_refl));
    reflexivity.
Defined.

(** X10.  When the request has been received and sending the response
    fails, the log holds the RECEIVED event followed by a TIMEOUT or ERROR
    event of length 0, no SENT_ECHO event, and nothing has been written. *)
Theorem handle_tcp_failed_send (a : addr) (p : Z) (name : string)
    (w : world) (log : list entry) (b : byte) (more : bytes) (e : exn) :
  tcp_rxbuf (w_tcp w) = b :: more ->
  tcp_send (w_tcp w) = Some e ->
  let run := handle_tcp a p name (w, log) in
  let data := take 4096 (b :: more) in
  snd (snd run)
  = log ++ [tcp_event (w_now w (w_ticks w)) p name a (length data) (hex data)
              "RECEIVED";
            tcp_event (w_now w (S (w_ticks w))) p name a 0 ""
              (failure_status e)]
  /\ tcp_sent (w_tcp (fst (snd run))) = tcp_sent (w_tcp w).
Proof.
  intros Hbuf Hsend. cbv zeta.
  destruct (handle_tcp_cases a p name w log) as (w' & new & Hrun & _ & Hcase).
  rewrite Hrun. cbn [fst snd].
  rewrite tcp_recv_buffered in Hcase by (left; cbn; rewrite Hbuf; done).
  cbn [fst tcp_settimeout tcp_rxbuf] in Hcase. rewrite Hbuf, Hsend in Hcase.
  rewrite (firstn_cons 4095 b more) in *.
  destruct Hcase as [-> ->]. split; reflexivity.
Qed.

Lemma handle_tcp_failed_send_witness :
  status <$> snd (snd (handle_tcp ("10.0.0.7", 40000%Z) 22 "SSH"
                         (world_of
                            (Tcp None None (encode "hi") []
                               (Some (OtherException "[Errno 32] Broken pipe"))
                               [] false)
                            idle_udp, [])))
  = ["RECEIVED"; "ERROR:[Errno 32] Broken pipe"].
Proof.
  pose proof (handle_tcp_failed_send ("10.0.0.7", 40000%Z) 22 "SSH"
                (world_of
                   (Tcp None None (encode "hi") []
                      (Some (OtherException "[Errno 32] Broken pipe"))
                      [] false)
                   idle_udp) [] "h"%byte (encode "i")
                (OtherException "[Errno 32] Broken pipe") eq_refl eq_refl)
    as [H _].
  cbv zeta in H. rewrite H. reflexivity.
Defined.

End AnalyzerTcpProperties.

Section UdpLoops.

Import MultiportAnalyzer.

Lemma dns_udp_step_cases (w : world) :
  udp_send (w_udp w) = None ->
  udp_timeout (w_udp w) = None ->
  match udp_inbox (w_udp w) with
  | [] => dns_udp_step w = (Hang, w)
  | DStall :: _ => fst (dns_udp_step w) = Hang
  | ev :: rest =>
      exists w',
        dns_udp_step w = (Ok tt, w')
        /\ udp_inbox (w_udp w') = rest
        /\ udp_outbox (w_udp w') = udp_outbox (w_udp w) ++ dns_replies [ev]
        /\ udp_send (w_udp w') = None
        /\ udp_timeout (w_udp w') = None
  end.
Proof.
  intros Hs Ht. unfold dns_udp_step. run.
  destruct w as [c [t inbox sn out cl] tp up so tm nw tk en dr].
  cbn in Hs, Ht. subst. unfold udp_recvfrom, udp_sendto. cbn.
  destruct inbox as [|[data a| |e] rest]; cbn; try reflexivity.
  - eexists. repeat split.
  - eexists. split; [reflexivity|]. cbn. rewrite app_nil_r. repeat split.
Qed.

Lemma dns_udp_loop (events : list dgram_event) :
  forall (w : world) (fuel : nat),
    udp_inbox (w_udp w) = events ->
    forallb (negb ∘ is_stall) events = true ->
    udp_send (w_udp w) = None ->
    udp_timeout (w_udp w) = None ->
    length events < fuel ->
    exists w',
      while_true fuel dns_udp_step w = (Hang, w')
      /\ udp_outbox (w_udp w') = udp_outbox (w_udp w) ++ dns_replies events.
Proof.
  induction events as [|ev rest IH]; intros w fuel Hin Hns Hs Ht Hfuel;
    (destruct fuel as [|fuel]; [cbn in Hfuel; lia|]);
    pose proof (dns_udp_step_cases w Hs Ht) as Hstep; rewrite Hin in Hstep;
    cbn [while_true]; unfold bind.
  - rewrite Hstep. exists w. split; [reflexivity|]. cbn. now rewrite app_nil_r.
  - cbn in Hns. apply andb_true_iff in Hns as [Hev Hns].
    assert (exists w1,
               dns_udp_step w = (Ok tt, w1)
               /\ udp_inbox (w_udp w1) = rest
               /\ udp_outbox (w_udp w1) = udp_outbox (w_udp w) ++ dns_replies [ev]
               /\ udp_send (w_udp w1) = None
               /\ udp_timeout (w_udp w1) = None) as (w1 & H1 & Hin1 & Ho1 & Hs1 & Ht1).
    { destruct ev; [exact Hstep|discriminate Hev|exact Hstep]. }
    rewrite H1.
    destruct (IH w1 fuel Hin1 Hns Hs1 Ht1) as (w' & Hrun & Hout);
      [cbn in Hfuel; lia|].
    exists w'. split; [exact Hrun|].
    rewrite Hout, Ho1, <- app_assoc. f_equal.
    unfold dns_replies. cbn [flat_map]. now rewrite app_nil_r.
Qed.

(** X11.  The UDP DNS responder answers the datagrams that reach it one by
    one, in order of arrival, each with the response to its first 512
    bytes and to its own sender; a transport error on a receive is printed
    and the loop goes on.  When nothing more arrives the responder waits:
    it never ends by itself. *)
Theorem dns_udp_server_serves_in_order (port : Z) (events : list dgram_event)
    (w : world) (fuel : nat) :
  udp_inbox (w_udp w) = events ->
  forallb (negb ∘ is_stall) events = true ->
  udp_send (w_udp w) = None ->
  udp_timeout (w_udp w) = None ->
  length events < fuel ->
  let run := dns_udp_server port fuel w in
  fst run = Hang
  /\ udp_outbox (w_udp (snd run)) = udp_outbox (w_udp w) ++ dns_replies events.
Proof.
  intros Hin Hns Hs Ht Hfuel. cbv zeta. unfold dns_udp_server. run.
  destruct (dns_udp_loop events
              (set_stdout
                 (fun out => out ++ [("[DNS-UDP] Listening on port " ++ pretty port)%string])
                 w) fuel Hin Hns Hs Ht Hfuel) as (w' & Hrun & Hout).
  cbn. rewrite Hrun. split; [reflexivity|exact Hout].
Qed.

Lemma dns_udp_server_serves_in_order_witness :
  let a1 : addr := ("10.0.0.7", 40000%Z) in
  let a2 : addr := ("10.0.0.8", 40001%Z) in
  let events :=
    [Dgram scenario_query a1; DFault (OtherException "[Errno 101] Network is unreachable");
     Dgram [xcc; xdd] a2] in
  udp_outbox
    (w_udp (snd (dns_udp_server 53 4 (world_of idle_tcp (fresh_udp None events)))))
  = [(build_dns_response scenario_query, a1);
     (build_dns_response [xcc; xdd], a2)].
Proof.
  cbv zeta.
  apply (dns_udp_server_serves_in_order 53
           [Dgram scenario_query ("10.0.0.7", 40000%Z);
            DFault (OtherException "[Errno 101] Network is unreachable");
            Dgram [xcc; xdd] ("10.0.0.8", 40001%Z)]
           (world_of idle_tcp
              (fresh_udp None
                 [Dgram scenario_query ("10.0.0.7", 40000%Z);
                  DFault (OtherException "[Errno 101] Network is unreachable");
                  Dgram [xcc; xdd] ("10.0.0.8", 40001%Z)])) 4);
    try reflexivity.
  vm_compute. lia.
Defined.

End UdpLoops.

Section UdpEcho.

Import MultiportAnalyzer.

Lemma udp_listener_step_cases (p : Z) (name : string) (w : world)
    (log : list entry) :
  udp_send (w_udp w) = None ->
  udp_timeout (w_udp w) = None ->
  match udp_inbox (w_udp w) with
  | [] => udp_listener_step p name (w, log) = (Hang, (w, log))
  | DStall :: _ => fst (udp_listener_step p name (w, log)) = Hang
  | ev :: rest =>
      exists w' new,
        udp_listener_step p name (w, log) = (Ok tt, (w', log ++ new))
        /\ udp_inbox (w_udp w') = rest
        /\ udp_outbox (w_udp w') = udp_outbox (w_udp w) ++ echo_replies name [ev]
        /\ status <$> new = echo_statuses [ev]
        /\ Forall (fun e => port e = p
                            /\ protocol e = ("UDP-" ++ name)%string) new
        /\ udp_send (w_udp w') = None
        /\ udp_timeout (w_udp w') = None
  end.
Proof.
  intros Hs Ht. unfold udp_listener_step, log_connection. run.
  unfold now_isoformat.
  destruct w as [c [t inbox sn out cl] tp up so tm nw tk en dr].
  cbn in Hs, Ht. subst. unfold udp_recvfrom, udp_sendto. cbn.
  destruct inbox as [|[data a| |e] rest]; cbn; try reflexivity.
  - destruct (take 4096 data) as [|b request] eqn:Hd; cbn.
    + eexists _, [_]. split; [reflexivity|]. cbn. rewrite app_nil_r.
      repeat split. repeat constructor.
    + case_decide; [|lia]. cbn.
      case_decide; cbn; eexists _, [_; _]; rewrite <- !app_assoc;
        (split; [reflexivity|]); cbn; repeat split; repeat constructor.
  - eexists _, []. rewrite !app_nil_r. split; [reflexivity|]. cbn.
    repeat split. constructor.
Qed.

Lemma udp_listener_loop (p : Z) (name : string) (events : list dgram_event) :
  forall (w : world) (log : list entry) (fuel : nat),
    udp_inbox (w_udp w) = events ->
    forallb (negb ∘ is_stall) events = true ->
    udp_send (w_udp w) = None ->
    udp_timeout (w_udp w) = None ->
    length events < fuel ->
    exists w' new,
      while_true fuel (udp_listener_step p name) (w, log)
      = (Hang, (w', log ++ new))
      /\ udp_outbox (w_udp w') = udp_outbox (w_udp w) ++ echo_replies name events
      /\ status <$> new = echo_statuses events
      /\ Forall (fun e => port e = p
                          /\ protocol e = ("UDP-" ++ name)%string) new.
Proof.
  induction events as [|ev rest IH]; intros w log fuel Hin Hns Hs Ht Hfuel;
    (destruct fuel as [|fuel]; [cbn in Hfuel; lia|]);
    pose proof (udp_listener_step_cases p name w log Hs Ht) as Hstep;
    rewrite Hin in Hstep; cbn [while_true]; unfold bind.
  - rewrite Hstep. exists w, []. rewrite !app_nil_r.
    split; [reflexivity|]. repeat split. constructor.
  - cbn in Hns. apply andb_true_iff in Hns as [Hev Hns].
    assert (exists w1 new1,
               udp_listener_step p name (w, log) = (Ok tt, (w1, log ++ new1))
               /\ udp_inbox (w_udp w1) = rest
               /\ udp_outbox (w_udp w1)
                  = udp_outbox (w_udp w) ++ echo_replies name [ev]
               /\ status <$> new1 = echo_statuses [ev]
               /\ Forall (fun e => port e = p
                                   /\ protocol e = ("UDP-" ++ name)%string) new1
               /\ udp_send (w_udp w1) = None
               /\ udp_timeout (w_udp w1) = None)
      as (w1 & new1 & H1 & Hin1 & Ho1 & Hst1 & Hall1 & Hs1 & Ht1).
    { destruct ev; [exact Hstep|discriminate Hev|exact Hstep]. }
    rewrite H1.
    destruct (IH w1 (log ++ new1) fuel Hin1 Hns Hs1 Ht1)
      as (w' & new & Hrun & Hout & Hst & Hall); [cbn in Hfuel; lia|].
    exists w', (new1 ++ new). rewrite app_assoc. split; [exact Hrun|].
    split; [|split].
    + rewrite Hout, Ho1, <- app_assoc. f_equal.
      unfold echo_replies. cbn [flat_map]. now rewrite app_nil_r.
    + rewrite fmap_app, Hst1, Hst. unfold echo_statuses. cbn [flat_map].
      now rewrite app_nil_r.
    + now apply Forall_app.
Qed.

(** X12.  The UDP echo listener of multiport_analyzer.py handles the
    datagrams that reach it in order of arrival: every non-empty one is
    logged as RECEIVED then SENT_ECHO and echoed to its own sender behind
    "ECHO:<name>:", an empty one is logged as RECEIVED and not answered,
    and a receive error leaves no event.  The log only grows, by events
    carrying the port and the label "UDP-<name>" of the listener.  When
    nothing more arrives the listener waits. *)
Theorem udp_listener_serves_in_order (p : Z) (name : string)
    (events : list dgram_event) (w : world) (log : list entry) (fuel : nat) :
  udp_inbox (w_udp w) = events ->
  forallb (negb ∘ is_stall) events = true ->
  udp_send (w_udp w) = None ->
  udp_timeout (w_udp w) = None ->
  length events < fuel ->
  let run := udp_listener p name fuel (w, log) in
  fst run = Hang
  /\ udp_outbox (w_udp (fst (snd run)))
     = udp_outbox (w_udp w) ++ echo_replies name events
  /\ exists new,
       snd (snd run) = log ++ new
       /\ status <$> new = echo_statuses events
       /\ Forall (fun e => port e = p
                           /\ protocol e = ("UDP-" ++ name)%string) new.
Proof.
  intros Hin Hns Hs Ht Hfuel. cbv zeta. unfold udp_listener. run.
  destruct (udp_listener_loop p name events
              (set_stdout
                 (fun out =>
                    out ++ [("[" ++ name ++ "] UDP Listening on port "
                               ++ pretty p)%string])
                 w) log fuel Hin Hns Hs Ht Hfuel)
    as (w' & new & Hrun & Hout & Hst & Hall).
  cbn. rewrite Hrun. cbn. split; [reflexivity|]. split; [exact Hout|].
  exists new. auto.
Qed.

Lemma udp_listener_serves_in_order_witness :
  let a1 : addr := ("10.0.0.7", 40000%Z) in
  let a2 : addr := ("10.0.0.8", 40001%Z) in
  let events := [Dgram (encode "hi") a1; Dgram [] a2; Dgram (encode "yo") a2] in
  let run :=
    udp_listener 5353 "TEST-DNS" 4 (world_of idle_tcp (fresh_udp None events), []) in
  udp_outbox (w_udp (fst (snd run)))
  = [(encode "ECHO:TEST-DNS:hi", a1); (encode "ECHO:TEST-DNS:yo", a2)].
Proof.
  cbv zeta.
  apply (udp_listener_serves_in_order 5353 "TEST-DNS"
           [Dgram (encode "hi") ("10.0.0.7", 40000%Z);
            Dgram [] ("10.0.0.8", 40001%Z);
            Dgram (encode "yo") ("10.0.0.8", 40001%Z)]
           (world_of idle_tcp
              (fresh_udp None
                 [Dgram (encode "hi") ("10.0.0.7", 40000%Z);
                  Dgram [] ("10.0.0.8", 40001%Z);
                  Dgram (encode "yo") ("10.0.0.8", 40001%Z)])) [] 4);
    try reflexivity.
  vm_compute. lia.
Defined.

(** X13.  A failure of [sendto] in the UDP echo listener is printed and
    not logged: the log holds the RECEIVED event of the datagram and
    nothing after it, nothing is sent, and the loop goes on. *)
Theorem udp_listener_failed_send (p : Z) (name : string) (w : world)
    (log : list entry) (data : bytes) (a : addr) (rest : list dgram_event)
    (e : exn) :
  udp_inbox (w_udp w) = Dgram data a :: rest ->
  take 4096 data <> [] ->
  udp_send (w_udp w) = Some e ->
  let run := udp_listener_step p name (w, log) in
  fst run = Ok tt
  /\ snd (snd run)
     = log ++ [udp_event (w_now w (w_ticks w)) p name a
                 (length (take 4096 data)) (hex (take 4096 data)) "RECEIVED"]
  /\ udp_outbox (w_udp (fst (snd run))) = udp_outbox (w_udp w)
  /\ last (w_stdout (fst (snd run)))
     = Some ("[" ++ name ++ ":" ++ pretty p ++ "] UDP error: " ++ str_exn e)%string.
Proof.
  intros Hin Hne Hs. cbv zeta. unfold udp_listener_step, log_connection. run.
  unfold now_isoformat.
  destruct w as [c [t inbox sn out cl] tp up so tm nw tk en dr].
  cbn in Hin, Hs. subst. unfold udp_recvfrom, udp_sendto. cbn.
  destruct (take 4096 data) as [|b request] eqn:Hd; [done|]. cbn.
  case_decide; [|lia]. cbn. repeat split. apply last_snoc.
Qed.

Lemma udp_listener_failed_send_witness :
  status <$> snd (snd (udp_listener_step 53 "DNS"
                         (world_of idle_tcp
                            (fresh_udp (Some (OtherException "[Errno 1] Operation not permitted"))
                               [Dgram (encode "hi") ("10.0.0.7", 40000%Z)]),
                          [])))
  = ["RECEIVED"].
Proof.
  pose proof (udp_listener_failed_send 53 "DNS"
                (world_of idle_tcp
                   (fresh_udp (Some (OtherException "[Errno 1] Operation not permitted"))
                      [Dgram (encode "hi") ("10.0.0.7", 40000%Z)]))
                [] (encode "hi") ("10.0.0.7", 40000%Z) []
                (OtherException "[Errno 1] Operation not permitted")
                eq_refl ltac:(discriminate) eq_refl) as (_ & H & _).
  cbv zeta in H. rewrite H. reflexivity.
Defined.

End UdpEcho.

Section StatsKeys.

Import MultiportAnalyzer.

(** X14.  Two events share a statistics bucket exactly when they have the
    same protocol label and the same port: the key "protocol:port" is
    unambiguous, also when the label itself holds colons. *)
Theorem stats_key_identifies_listener (e1 e2 : entry) :
  stats_key e1 = stats_key e2
  <-> protocol e1 = protocol e2 /\ port e1 = port e2.
Proof.
  apply (key_text_inj (protocol e1) (protocol e2) (port e1) (port e2)).
Qed.

Lemma string_length_app (s t : string) :
  String.length (s ++ t) = String.length s + String.length t.
Proof.
  induction s as [|c s IH]; [reflexivity|].
  change (String.length (String c s ++ t))
    with (S (String.length (s ++ t))).
  now rewrite IH.
Qed.

Lemma group_stats_app (log new : list entry) :
  group_stats (log ++ new) = foldl stats_add (group_stats log) new.
Proof. unfold group_stats. apply foldl_app. Qed.

(** X15.  One echoed TCP connection enters the statistics of its listener
    as two events: the count of the bucket "TCP-<name>:<port>" grows by 2,
    its byte total by the request plus the response, that is twice the
    request plus the 6 + len(name) bytes of the prefix, and the client
    joins its client set; every other bucket is as before. *)
Theorem echoed_connection_in_stats (a : addr) (p : Z) (name : string)
    (w : world) (log : list entry) (b : byte) (more : bytes) :
  tcp_rxbuf (w_tcp w) = b :: more ->
  tcp_send (w_tcp w) = None ->
  let request := take 4096 (b :: more) in
  let log' := snd (snd (handle_tcp a p name (w, log))) in
  let key := (("TCP-" ++ name) ++ ":" ++ pretty p)%string in
  let before := default (Bucket 0 0 ∅) (group_stats log !! key) in
  group_stats log' !! key
  = Some (Bucket (count before + 2)
            (nbytes before + (2 * length request + String.length name + 6))
            (clients before ∪ {[str_addr a]}))
  /\ (forall key', key' <> key ->
        group_stats log' !! key' = group_stats log !! key').
Proof.
  intros Hbuf Hsend. cbv zeta.
  destruct (handle_tcp_cases a p name w log) as (w' & new & Hrun & _ & Hcase).
  rewrite Hrun. cbn [fst snd].
  rewrite tcp_recv_buffered in Hcase by (left; cbn; rewrite Hbuf; done).
  cbn [fst tcp_settimeout tcp_rxbuf] in Hcase. rewrite Hbuf, Hsend in Hcase.
  rewrite (firstn_cons 4095 b more) in *.
  destruct Hcase as [-> _].
  rewrite group_stats_app. cbn [foldl]. split.
  - rewrite !stats_add_lookup. unfold stats_key, tcp_event.
    cbn [protocol port]. rewrite !decide_True by reflexivity.
    cbn [default]. unfold bump, id. cbn [count nbytes clients data_len client].
    f_equal. f_equal.
    + lia.
    + unfold echo_response. rewrite length_app, length_encode.
      rewrite !string_length_app. cbn [String.length length]. lia.
    + now rewrite <- (assoc_L (∪)), (idemp_L (∪)).
  - intros key' Hne. rewrite !stats_add_lookup. unfold stats_key, tcp_event.
    cbn [protocol port]. now rewrite !decide_False by congruence.
Qed.

Lemma echoed_connection_in_stats_witness :
  let log' :=
    snd (snd (handle_tcp ("10.0.0.7", 40000%Z) 22 "SSH"
                (world_of (stream_of (encode "hi") []) idle_udp, []))) in
  count <$> group_stats log' !! "TCP-SSH:22" = Some 2
  /\ nbytes <$> group_stats log' !! "TCP-SSH:22" = Some 13.
Proof.
  pose proof (echoed_connection_in_stats ("10.0.0.7", 40000%Z) 22 "SSH"
                (world_of (stream_of (encode "hi") []) idle_udp) []
                "h"%byte (encode "i") eq_refl eq_refl) as [H _].
  cbv zeta in H. cbv zeta.
  change ("TCP-SSH:22") with (("TCP-" ++ "SSH") ++ ":" ++ pretty 22%Z)%string.
  rewrite H. split; reflexivity.
Defined.

End StatsKeys.

Section ProbeRunner.

Import ProtocolTesterClient.

Lemma classify_known (o : observation) : classify o <> "UNKNOWN".
Proof. destruct o as [|[|]| |]; discriminate. Qed.

Lemma test_protocol_total (host : string) (port : Z)
    (proto packet_type : string) (data : bytes) (timeout : Z) (w : world) :
  exists r w',
    test_protocol host port proto packet_type data timeout w = (Ok r, w')
    /\ status r <> "UNKNOWN"
    /\ ProtocolTesterClient.port r = port
    /\ ProtocolTesterClient.proto r = proto.
Proof.
  pose proof (test_protocol_result host port proto packet_type data timeout w)
    as H.
  cbv zeta in H.
  destruct (test_protocol host port proto packet_type data timeout w)
    as [r0 w'].
  cbn [fst] in H. subst r0. eexists _, w'. split; [reflexivity|].
  cbn. split; [apply classify_known|]. split; reflexivity.
Qed.

Lemma probe_total (tests : report) (name host : string) (port : Z)
    (proto packet_type : string) (data : bytes) (w : world) :
  exists r w',
    probe tests name host port proto packet_type data w
    = (Ok (tests ++ [(name, r)]), w')
    /\ status r <> "UNKNOWN"
    /\ ProtocolTesterClient.port r = port
    /\ ProtocolTesterClient.proto r = proto.
Proof.
  destruct (test_protocol_total host port proto packet_type data 5 w)
    as (r & w' & H & Hk).
  exists r, w'. split; [|exact Hk]. unfold probe. run. now rewrite H.
Qed.

Lemma make_dns_query_google (w : world) :
  exists q w',
    make_dns_query "google.com" w = (Ok q, w') /\ length q = 28.
Proof.
  assert (Hall : Forall (fun l => str_len l < 256)
                   (split "."%char "google.com")).
  { repeat constructor; vm_compute; lia. }
  pose proof (make_dns_query_short "google.com" w Hall) as Hq.
  pose proof (made_wire_length "google.com" (next_random w 2) Hall eq_refl)
    as Hlen.
  set (q := next_random w 2 ++ _) in Hq, Hlen. clearbody q.
  destruct (make_dns_query "google.com" w) as [r w'].
  cbn [fst] in Hq. subst r. exists q, w'. split; [reflexivity|exact Hlen].
Qed.

Lemma make_https_clienthello_total (w : world) :
  exists hello w', make_https_clienthello w = (Ok hello, w').
Proof. unfold make_https_clienthello, urandom. run. eexists _, _. reflexivity. Qed.

Lemma urandom_total (n : nat) (w : world) :
  exists junk w', urandom n w = (Ok junk, w').
Proof. unfold urandom. eexists _, _. reflexivity. Qed.

Ltac next_probe :=
  match goal with
  | |- context [probe ?t ?n ?h ?p ?pr ?ty ?d ?w0] =>
      let r := fresh "r" in
      let w1 := fresh "w" in
      let H := fresh "H" in
      let Hs := fresh "Hs" in
      let Hp := fresh "Hp" in
      let Hq := fresh "Hq" in
      destruct (probe_total t n h p pr ty d w0) as (r & w1 & H & Hs & Hp & Hq);
      rewrite H; clear H; cbn beta iota
  end.

Ltac next_random :=
  match goal with
  | |- context [urandom ?n ?w0] =>
      let j := fresh "junk" in
      let w1 := fresh "w" in
      let H := fresh "H" in
      destruct (urandom_total n w0) as (j & w1 & H);
      rewrite H; clear H; cbn beta iota
  end.

Lemma run_probes_total (host : string) (w : world) :
  exists r0 r1 r2 r3 r4 r5 r6 r7 r8 r9 w',
    run_probes host w
    = (Ok [("DNS TCP", r0); ("DNS UDP", r1); ("DNS TCP (random)", r2);
           ("DNS UDP (random)", r3); ("SSH:22 TCP", r4);
           ("SSH:22 (random)", r5); ("SSH:2222 TCP", r6); ("HTTPS:443", r7);
           ("HTTPS:443 (random)", r8); ("HTTPS:8443", r9)], w')
    /\ (fun r => (ProtocolTesterClient.port r, ProtocolTesterClient.proto r))
         <$> [r0; r1; r2; r3; r4; r5; r6; r7; r8; r9]
       = [(53%Z, "tcp"); (53%Z, "udp"); (53%Z, "tcp"); (53%Z, "udp");
          (22%Z, "tcp"); (22%Z, "tcp"); (2222%Z, "tcp"); (443%Z, "tcp");
          (443%Z, "tcp"); (8443%Z, "tcp")]
    /\ Forall (fun r => status r <> "UNKNOWN")
         [r0; r1; r2; r3; r4; r5; r6; r7; r8; r9].
Proof.
  unfold run_probes.
  unfold mbind, mret, M_bind, M_ret, print, bind, ret, lift_res, modify.
  cbn beta iota.
  match goal with
  | |- context [make_dns_query ?d ?w0] =>
      destruct (make_dns_query_google w0) as (q & wq & Hq & Hlen); rewrite Hq
  end.
  cbn beta iota. unfold wrap_tcp_length_prefix. rewrite Hlen.
  change (pack_H (N.of_nat 28)) with (@Ok bytes [x00; x1c]). cbn beta iota.
  next_probe. next_probe. next_random. next_probe. next_random. next_probe.
  next_probe. next_random. next_probe. next_probe.
  match goal with
  | |- context [make_https_clienthello ?w0] =>
      destruct (make_https_clienthello_total w0) as (hello & wh & Hh);
      rewrite Hh
  end.
  cbn beta iota.
  next_probe. next_random. next_probe. next_probe.
  do 10 eexists. eexists. split; [reflexivity|]. split.
  - cbn. congruence.
  - repeat constructor; assumption.
Qed.

Lemma summary_rows_total (tests : report) :
  forall (count : nat) (w : world),
    exists n w', summary_rows tests count w = (Ok n, w').
Proof.
  induction tests as [|t tests IH]; intros count w.
  - eexists _, _. reflexivity.
  - cbn [summary_rows]. run. cbn beta iota. apply IH.
Qed.

Lemma summary_total (tests : report) (w : world) :
  tests <> [] -> exists w', summary tests w = (Ok tt, w').
Proof.
  intros Hne. unfold summary. run. cbn beta iota.
  match goal with
  | |- context [summary_rows tests 0 ?w0] =>
      destruct (summary_rows_total tests 0 w0) as (n & w1 & ->)
  end.
  cbn beta iota. case_decide as Hl.
  - destruct tests; [done|discriminate Hl].
  - eexists. reflexivity.
Qed.

Lemma run_tests_analysis_total (tests : report) (w : world) :
  9 <= length tests -> exists w', run_tests_analysis tests w = (Ok tt, w').
Proof.
  intros Hlen.
  destruct tests as [|t0 [|t1 [|t2 [|t3 [|t4 [|t5 [|t6 [|t7 [|t8 rest]]]]]]]]];
    cbn in Hlen; try lia.
  unfold run_tests_analysis, analyse_dns, analyse_ssh, analyse_https. run.
  cbn.
  destruct (works t0), (works t1), (works t2), (works t4), (works t5),
    (works t7), (works t8); cbn; eexists; reflexivity.
Qed.

(** X16.  Whatever the network does to the ten probes, [run_tests] gets
    through all of them and ends normally: the report holds ten results,
    under the same names and for the same ports and transports in the same
    order, and none of them is left in the initial status UNKNOWN. *)
Theorem run_tests_reports_every_probe (host : string) (w : world) :
  fst (run_tests host w) = Ok tt
  /\ exists tests,
       fst (run_probes host w) = Ok tests
       /\ fst <$> tests
          = ["DNS TCP"; "DNS UDP"; "DNS TCP (random)"; "DNS UDP (random)";
             "SSH:22 TCP"; "SSH:22 (random)"; "SSH:2222 TCP"; "HTTPS:443";
             "HTTPS:443 (random)"; "HTTPS:8443"]
       /\ (fun t => (ProtocolTesterClient.port (snd t),
                     ProtocolTesterClient.proto (snd t))) <$> tests
          = [(53%Z, "tcp"); (53%Z, "udp"); (53%Z, "tcp"); (53%Z, "udp");
             (22%Z, "tcp"); (22%Z, "tcp"); (2222%Z, "tcp"); (443%Z, "tcp");
             (443%Z, "tcp"); (8443%Z, "tcp")]
       /\ Forall (fun t => status (snd t) <> "UNKNOWN") tests.
Proof.
  split.
  - unfold run_tests. run. cbn beta iota.
    match goal with
    | |- context [run_probes host ?w0] =>
        destruct (run_probes_total host w0)
          as (r0 & r1 & r2 & r3 & r4 & r5 & r6 & r7 & r8 & r9 & w1 & -> & _)
    end.
    cbn beta iota.
    match goal with
    | |- context [summary ?t ?w0] =>
        destruct (summary_total t w0) as [w2 ->]; [discriminate|]
    end.
    cbn beta iota.
    match goal with
    | |- context [run_tests_analysis ?t ?w0] =>
        destruct (run_tests_analysis_total t w0) as [w3 ->]; [cbn; lia|]
    end.
    reflexivity.
  - destruct (run_probes_total host w)
      as (r0 & r1 & r2 & r3 & r4 & r5 & r6 & r7 & r8 & r9 & w1 & -> & Hp & Hs).
    eexists. split; [reflexivity|]. split; [reflexivity|]. split.
    + exact Hp.
    + repeat match goal with
             | H : Forall _ (_ :: _) |- _ => inversion_clear H
             end.
      repeat constructor; assumption.
Qed.

End ProbeRunner.

Section AnalysisInputs.

Import ProtocolTesterClient.

Local Arguments works : simpl never.

(** X17.  The analysis of [run_tests] reads seven facts and nothing else:
    whether the probes at positions 0, 1, 2, 4, 5, 7 and 8 of the report
    succeeded.  Two reports that agree on these print the same analysis;
    the probes "DNS UDP (random)", "SSH:2222 TCP" and "HTTPS:8443", the
    kind of failure, the byte counts and the timings have no influence. *)
Theorem analysis_reads_seven_outcomes (tests tests' : report) (w : world) :
  9 <= length tests ->
  9 <= length tests' ->
  (forall i, i ∈ [0; 1; 2; 4; 5; 7; 8] ->
             probe_works tests i = probe_works tests' i) ->
  run_tests_analysis tests w = run_tests_analysis tests' w.
Proof.
  intros Hlen Hlen' Hsame.
  destruct tests as [|t0 [|t1 [|t2 [|t3 [|t4 [|t5 [|t6 [|t7 [|t8 rest]]]]]]]]];
    cbn in Hlen; try lia.
  destruct tests' as [|u0 [|u1 [|u2 [|u3 [|u4 [|u5 [|u6 [|u7 [|u8 rest']]]]]]]]];
    cbn in Hlen'; try lia.
  pose proof (Hsame 0 ltac:(set_solver)) as H0.
  pose proof (Hsame 1 ltac:(set_solver)) as H1.
  pose proof (Hsame 2 ltac:(set_solver)) as H2.
  pose proof (Hsame 4 ltac:(set_solver)) as H4.
  pose proof (Hsame 5 ltac:(set_solver)) as H5.
  pose proof (Hsame 7 ltac:(set_solver)) as H7.
  pose proof (Hsame 8 ltac:(set_solver)) as H8.
  unfold probe_works in *. cbn in H0, H1, H2, H4, H5, H7, H8.
  unfold run_tests_analysis, analyse_dns, analyse_ssh, analyse_https. run.
  cbn. rewrite H0, H1, H2, H4, H5, H7, H8. reflexivity.
Qed.

Lemma analysis_reads_seven_outcomes_witness :
  let ok := Result 53 "tcp" "X" 2 "SUCCESS" 7 12 in
  let refused := Result 2222 "tcp" "SSH_BANNER" 41 "REFUSED" 0 0 in
  let late := Result 8443 "tcp" "TLS_HELLO" 50 "TIMEOUT" 0 0 in
  run_tests_analysis (replicate 10 ("p", ok)) (world_of idle_tcp idle_udp)
  = run_tests_analysis
      [("p", ok); ("p", ok); ("p", ok); ("p", late); ("p", ok); ("p", ok);
       ("p", refused); ("p", ok); ("p", ok); ("p", late)]
      (world_of idle_tcp idle_udp).
Proof.
  cbv zeta.
  apply (analysis_reads_seven_outcomes
           (replicate 10 ("p", Result 53 "tcp" "X" 2 "SUCCESS" 7 12))).
  - vm_compute. lia.
  - vm_compute. lia.
  - intros i Hi. repeat (apply elem_of_cons in Hi as [->|Hi]; [reflexivity|]).
    now apply elem_of_nil in Hi.
Defined.

End AnalysisInputs.

Section ProbeSocket.

Import ProtocolTesterClient.

Local Arguments tcp_recv : simpl never.

Lemma tcp_recv_keeps_closed (n : nat) (c c' : tcp) (r : res bytes) :
  tcp_recv n c = (r, c') -> tcp_closed c' = tcp_closed c.
Proof.
  unfold tcp_recv. destruct n.
  { intros [= _ <-]. done. }
  destruct (tcp_rxbuf c).
  - destruct (recv_wait (S n) (tcp_timeout c) (tcp_future c)) as [[r0 buf] fut].
    intros [= _ <-]. done.
  - intros [= _ <-]. done.
Qed.

(** The socket a TCP probe leaves behind. *)
Lemma test_protocol_tcp_socket (host : string) (port : Z) (packet_type : string)
    (data : bytes) (timeout : Z) (w : world) (c : tcp) (pool : list tcp) :
  w_tcp_pool w = c :: pool ->
  let w' := snd (test_protocol host port "tcp" packet_type data timeout w) in
  tcp_closed (w_tcp w')
  = match outcome "tcp" timeout w with
    | Reply _ | TimedOut true => true
    | _ => tcp_closed c
    end
  /\ tcp_sent (w_tcp w')
     = match timeout_error timeout, tcp_connect c, tcp_send c with
       | None, None, None => tcp_sent c ++ data
       | _, _, _ => tcp_sent c
       end.
Proof.
  intros Hpool. cbv zeta. unfold test_protocol, test_protocol_body, outcome.
  case_decide; [|done]. run. unfold time_time, socket_stream.
  cbn [tick w_tcp_pool]. rewrite Hpool.
  destruct c as [t0 co buf fut sn st cl].
  destruct (timeout_error timeout) as [e|];
    [destruct e; split; reflexivity|].
  unfold observe_tcp, tcp_do_connect; cbn.
  destruct co as [e|]; [destruct e; split; reflexivity|].
  unfold tcp_sendall; cbn; destruct sn as [e|];
    [destruct e; split; reflexivity|].
  unfold tcp_settimeout, set_tcp; cbn.
  all: match goal with
       | |- context [tcp_recv 4096 ?x] =>
           match x with
           | context [Some ?t] =>
               rewrite (tcp_recv_outcome 4096
                          (Tcp (Some t) None buf fut None st cl) x)
                 by reflexivity;
               pose proof (tcp_recv_no_hang 4096 x t eq_refl) as Hnh;
               destruct (tcp_recv 4096 x) as [r c'] eqn:Hr
           end
       end.
  all: destruct (tcp_recv_keeps_tx _ _ _ _ Hr) as [_ Ht].
  all: pose proof (tcp_recv_keeps_closed _ _ _ _ Hr) as Hc.
  all: cbn in Ht, Hc; cbn [fst] in *; destruct r as [response|e|];
    [cbn; split; [reflexivity|exact Ht]
    |destruct e; cbn; split; (reflexivity || assumption)
    |congruence].
Qed.

(** X18.  A TCP probe closes its socket on the SUCCESS and NO_RESPONSE
    paths only: after a probe that ends REFUSED, TIMEOUT or ERROR the
    socket is still open. *)
Theorem probe_closes_socket_only_without_error (host : string) (port : Z)
    (packet_type : string) (data : bytes) (timeout : Z) (w : world)
    (c : tcp) (pool : list tcp) (r : result) :
  w_tcp_pool w = c :: pool ->
  tcp_closed c = false ->
  fst (test_protocol host port "tcp" packet_type data timeout w) = Ok r ->
  tcp_closed
    (w_tcp (snd (test_protocol host port "tcp" packet_type data timeout w)))
  = true
  <-> status r = "SUCCESS" \/ status r = "NO_RESPONSE".
Proof.
  intros Hpool Hopen Hr.
  destruct (test_protocol_tcp_socket host port packet_type data timeout w c
              pool Hpool) as [Hcl _].
  cbv zeta in Hcl. rewrite Hcl, Hopen. clear Hcl.
  rewrite test_protocol_result in Hr. injection Hr as <-. cbn [status].
  destruct (outcome "tcp" timeout w) as [|[|]|response|message];
    cbn [classify];
    split; intros H; try reflexivity; try discriminate H; auto;
    repeat destruct H as [H|H]; discriminate H.
Qed.

Lemma probe_closes_socket_only_without_error_witness :
  let refusing :=
    fresh_tcp (Some (ConnectionRefusedError "[Errno 111] Connection refused"))
      None [] in
  let w := client_world [refusing] [] (fun _ => 0%Z) (fun _ => x00) in
  tcp_closed (w_tcp (snd (test_protocol "192.0.2.1" 22 "tcp" "RANDOM" [x00] 5 w)))
  <> true.
Proof.
  cbv zeta. intros Hclosed.
  apply (probe_closes_socket_only_without_error "192.0.2.1" 22 "RANDOM" [x00]
           5
           (client_world
              [fresh_tcp (Some (ConnectionRefusedError "[Errno 111] Connection refused"))
                 None []]
              [] (fun _ => 0%Z) (fun _ => x00))
           (fresh_tcp (Some (ConnectionRefusedError "[Errno 111] Connection refused"))
              None [])
           [] _ eq_refl eq_refl eq_refl) in Hclosed.
  destruct Hclosed as [H|H]; discriminate H.
Defined.

(** X19.  The field sent_bytes is the length of the payload, not the
    number of bytes written: when the connect or the send of a TCP probe
    raises, nothing has been written to the socket and the result still
    reports the whole payload as sent. *)
Theorem sent_bytes_is_payload_length (host : string) (port : Z)
    (packet_type : string) (data : bytes) (timeout : Z) (w : world)
    (c : tcp) (pool : list tcp) (e : exn) :
  w_tcp_pool w = c :: pool ->
  tcp_connect c = Some e \/ tcp_send c = Some e ->
  let run := test_protocol host port "tcp" packet_type data timeout w in
  tcp_sent (w_tcp (snd run)) = tcp_sent c
  /\ exists r, fst run = Ok r /\ sent_bytes r = length data.
Proof.
  intros Hpool Hfail. cbv zeta.
  destruct (test_protocol_tcp_socket host port packet_type data timeout w c
              pool Hpool) as [_ Hsent].
  cbv zeta in Hsent. split.
  - rewrite Hsent. destruct (timeout_error timeout); [reflexivity|].
    destruct Hfail as [-> | ->]; [reflexivity|].
    destruct (tcp_connect c); reflexivity.
  - eexists. split; [apply test_protocol_result|]. reflexivity.
Qed.

Lemma sent_bytes_is_payload_length_witness :
  let w :=
    client_world [fresh_tcp (Some (SocketTimeout "timed out")) None []] []
      (fun _ => 0%Z) (fun _ => x00) in
  let run := test_protocol "192.0.2.1" 443 "tcp" "RANDOM" [x01; x02; x03] 5 w in
  tcp_sent (w_tcp (snd run)) = []
  /\ exists r, fst run = Ok r /\ sent_bytes r = 3.
Proof.
  apply (sent_bytes_is_payload_length "192.0.2.1" 443 "RANDOM" [x01; x02; x03]
           5
           (client_world [fresh_tcp (Some (SocketTimeout "timed out")) None []]
              [] (fun _ => 0%Z) (fun _ => x00))
           (fresh_tcp (Some (SocketTimeout "timed out")) None []) []
           (SocketTimeout "timed out") eq_refl).
  left. reflexivity.
Defined.

End ProbeSocket.

Section BlockingTests.

Import TestDnsBlocking.

Lemma recv_wait_no_fault (n : nat) (t : Z) (future : list incoming) :
  no_fault future = true ->
  ((exists bs, fst (fst (recv_wait n (Some t) future)) = Ok bs)
   \/ (exists m, fst (fst (recv_wait n (Some t) future)) = Raise (SocketTimeout m)))
  /\ no_fault (snd (recv_wait n (Some t) future)) = true.
Proof.
  induction future as [|[[|b bs]| | |e] rest IH]; cbn; intros Hnf;
    try discriminate Hnf; eauto.
Qed.

Lemma tcp_recv_no_fault (n : nat) (c c' : tcp) (t : Z) (r : res bytes) :
  tcp_timeout c = Some t ->
  no_fault (tcp_future c) = true ->
  tcp_recv n c = (r, c') ->
  ((exists bs, r = Ok bs) \/ (exists m, r = Raise (SocketTimeout m)))
  /\ no_fault (tcp_future c') = true
  /\ tcp_timeout c' = Some t.
Proof.
  intros Ht Hnf. unfold tcp_recv. destruct n.
  { intros [= <- <-]. eauto. }
  destruct (tcp_rxbuf c).
  - rewrite Ht. pose proof (recv_wait_no_fault (S n) t (tcp_future c) Hnf) as H.
    destruct (recv_wait (S n) (Some t) (tcp_future c)) as [[r0 buf] fut].
    cbn in H. intros [= <- <-]. cbn. tauto.
  - intros [= <- <-]. cbn. eauto.
Qed.

Local Arguments tcp_recv : simpl never.
Local Arguments udp_recvfrom : simpl never.

(** A test of the shape connect, send, one receive. *)
Ltac single_receive Hpool Hc Hs Hnf :=
  run; unfold socket_stream, time_time, urandom, wrap_tcp_length_prefix;
  cbn;
  repeat match goal with
         | |- context [pack_H ?n] =>
             let v := eval vm_compute in (pack_H n) in
             change (pack_H n) with v
         end;
  cbn; rewrite Hpool;
  match goal with c : tcp |- _ => destruct c as [t0 co buf fut sn st cl] end;
  cbn in Hc, Hs, Hnf; subst; unfold tcp_do_connect, tcp_sendall; cbn;
  match goal with
  | |- context [tcp_recv ?n ?x] =>
      let r := fresh "r" in
      let c' := fresh "c'" in
      let Hr := fresh "Hr" in
      destruct (tcp_recv n x) as [r c'] eqn:Hr;
      destruct (tcp_recv_no_fault n x c' 3%Z r eq_refl Hnf Hr)
        as [[[bs ->]|[m ->]] _];
      cbn; eexists; repeat split
  end.

Lemma test_tcp_echo_passes (host : string) (port : Z) (w : world) (c : tcp)
    (pool : list tcp) :
  w_tcp_pool w = c :: pool -> accepting c ->
  exists w',
    test_tcp_echo host port w = (Ok true, w')
    /\ w_tcp_pool w' = pool /\ w_udp_pool w' = w_udp_pool w.
Proof.
  intros Hpool (Hc & Hs & Hnf). unfold test_tcp_echo.
  single_receive Hpool Hc Hs Hnf.
Qed.

Lemma test_fake_dns_query_passes (host : string) (port : Z) (w : world)
    (c : tcp) (pool : list tcp) :
  w_tcp_pool w = c :: pool -> accepting c ->
  exists w',
    test_fake_dns_query host port w = (Ok true, w')
    /\ w_tcp_pool w' = pool /\ w_udp_pool w' = w_udp_pool w.
Proof.
  intros Hpool (Hc & Hs & Hnf). unfold test_fake_dns_query.
  single_receive Hpool Hc Hs Hnf.
Qed.

Lemma test_encrypted_payload_passes (host : string) (port : Z) (w : world)
    (c : tcp) (pool : list tcp) :
  w_tcp_pool w = c :: pool -> accepting c ->
  exists w',
    test_encrypted_payload host port w = (Ok true, w')
    /\ w_tcp_pool w' = pool /\ w_udp_pool w' = w_udp_pool w.
Proof.
  intros Hpool (Hc & Hs & Hnf). unfold test_encrypted_payload.
  single_receive Hpool Hc Hs Hnf.
Qed.

Lemma test_real_dns_query_passes (host : string) (port : Z) (w : world)
    (c : tcp) (pool : list tcp) :
  w_tcp_pool w = c :: pool -> accepting c ->
  exists w',
    test_real_dns_query host port w = (Ok true, w')
    /\ w_tcp_pool w' = pool /\ w_udp_pool w' = w_udp_pool w.
Proof.
  intros Hpool (Hc & Hs & Hnf). unfold test_real_dns_query.
  run. unfold socket_stream, wrap_tcp_length_prefix. cbn.
  change (pack_H (N.of_nat 28)) with (@Ok bytes [x00; x1c]).
  cbn. rewrite Hpool. destruct c as [t0 co buf fut sn st cl].
  cbn in Hc, Hs, Hnf. subst. unfold tcp_do_connect, tcp_sendall. cbn.
  match goal with
  | |- context [tcp_recv 2 ?x] =>
      destruct (tcp_recv 2 x) as [r c1] eqn:Hr;
      destruct (tcp_recv_no_fault 2 x c1 3%Z r eq_refl Hnf Hr)
        as ([[bs ->]|[m ->]] & Hnf1 & Ht1)
  end.
  - cbn. case_decide as Hlen.
    + destruct bs as [|hi [|lo [|? ?]]]; try discriminate Hlen. cbn.
      match goal with
      | |- context [tcp_recv ?n c1] =>
          destruct (tcp_recv n c1) as [r2 c2] eqn:Hr2;
          destruct (tcp_recv_no_fault n c1 c2 3%Z r2 Ht1 Hnf1 Hr2)
            as ([[bs2 ->]|[m ->]] & _ & _)
      end; cbn; eexists; repeat split.
    + cbn. eexists. repeat split.
  - cbn. eexists. repeat split.
Qed.

Lemma test_udp_dns_passes (host : string) (port : Z) (w : world) (u : udp)
    (pool : list udp) :
  w_udp_pool w = u :: pool -> udp_accepting u ->
  exists w',
    test_udp_dns host port w = (Ok true, w')
    /\ w_tcp_pool w' = w_tcp_pool w /\ w_udp_pool w' = pool.
Proof.
  intros Hpool (Hs & Hin). unfold test_udp_dns.
  run. unfold socket_dgram. cbn. rewrite Hpool.
  destruct u as [t0 inbox sn out cl]. cbn in Hs, Hin. subst.
  unfold udp_sendto, udp_recvfrom. cbn.
  destruct inbox as [|[data a| |e] rest]; [| | |done];
    cbn; eexists; repeat split.
Qed.

(** X20.  A test of test_dns_blocking.py reports PASS as soon as the
    connection is made and the payload is handed to the socket: when the
    peer accepts and the transport reports no error, each of the five
    tests returns True whatever the peer then does, also when it closes
    or never sends a byte. *)
Theorem blocking_tests_pass_without_reply (host : string) (port : Z)
    (w : world) :
  (forall c pool,
     w_tcp_pool w = c :: pool -> accepting c ->
     fst (test_tcp_echo host port w) = Ok true
     /\ fst (test_real_dns_query host port w) = Ok true
     /\ fst (test_fake_dns_query host port w) = Ok true
     /\ fst (test_encrypted_payload host port w) = Ok true)
  /\ (forall u pool,
        w_udp_pool w = u :: pool -> udp_accepting u ->
        fst (test_udp_dns host port w) = Ok true).
Proof.
  split.
  - intros c pool Hpool Hacc.
    destruct (test_tcp_echo_passes host port w c pool Hpool Hacc) as (? & -> & _).
    destruct (test_real_dns_query_passes host port w c pool Hpool Hacc)
      as (? & -> & _).
    destruct (test_fake_dns_query_passes host port w c pool Hpool Hacc)
      as (? & -> & _).
    destruct (test_encrypted_payload_passes host port w c pool Hpool Hacc)
      as (? & -> & _).
    repeat split.
  - intros u pool Hpool Hacc.
    destruct (test_udp_dns_passes host port w u pool Hpool Hacc) as (? & -> & _).
    reflexivity.
Qed.

Lemma blocking_tests_pass_without_reply_witness :
  let w :=
    client_world [fresh_tcp None None [Stall; Stall]] [] (fun _ => 0%Z)
      (fun _ => x00) in
  fst (test_real_dns_query "192.0.2.1" 53 w) = Ok true.
Proof.
  apply (proj1 (blocking_tests_pass_without_reply "192.0.2.1" 53
                  (client_world [fresh_tcp None None [Stall; Stall]] []
                     (fun _ => 0%Z) (fun _ => x00)))
           (fresh_tcp None None [Stall; Stall]) [] eq_refl).
  repeat split.
Defined.

(** X21.  A connect that raises, because the connection is refused, times
    out or fails otherwise, makes each TCP test return False, and the
    message of the exception is the last thing the test prints. *)
Theorem blocking_tests_fail_on_connect_error (host : string) (port : Z)
    (w : world) (c : tcp) (pool : list tcp) (e : exn) :
  w_tcp_pool w = c :: pool ->
  tcp_connect c = Some e ->
  (fst (test_tcp_echo host port w) = Ok false
   /\ last (w_stdout (snd (test_tcp_echo host port w)))
      = Some ("✗ Connection failed: " ++ str_exn e)%string)
  /\ (fst (test_real_dns_query host port w) = Ok false
      /\ last (w_stdout (snd (test_real_dns_query host port w)))
         = Some ("✗ Failed: " ++ str_exn e)%string)
  /\ (fst (test_fake_dns_query host port w) = Ok false
      /\ last (w_stdout (snd (test_fake_dns_query host port w)))
         = Some ("✗ Failed: " ++ str_exn e)%string)
  /\ (fst (test_encrypted_payload host port w) = Ok false
      /\ last (w_stdout (snd (test_encrypted_payload host port w)))
         = Some ("✗ Failed: " ++ str_exn e)%string).
Proof.
  intros Hpool Hc.
  destruct c as [t0 co buf fut sn st cl]. cbn in Hc. subst.
  unfold test_tcp_echo, test_real_dns_query, test_fake_dns_query,
    test_encrypted_payload.
  run. unfold socket_stream, time_time, wrap_tcp_length_prefix. cbn.
  change (pack_H (N.of_nat 28)) with (@Ok bytes [x00; x1c]).
  change (pack_H (N.of_nat 50)) with (@Ok bytes [x00; x32]).
  cbn. rewrite Hpool. unfold tcp_do_connect. cbn.
  repeat split; apply last_snoc.
Qed.

Lemma blocking_tests_fail_on_connect_error_witness :
  let w :=
    client_world
      [fresh_tcp (Some (ConnectionRefusedError "[Errno 111] Connection refused"))
         None []]
      [] (fun _ => 0%Z) (fun _ => x00) in
  fst (test_tcp_echo "192.0.2.1" 53 w) = Ok false
  /\ last (w_stdout (snd (test_tcp_echo "192.0.2.1" 53 w)))
     = Some "✗ Connection failed: [Errno 111] Connection refused".
Proof.
  apply (blocking_tests_fail_on_connect_error "192.0.2.1" 53
           (client_world
              [fresh_tcp (Some (ConnectionRefusedError "[Errno 111] Connection refused"))
                 None []]
              [] (fun _ => 0%Z) (fun _ => x00))
           (fresh_tcp (Some (ConnectionRefusedError "[Errno 111] Connection refused"))
              None [])
           [] (ConnectionRefusedError "[Errno 111] Connection refused")
           eq_refl eq_refl).
Defined.

End BlockingTests.

Section BlockingMain.

Import TestDnsBlocking.

(** X22.  The main program of test_dns_blocking.py cannot tell a server
    that answers from one that swallows everything: when the four TCP
    connections and the UDP socket accept what is sent and the transport
    reports no error, all five tests pass, whatever comes back, and the
    analysis ends with its default line. *)
Theorem main_passes_without_replies (server_ip : string) (w : world)
    (c1 c2 c3 c4 : tcp) (tcps : list tcp) (u : udp) (udps : list udp) :
  w_tcp_pool w = c1 :: c2 :: c3 :: c4 :: tcps ->
  accepting c1 -> accepting c2 -> accepting c3 -> accepting c4 ->
  w_udp_pool w = u :: udps ->
  udp_accepting u ->
  fst (main server_ip w) = Ok (Results true true true true true)
  /\ last (w_stdout (snd (main server_ip w)))
     = Some "→ See test results above for patterns".
Proof.
  intros Htcp H1 H2 H3 H4 Hudp Hu. unfold main.
  unfold mbind, mret, M_bind, M_ret, print, time_sleep, time_strftime, bind,
    ret, modify.
  cbn beta iota.
  match goal with
  | |- context [test_tcp_echo ?h ?p ?w0] =>
      destruct (test_tcp_echo_passes h p w0 c1 _ Htcp H1)
        as (w1 & -> & Htcp1 & Hudp1)
  end.
  cbn beta iota.
  match goal with
  | |- context [test_real_dns_query ?h ?p ?w0] =>
      destruct (test_real_dns_query_passes h p w0 c2 _ Htcp1 H2)
        as (w2 & -> & Htcp2 & Hudp2)
  end.
  cbn beta iota.
  match goal with
  | |- context [test_fake_dns_query ?h ?p ?w0] =>
      destruct (test_fake_dns_query_passes h p w0 c3 _ Htcp2 H3)
        as (w3 & -> & Htcp3 & Hudp3)
  end.
  cbn beta iota.
  match goal with
  | |- context [test_encrypted_payload ?h ?p ?w0] =>
      destruct (test_encrypted_payload_passes h p w0 c4 _ Htcp3 H4)
        as (w4 & -> & Htcp4 & Hudp4)
  end.
  cbn beta iota.
  assert (Hudp' : w_udp_pool w4 = u :: udps).
  { rewrite Hudp4, Hudp3, Hudp2, Hudp1. exact Hudp. }
  match goal with
  | |- context [test_udp_dns ?h ?p ?w0] =>
      destruct (test_udp_dns_passes h p w0 u _ Hudp' Hu) as (w5 & -> & _)
  end.
  cbn beta iota. unfold main_analysis. run. cbn.
  split; [reflexivity|apply last_snoc].
Qed.

Lemma main_passes_without_replies_witness :
  let silent := fresh_tcp None None [Stall; Stall] in
  let w :=
    client_world [silent; silent; silent; silent] [fresh_udp None []]
      (fun _ => 0%Z) (fun _ => x00) in
  fst (main "192.0.2.1" w) = Ok (Results true true true true true)
  /\ last (w_stdout (snd (main "192.0.2.1" w)))
     = Some "→ See test results above for patterns".
Proof.
  apply (main_passes_without_replies "192.0.2.1"
           (client_world
              [fresh_tcp None None [Stall; Stall];
               fresh_tcp None None [Stall; Stall];
               fresh_tcp None None [Stall; Stall];
               fresh_tcp None None [Stall; Stall]]
              [fresh_udp None []] (fun _ => 0%Z) (fun _ => x00))
           (fresh_tcp None None [Stall; Stall])
           (fresh_tcp None None [Stall; Stall])
           (fresh_tcp None None [Stall; Stall])
           (fresh_tcp None None [Stall; Stall]) []
           (fresh_udp None []) []);
    repeat split.
Defined.

End BlockingMain.

Section StatsTable.

Import MultiportAnalyzer.

Lemma insert_by_key_perm (kv : string * bucket) (l : list (string * bucket)) :
  insert_by_key kv l ≡ₚ kv :: l.
Proof.
  induction l as [|kv' l IH]; [reflexivity|].
  cbn. destruct (String.leb (fst kv) (fst kv')); [reflexivity|].
  rewrite IH. apply Permutation_swap.
Qed.

Lemma insert_by_key_hd (kv x : string * bucket) (l : list (string * bucket)) :
  key_le x kv -> HdRel key_le x l -> HdRel key_le x (insert_by_key kv l).
Proof.
  intros Hx Hl. destruct l as [|kv' l]; cbn.
  - now constructor.
  - destruct (String.leb (fst kv) (fst kv')); constructor; [assumption|].
    now inversion Hl.
Qed.

Lemma insert_by_key_sorted (kv : string * bucket) (l : list (string * bucket)) :
  Sorted key_le l -> Sorted key_le (insert_by_key kv l).
Proof.
  induction 1 as [|kv' l Hs IH Hhd]; cbn.
  - repeat constructor.
  - destruct (String.leb (fst kv) (fst kv')) eqn:Hle.
    + constructor; [now constructor|]. now constructor.
    + constructor; [exact IH|]. apply insert_by_key_hd; [|exact Hhd].
      unfold key_le. destruct (String.leb_total (fst kv) (fst kv')); congruence.
Qed.

Lemma sorted_items_perm (stats : gmap string bucket) :
  sorted_items stats ≡ₚ map_to_list stats.
Proof.
  unfold sorted_items. induction (map_to_list stats) as [|kv l IH]; [reflexivity|].
  cbn. now rewrite insert_by_key_perm, IH.
Qed.

Lemma sorted_items_sorted (stats : gmap string bucket) :
  Sorted key_le (sorted_items stats).
Proof.
  unfold sorted_items. induction (map_to_list stats) as [|kv l IH]; cbn.
  - constructor.
  - now apply insert_by_key_sorted.
Qed.

Lemma print_rows_output (rows : list (string * bucket)) (w : world)
    (log : list entry) :
  print_rows rows (w, log)
  = (Ok tt, (set_stdout (fun out => out ++ (stats_row <$> rows)) w, log)).
Proof.
  revert w. induction rows as [|kv rows IH]; intros w.
  - cbn. destruct w. unfold set_stdout. cbn. now rewrite app_nil_r.
  - cbn [print_rows]. run. cbn beta iota. rewrite IH.
    destruct w. unfold set_stdout. cbn. now rewrite <- app_assoc.
Qed.

(** X23.  A statistics dump prints the heading with the number of logged
    events, then one row per bucket, that is one per "protocol:port" key
    that occurs in the log, in ascending order of the keys, then the
    closing rule; the row of a key shows the bucket of that key. *)
Theorem dump_prints_one_row_per_key (w : world) (log : list entry) :
  exists rows,
    w_stdout (fst (snd (dump_stats_once (w, log))))
    = w_stdout w
        ++ [""; stats_rule;
            ("STATISTICS - " ++ pretty (length log) ++ " total connections")%string;
            stats_rule]
        ++ (stats_row <$> rows) ++ [stats_rule; ""]
    /\ Sorted key_le rows
    /\ NoDup (fst <$> rows)
    /\ (forall key b, (key, b) ∈ rows <-> bucket_of key log = Some b).
Proof.
  exists (sorted_items (group_stats log)). split; [|split; [|split]].
  - unfold dump_stats_once. run. cbn beta iota. rewrite print_rows_output.
    destruct w. cbn. rewrite <- !app_assoc. reflexivity.
  - apply sorted_items_sorted.
  - rewrite sorted_items_perm. apply NoDup_fst_map_to_list.
  - intros key b. rewrite sorted_items_perm, elem_of_map_to_list.
    now rewrite group_stats_lookup.
Qed.

End StatsTable.

Section DataLine.

Import MultiportAnalyzer.

Lemma hex_digit_single (n : N) : exists c, hex_digit n = String c "".
Proof. unfold hex_digit. repeat case_match; eauto. Qed.

Lemma hex_take_double (k : nat) (bs : bytes) :
  String.substring 0 (k + k) (hex bs) = hex (take k bs).
Proof.
  revert bs. induction k as [|k IH]; intros bs.
  - destruct bs as [|b bs]; [reflexivity|]. cbn [hex take].
    destruct (hex_digit_single (Byte.to_N b / 16)) as [c1 ->]. reflexivity.
  - destruct bs as [|b bs]; [reflexivity|].
    replace (S k + S k) with (S (S (k + k))) by lia.
    cbn [hex firstn].
    destruct (hex_digit_single (Byte.to_N b / 16)) as [c1 ->].
    destruct (hex_digit_single (Byte.to_N b mod 16)) as [c2 ->].
    change (String.substring 0 (S (S (k + k)))
              (String c1 "" ++ String c2 "" ++ hex bs))
      with (String c1 (String c2 (String.substring 0 (k + k) (hex bs)))).
    now rewrite IH.
Qed.

Lemma hex_take (k : nat) (bs : bytes) :
  str_take (2 * k) (hex bs) = hex (take k bs).
Proof.
  unfold str_take. replace (2 * k) with (k + k) by lia.
  apply hex_take_double.
Qed.

(** X24.  For an event logged with the hex rendering of its data, the
    console line "Data (first 64B)" shows the hex of exactly the first 64
    bytes of the data, while the log entry keeps the hex of all of it. *)
Theorem data_line_shows_first_64_bytes (p : Z) (proto : string) (a : addr)
    (data : bytes) (status : string) (w : world) (log : list entry) :
  data <> [] ->
  let run := log_connection p proto a (length data) (hex data) status (w, log) in
  last (w_stdout (fst (snd run)))
  = Some ("  Data (first 64B): " ++ hex (take 64 data))%string
  /\ data_hex <$> last (snd (snd run)) = Some (hex data).
Proof.
  intros Hne. cbv zeta. unfold log_connection. run. unfold now_isoformat.
  destruct data as [|b data]; [done|].
  cbn beta iota. case_decide; [|cbn in *; lia].
  cbn beta iota. cbn [fst snd]. split.
  - destruct w. cbn [set_stdout w_stdout tick]. rewrite last_snoc.
    do 2 f_equal. apply (hex_take 64).
  - now rewrite last_snoc.
Qed.

Lemma data_line_shows_first_64_bytes_witness :
  let data := replicate 70 xab in
  last (w_stdout
          (fst (snd (log_connection 443 "TCP-HTTPS" ("10.0.0.7", 40000%Z)
                       (length data) (hex data) "RECEIVED"
                       (world_of idle_tcp idle_udp, [])))))
  = Some ("  Data (first 64B): " ++ hex (replicate 64 xab))%string.
Proof.
  apply (data_line_shows_first_64_bytes 443 "TCP-HTTPS" ("10.0.0.7", 40000%Z)
           (replicate 70 xab) "RECEIVED" (world_of idle_tcp idle_udp) []).
  discriminate.
Defined.

End DataLine.

Section Summary.

Import ProtocolTesterClient.

Lemma summary_rows_result (tests : report) :
  forall (count : nat) (w : world),
    summary_rows tests count w
    = (Ok (count + length (List.filter works tests)),
       set_stdout (fun out => out ++ (summary_row <$> tests)) w).
Proof.
  induction tests as [|t tests IH]; intros count w.
  - cbn. destruct w. unfold set_stdout. cbn.
    now rewrite app_nil_r, Nat.add_0_r.
  - cbn [summary_rows]. run. cbn beta iota. rewrite IH.
    destruct w. unfold set_stdout. cbn.
    rewrite <- app_assoc. destruct (works t); cbn; do 2 f_equal; lia.
Qed.

(** X25.  The results table of a non-empty report has one row per probe,
    in the order of the report, and ends with the success rate: the number
    of results whose status is SUCCESS, the number of probes, and the
    whole-number percentage of the first in the second. *)
Theorem summary_counts_successes (tests : report) (w : world) :
  tests <> [] ->
  let k := length (List.filter works tests) in
  let n := length tests in
  fst (summary tests w) = Ok tt
  /\ exists heading,
       length heading = 6
       /\ w_stdout (snd (summary tests w))
          = w_stdout w ++ heading ++ (summary_row <$> tests)
              ++ [times "=" 70;
                  ("Success Rate: " ++ pretty k ++ "/" ++ pretty n ++ " ("
                     ++ pretty (100 * k / n) ++ "%)")%string].
Proof.
  intros Hne. cbv zeta. unfold summary. run. cbn beta iota.
  rewrite summary_rows_result. cbn beta iota.
  case_decide as Hl; [destruct tests; [done|discriminate Hl]|].
  split; [reflexivity|]. eexists [_; _; _; _; _; _]. split; [reflexivity|].
  destruct w. cbn. rewrite <- !app_assoc. reflexivity.
Qed.

Lemma summary_counts_successes_witness :
  let ok := Result 53 "tcp" "X" 2 "SUCCESS" 7 12 in
  let tests := [("a", ok); ("b", timed_out_result); ("c", ok)] in
  last (w_stdout (snd (summary tests (world_of idle_tcp idle_udp))))
  = Some "Success Rate: 2/3 (66%)".
Proof.
  cbv zeta.
  destruct (summary_counts_successes
              [("a", Result 53 "tcp" "X" 2 "SUCCESS" 7 12);
               ("b", timed_out_result);
               ("c", Result 53 "tcp" "X" 2 "SUCCESS" 7 12)]
              (world_of idle_tcp idle_udp) ltac:(discriminate))
    as (_ & heading & _ & ->).
  rewrite !last_app. reflexivity.
Defined.

End Summary.
